(** * Carnival workshop reservations: slot ledger, lifecycle and payment
      reconciliation

    A shallow embedding of [controllers/SpecialCourse.controller.js],
    [controllers/PaymentWebhook.controller.js], [services/validation.service.js]
    and of the two Mongoose schemas they use ([SpecialCourse],
    [SpecialCoursePayment]).

    Conventions of the embedding:
    - a collection is the list of its documents in natural order; [findOne]
      returns the first match, [countDocuments] the number of matches;
    - a JavaScript [Date] is its time value in milliseconds ([Z]); an invalid
      date is [None];
    - a string is a Rocq [string] holding the UTF-8 bytes of the text: white
      space and line terminators are those of ECMAScript (one to three
      bytes), [length] counts UTF-16 code units, and case folding is that of
      the letters a-z;
    - a handler runs at one instant [now] and returns its response together
      with the store it leaves behind; an exception is an explicit result. *)

From Stdlib Require Import ZArith List String Ascii Bool Lia.
Import ListNotations.

Local Open Scope string_scope.
Local Open Scope Z_scope.

(* ================================================================== *)
(** ** JavaScript strings *)
(* ================================================================== *)

Module JsString.

Definition code (c : ascii) : Z := Z.of_nat (nat_of_ascii c).

(** The white space and line terminators of one byte that [trim] and [\s]
    recognise: TAB, LF, VT, FF, CR and SP. *)
Definition isWhite (c : ascii) : bool :=
  let n := code c in ((9 <=? n) && (n <=? 13)) || (n =? 32).

(** Those of two bytes: U+00A0. *)
Definition isWhite2 (c1 c2 : ascii) : bool :=
  (code c1 =? 194) && (code c2 =? 160).

(** Those of three bytes: U+1680, U+2000 to U+200A, U+2028, U+2029,
    U+202F, U+205F, U+3000 and U+FEFF. *)
Definition isWhite3 (c1 c2 c3 : ascii) : bool :=
  let n1 := code c1 in
  let n2 := code c2 in
  let n3 := code c3 in
  ((n1 =? 225) && ((n2 =? 154) && (n3 =? 128))) ||
  ((n1 =? 226) &&
   (((n2 =? 128) &&
     (((128 <=? n3) && (n3 <=? 138)) || (n3 =? 168) || (n3 =? 169) ||
      (n3 =? 175))) ||
    ((n2 =? 129) && (n3 =? 159)))) ||
  ((n1 =? 227) && ((n2 =? 128) && (n3 =? 128))) ||
  ((n1 =? 239) && ((n2 =? 187) && (n3 =? 191))).

(** Line terminators, the characters [.] does not match: LF and CR, and in
    three bytes U+2028 and U+2029. *)
Definition isLineTerminator (c : ascii) : bool :=
  let n := code c in (n =? 10) || (n =? 13).

Definition isLineTerminator3 (c1 c2 c3 : ascii) : bool :=
  (code c1 =? 226) && ((code c2 =? 128) &&
  ((code c3 =? 168) || (code c3 =? 169))).

Definition isDigit (c : ascii) : bool :=
  let n := code c in (48 <=? n) && (n <=? 57).

Definition isUpper (c : ascii) : bool :=
  let n := code c in (65 <=? n) && (n <=? 90).

Definition isLower (c : ascii) : bool :=
  let n := code c in (97 <=? n) && (n <=? 122).

(** [\w] *)
Definition isWord (c : ascii) : bool :=
  isDigit c || isUpper c || isLower c || (code c =? 95).

Definition lowerChar (c : ascii) : ascii :=
  if isUpper c then ascii_of_nat (nat_of_ascii c + 32) else c.

Definition upperChar (c : ascii) : ascii :=
  if isLower c then ascii_of_nat (nat_of_ascii c - 32) else c.

Section DropWhite.

(** The tests for a white-space character of two and of three bytes, as
    they read in the direction of the scan. *)
Variable white2 : ascii -> ascii -> bool.
Variable white3 : ascii -> ascii -> ascii -> bool.

(** Does [l] start with a white-space character? *)
Definition startsWhite (l : list ascii) : bool :=
  match l with
  | c1 :: l1 =>
      isWhite c1 ||
      match l1 with
      | c2 :: l2 =>
          white2 c1 c2 ||
          match l2 with
          | c3 :: _ => white3 c1 c2 c3
          | [] => false
          end
      | [] => false
      end
  | [] => false
  end.

Fixpoint dropWhiteBy (l : list ascii) : list ascii :=
  match l with
  | c1 :: l1 =>
      if isWhite c1 then dropWhiteBy l1
      else
        match l1 with
        | c2 :: l2 =>
            if white2 c1 c2 then dropWhiteBy l2
            else
              match l2 with
              | c3 :: l3 => if white3 c1 c2 c3 then dropWhiteBy l3 else l
              | [] => l
              end
        | [] => l
        end
  | [] => []
  end.

End DropWhite.

(** The text after its leading white space. *)
Definition dropWhite (l : list ascii) : list ascii :=
  dropWhiteBy isWhite2 isWhite3 l.

(** The same on a reversed text, for the trailing white space. *)
Definition dropWhiteReversed (l : list ascii) : list ascii :=
  dropWhiteBy (fun c2 c1 => isWhite2 c1 c2)
              (fun c3 c2 c1 => isWhite3 c1 c2 c3) l.

Definition trimChars (l : list ascii) : list ascii :=
  rev (dropWhiteReversed (rev (dropWhite l))).

(** [s.replace(/\s+/g, '')] *)
Fixpoint removeWhite (l : list ascii) : list ascii :=
  match l with
  | c1 :: l1 =>
      if isWhite c1 then removeWhite l1
      else
        match l1 with
        | c2 :: l2 =>
            if isWhite2 c1 c2 then removeWhite l2
            else
              match l2 with
              | c3 :: l3 =>
                  if isWhite3 c1 c2 c3 then removeWhite l3
                  else c1 :: removeWhite l1
              | [] => c1 :: removeWhite l1
              end
        | [] => c1 :: removeWhite l1
        end
  | [] => []
  end.

Definition trim (s : string) : string :=
  string_of_list_ascii (trimChars (list_ascii_of_string s)).

Definition toLowerCase (s : string) : string :=
  string_of_list_ascii (map lowerChar (list_ascii_of_string s)).

(** [s.split(sep)] for a one-character separator. *)
Fixpoint splitChars (sep : ascii) (cur : list ascii) (l : list ascii)
  : list string :=
  match l with
  | [] => [string_of_list_ascii (rev cur)]
  | c :: l' =>
      if Ascii.eqb c sep
      then string_of_list_ascii (rev cur) :: splitChars sep [] l'
      else splitChars sep (c :: cur) l'
  end.

Definition split (sep : ascii) (s : string) : list string :=
  splitChars sep [] (list_ascii_of_string s).

Fixpoint isPrefixOf (p l : list ascii) : bool :=
  match p, l with
  | [], _ => true
  | a :: p', b :: l' => Ascii.eqb a b && isPrefixOf p' l'
  | _ :: _, [] => false
  end.

Fixpoint includesChars (p l : list ascii) : bool :=
  isPrefixOf p l ||
  match l with
  | [] => false
  | _ :: l' => includesChars p l'
  end.

(** [s.includes(p)] *)
Definition includes (p s : string) : bool :=
  includesChars (list_ascii_of_string p) (list_ascii_of_string s).

(** The UTF-16 code units a byte of UTF-8 starts: none for a continuation
    byte, two for the first byte of a character beyond U+FFFF. *)
Definition codeUnits (c : ascii) : Z :=
  let n := code c in
  if n <? 128 then 1 else if n <? 192 then 0 else if n <? 240 then 1 else 2.

(** [s.length] *)
Definition strlen (s : string) : Z :=
  fold_right (fun c n => codeUnits c + n) 0 (list_ascii_of_string s).

(** A text of ASCII characters, on which bytes, code units and characters
    coincide. *)
Definition isAscii (s : string) : bool :=
  forallb (fun c => code c <? 128) (list_ascii_of_string s).

(** Value of a digit in the given radix. *)
Definition digitVal (radix : Z) (c : ascii) : option Z :=
  let n := code c in
  let v :=
    if isDigit c then Some (n - 48)
    else if isLower c then Some (n - 87)
    else if isUpper c then Some (n - 55)
    else None in
  match v with
  | Some d => if d <? radix then Some d else None
  | None => None
  end.

Fixpoint parseDigits (radix : Z) (acc : option Z) (l : list ascii)
  : option Z :=
  match l with
  | [] => acc
  | c :: l' =>
      match digitVal radix c with
      | Some d =>
          parseDigits radix
            (Some (radix * match acc with Some a => a | None => 0 end + d)) l'
      | None => acc
      end
  end.

(** [parseInt(s)] without a radix; [None] is [NaN]. *)
Definition parseInt (s : string) : option Z :=
  let l := dropWhite (list_ascii_of_string s) in
  let '(sign, l1) :=
    match l with
    | "-"%char :: t => (-1, t)
    | "+"%char :: t => (1, t)
    | _ => (1, l)
    end in
  let '(radix, l2) :=
    match l1 with
    | "0"%char :: "x"%char :: t => (16, t)
    | "0"%char :: "X"%char :: t => (16, t)
    | _ => (10, l1)
    end in
  option_map (Z.mul sign) (parseDigits radix None l2).

(** [parseInt(parts[i])]: a missing part is [undefined], hence [NaN]. *)
Definition parseIntAt (parts : list string) (i : nat) : option Z :=
  match nth_error parts i with
  | Some p => parseInt p
  | None => None
  end.

(** The [w] low decimal digits of [n], most significant first. *)
Fixpoint decFixed (w : nat) (n : Z) : string :=
  match w with
  | O => ""
  | S w' =>
      decFixed w' (n / 10) ++
      String (ascii_of_nat (48 + Z.to_nat (n mod 10))) ""
  end.

(** Decimal digits of a non-negative number, without padding. *)
Fixpoint decDigits (fuel : nat) (n : Z) : string :=
  match fuel with
  | O => ""
  | S f =>
      (if n <? 10 then "" else decDigits f (n / 10)) ++
      String (ascii_of_nat (48 + Z.to_nat (n mod 10))) ""
  end.

Definition ofNumber (n : Z) : string :=
  if n <? 0 then "-" ++ decDigits (S (Z.to_nat (Z.log2 (- n)))) (- n)
  else decDigits (S (Z.to_nat (Z.log2 n))) n.

(** [String(n).padStart(w, '0')] *)
Definition padStart0 (w : nat) (s : string) : string :=
  string_of_list_ascii
    (repeat "0"%char (w - String.length s) ++ list_ascii_of_string s).

End JsString.

(* ================================================================== *)
(** ** JavaScript dates *)
(* ================================================================== *)

Module JsDate.

Definition msPerDay : Z := 86400000.

Definition DayFromYear (y : Z) : Z :=
  365 * (y - 1970) + (y - 1969) / 4 - (y - 1901) / 100 + (y - 1601) / 400.

Definition InLeapYear (y : Z) : bool :=
  if negb (y mod 4 =? 0) then false
  else if negb (y mod 100 =? 0) then true
  else y mod 400 =? 0.

(** Day within the year on which month [m] (0 = January) starts. *)
Definition monthStart (m : Z) (leap : bool) : Z :=
  let l := if leap then 1 else 0 in
  match m with
  | 0 => 0 | 1 => 31 | 2 => 59 + l | 3 => 90 + l | 4 => 120 + l
  | 5 => 151 + l | 6 => 181 + l | 7 => 212 + l | 8 => 243 + l
  | 9 => 273 + l | 10 => 304 + l | _ => 334 + l
  end.

Definition MakeDay (year month date : Z) : Z :=
  let ym := year + month / 12 in
  let mn := month mod 12 in
  DayFromYear ym + monthStart mn (InLeapYear ym) + date - 1.

Definition TimeClip (t : Z) : option Z :=
  if Z.abs t <=? 8640000000000000 then Some t else None.

(** [Date.UTC(year, month, day)]; a [NaN] argument gives [NaN]. *)
Definition UTC (year month day : option Z) : option Z :=
  match year, month, day with
  | Some y, Some m, Some d =>
      let yr := if (0 <=? y) && (y <=? 99) then 1900 + y else y in
      TimeClip (MakeDay yr m d * msPerDay)
  | _, _, _ => None
  end.

Definition Day (t : Z) : Z := t / msPerDay.

(** Year, month (1 = January) and day of the month of day number [z]. *)
Definition civilFromDays (z0 : Z) : Z * Z * Z :=
  let z := z0 + 719468 in
  let era := z / 146097 in
  let doe := z - era * 146097 in
  let yoe := (doe - doe / 1460 + doe / 36524 - doe / 146096) / 365 in
  let doy := doe - (365 * yoe + yoe / 4 - yoe / 100) in
  let mp := (5 * doy + 2) / 153 in
  let d := doy - (153 * mp + 2) / 5 + 1 in
  let m := if mp <? 10 then mp + 3 else mp - 9 in
  let y := yoe + era * 400 + (if m <=? 2 then 1 else 0) in
  (y, m, d).

Definition isoYear (y : Z) : string :=
  if (0 <=? y) && (y <=? 9999) then JsString.decFixed 4 y
  else if y <? 0 then "-" ++ JsString.decFixed 6 (- y)
  else "+" ++ JsString.decFixed 6 y.

(** [d.toISOString().split('T')[0]] for a valid date. *)
Definition isoDate (t : Z) : string :=
  let '(y, m, d) := civilFromDays (Day t) in
  isoYear y ++ "-" ++ JsString.decFixed 2 m ++ "-" ++ JsString.decFixed 2 d.

(** Midnight UTC of the day of [t]:
    [Date.UTC(d.getUTCFullYear(), d.getUTCMonth(), d.getUTCDate())]. *)
Definition utcMidnight (t : Z) : option Z :=
  let '(y, m, d) := civilFromDays (Day t) in
  UTC (Some y) (Some (m - 1)) (Some d).

End JsDate.

Example isoDate_online_day :
  JsDate.UTC (Some 2026) (Some 0) (Some 25) = Some 1769299200000 /\
  JsDate.isoDate 1769299200000 = "2026-01-25".
Proof. split; reflexivity. Qed.

(* ================================================================== *)
(** ** Data model: the two collections *)
(* ================================================================== *)

(** [status] of a reservation.  The schema's enum has the first four
    values; [refunded] is the fifth literal the controllers assign. *)
Module Status.
Inductive t := pending_payment | registered | expired | cancelled | refunded.

Definition eqb (a b : t) : bool :=
  match a, b with
  | pending_payment, pending_payment | registered, registered
  | expired, expired | cancelled, cancelled | refunded, refunded => true
  | _, _ => false
  end.

(** [enum: ['pending_payment', 'registered', 'expired', 'cancelled']] *)
Definition inEnum (a : t) : bool :=
  match a with refunded => false | _ => true end.
End Status.

(** [payment_status] of a reservation. *)
Module PaymentStatus.
Inductive t := pending | paid | expired | failed | refunded.

Definition eqb (a b : t) : bool :=
  match a, b with
  | pending, pending | paid, paid | expired, expired
  | failed, failed | refunded, refunded => true
  | _, _ => false
  end.
End PaymentStatus.

(** The [SpecialCourse] model (one document per reservation).  An amount is
    kept in hundredths of a rupee, so that the [payment.amount / 100] of a
    gateway event stays exact.  Left out, because no decision reads them:
    the request metadata ([ip_address], [user_agent], [source]), the [bank],
    [wallet] and [vpa] sub-fields of [payment], and [updatedAt], which the
    timestamps plugin maintains. *)
Module SpecialCourse.

Record Payment := {
  razorpay_payment_id : option string;
  razorpay_order_id : option string;
  razorpay_signature : option string;
  amount : option Z;
  paymentState : option string;       (* [payment.status] *)
  payment_date : option Z;
  method : option string
}.

Definition noPayment : Payment :=
  {| razorpay_payment_id := None; razorpay_order_id := None;
     razorpay_signature := None; amount := None; paymentState := None;
     payment_date := None; method := None |}.

Record doc := {
  _id : Z;
  registrationId : string;
  carnivalName : string;
  parentName : string;
  email : string;
  phone : string;
  childName : string;
  childAge : string;
  selectedBatch : string;
  batchTime : string;
  selectedDate : Z;
  materialType : bool;
  status : Status.t;
  payment_status : PaymentStatus.t;
  payment : Payment;
  payment_expires_at : option Z;
  payment_confirmed_at : option Z;
  expiredAt : option Z;
  expiration_reason : option string;
  createdAt : Z
}.

(** Assignments to the fields the controllers write. *)
Definition setStatus (s : Status.t) (r : doc) : doc :=
  {| _id := _id r; registrationId := registrationId r;
     carnivalName := carnivalName r; parentName := parentName r;
     email := email r; phone := phone r; childName := childName r;
     childAge := childAge r; selectedBatch := selectedBatch r;
     batchTime := batchTime r; selectedDate := selectedDate r;
     materialType := materialType r; status := s;
     payment_status := payment_status r; payment := payment r;
     payment_expires_at := payment_expires_at r;
     payment_confirmed_at := payment_confirmed_at r;
     expiredAt := expiredAt r; expiration_reason := expiration_reason r;
     createdAt := createdAt r |}.

Definition setPaymentStatus (p : PaymentStatus.t) (r : doc) : doc :=
  {| _id := _id r; registrationId := registrationId r;
     carnivalName := carnivalName r; parentName := parentName r;
     email := email r; phone := phone r; childName := childName r;
     childAge := childAge r; selectedBatch := selectedBatch r;
     batchTime := batchTime r; selectedDate := selectedDate r;
     materialType := materialType r; status := status r;
     payment_status := p; payment := payment r;
     payment_expires_at := payment_expires_at r;
     payment_confirmed_at := payment_confirmed_at r;
     expiredAt := expiredAt r; expiration_reason := expiration_reason r;
     createdAt := createdAt r |}.

Definition setPayment (p : Payment) (r : doc) : doc :=
  {| _id := _id r; registrationId := registrationId r;
     carnivalName := carnivalName r; parentName := parentName r;
     email := email r; phone := phone r; childName := childName r;
     childAge := childAge r; selectedBatch := selectedBatch r;
     batchTime := batchTime r; selectedDate := selectedDate r;
     materialType := materialType r; status := status r;
     payment_status := payment_status r; payment := p;
     payment_expires_at := payment_expires_at r;
     payment_confirmed_at := payment_confirmed_at r;
     expiredAt := expiredAt r; expiration_reason := expiration_reason r;
     createdAt := createdAt r |}.

Definition setPaymentConfirmedAt (t : Z) (r : doc) : doc :=
  {| _id := _id r; registrationId := registrationId r;
     carnivalName := carnivalName r; parentName := parentName r;
     email := email r; phone := phone r; childName := childName r;
     childAge := childAge r; selectedBatch := selectedBatch r;
     batchTime := batchTime r; selectedDate := selectedDate r;
     materialType := materialType r; status := status r;
     payment_status := payment_status r; payment := payment r;
     payment_expires_at := payment_expires_at r;
     payment_confirmed_at := Some t;
     expiredAt := expiredAt r; expiration_reason := expiration_reason r;
     createdAt := createdAt r |}.

Definition setExpiry (t : Z) (reason : string) (r : doc) : doc :=
  {| _id := _id r; registrationId := registrationId r;
     carnivalName := carnivalName r; parentName := parentName r;
     email := email r; phone := phone r; childName := childName r;
     childAge := childAge r; selectedBatch := selectedBatch r;
     batchTime := batchTime r; selectedDate := selectedDate r;
     materialType := materialType r; status := status r;
     payment_status := payment_status r; payment := payment r;
     payment_expires_at := payment_expires_at r;
     payment_confirmed_at := payment_confirmed_at r;
     expiredAt := Some t; expiration_reason := Some reason;
     createdAt := createdAt r |}.

(** [isRegistrationComplete] *)
Definition isRegistrationComplete (r : doc) : bool :=
  Status.eqb (status r) Status.registered &&
  PaymentStatus.eqb (payment_status r) PaymentStatus.paid.

End SpecialCourse.

(** The [SpecialCoursePayment] model (the payment log).  [registrationId]
    and [amount] are optional in a stored document because an upsert writes
    only the payment id and the status. *)
Module SpecialCoursePayment.

Inductive LogStatus := created | authorized | captured | failed | refunded.

Record doc := {
  registrationId : option string;
  razorpay_payment_id : string;
  razorpay_order_id : option string;
  amount : option Z;
  status : LogStatus;
  source : option string
}.

Definition setStatus (s : LogStatus) (p : doc) : doc :=
  {| registrationId := registrationId p;
     razorpay_payment_id := razorpay_payment_id p;
     razorpay_order_id := razorpay_order_id p;
     amount := amount p; status := s; source := source p |}.

End SpecialCoursePayment.

(** The persisted state. *)
Record Store := {
  courses : list SpecialCourse.doc;
  coursePayments : list SpecialCoursePayment.doc
}.

Definition withCourses (cs : list SpecialCourse.doc) (st : Store) : Store :=
  {| courses := cs; coursePayments := coursePayments st |}.

Definition withPayments (ps : list SpecialCoursePayment.doc) (st : Store)
  : Store :=
  {| courses := courses st; coursePayments := ps |}.

(** [countDocuments] *)
Definition countDocuments {A} (q : A -> bool) (l : list A) : Z :=
  Z.of_nat (List.length (filter q l)).

(** [deleteMany] *)
Definition deleteMany {A} (q : A -> bool) (l : list A) : list A :=
  filter (fun x => negb (q x)) l.

(** [deleteOne]: removes the first match. *)
Fixpoint deleteOne {A} (q : A -> bool) (l : list A) : list A :=
  match l with
  | [] => []
  | x :: l' => if q x then l' else x :: deleteOne q l'
  end.

(** [find(q).distinct(field)] *)
Definition distinct {A} (q : A -> bool) (field : A -> string) (l : list A)
  : list string :=
  nodup string_dec (map field (filter q l)).

Definition inStrings (s : string) (l : list string) : bool :=
  existsb (String.eqb s) l.

(** [{ registrationId: { $in: ids } }] on the payment log. *)
Definition paymentOfAny (ids : list string) (p : SpecialCoursePayment.doc)
  : bool :=
  match SpecialCoursePayment.registrationId p with
  | Some i => inStrings i ids
  | None => false
  end.

(** [{ registrationId: id }] on the payment log. *)
Definition paymentOf (id : string) (p : SpecialCoursePayment.doc) : bool :=
  paymentOfAny [id] p.

(* ================================================================== *)
(** ** The runtime the controllers run on *)
(* ================================================================== *)

(** What the code takes from its platform and its environment.
    - [localDateFields s]: [getFullYear()], [getMonth()] and [getDate()] of
      [new Date(s)], or [None] when [s] does not parse;
    - [hmacSha256Hex key msg]:
      [crypto.createHmac('sha256', key).update(msg).digest('hex')];
    - the two secrets read from [process.env] ([None] when unset). *)
Record Runtime := {
  localDateFields : string -> option (Z * Z * Z);
  hmacSha256Hex : string -> string -> string;
  RAZORPAY_WEBHOOK_SECRET : option string;
  RAZORPAY_KEY_SECRET : option string
}.

(* ================================================================== *)
(** ** Constants *)
(* ================================================================== *)

Definition BATCH_CAPACITY : Z := 20.
Definition MAX_PENDING_MINUTES : Z := 15.
Definition DELETE_PENDING_AFTER_MINUTES : Z := 10.
Definition CLEANUP_INTERVAL_MINUTES : Z := 5.

(** [new Date(now.getTime() - (DELETE_PENDING_AFTER_MINUTES * 60 * 1000))] *)
Definition deleteThresholdAt (now : Z) : Z :=
  now - DELETE_PENDING_AFTER_MINUTES * 60 * 1000.

(* ================================================================== *)
(** ** Slot ledger *)
(* ================================================================== *)

(** A date argument: a [Date] instance or a string. *)
Inductive DateInput :=
| DateObject (t : Z)
| DateString (s : string).

Inductive SlotStatus := available | full | limited | slotError.

Record SlotDetails := {
  paidCount : Z;
  activePendingCount : Z;
  expiredPendingCount : Z;
  oldPendingDeleted : Z;
  totalCount : Z
}.

(** The snapshot [checkSlotAvailability] returns.  [dateString] and
    [isOnline] are absent from the snapshot of the [catch] branch, [error]
    from the other one. *)
Record SlotInfo := {
  slotCarnival : string;
  slotBatch : string;
  dateString : option string;
  isOnline : option bool;
  registeredCount : Z;
  availableSlots : Z;
  isFull : bool;
  capacity : Z;
  slotStatus : SlotStatus;
  details : SlotDetails;
  slotErrorMessage : option string
}.

Section SlotLedger.

Context (rt : Runtime).

(** [parseDateForQuery] *)
Definition parseDateForQuery (d : DateInput) : option Z :=
  match d with
  | DateObject t => Some t
  | DateString s =>
      let parts := JsString.split "-" s in
      if (List.length parts =? 3)%nat then
        JsDate.UTC (JsString.parseIntAt parts 0)
                   (option_map (fun m => m - 1) (JsString.parseIntAt parts 1))
                   (JsString.parseIntAt parts 2)
      else
        match localDateFields rt s with
        | Some (y, m, d) => JsDate.UTC (Some y) (Some m) (Some d)
        | None => None
        end
  end.

(** The three fields of the scope key, as every slot query starts.  The
    names are compared as they reach the collection: Mongoose casts the
    value of a filter with the setters of its path, here [trim], which
    leaves a name without surrounding white space as it is.  The statements
    about a name that comes from a request assume such a name. *)
Definition inScope (carnival batch : string) (queryDate : Z)
    (r : SpecialCourse.doc) : bool :=
  String.eqb (SpecialCourse.carnivalName r) carnival &&
  String.eqb (SpecialCourse.selectedBatch r) batch &&
  (SpecialCourse.selectedDate r =? queryDate).

Definition isPending (r : SpecialCourse.doc) : bool :=
  Status.eqb (SpecialCourse.status r) Status.pending_payment &&
  PaymentStatus.eqb (SpecialCourse.payment_status r) PaymentStatus.pending.

(** [oldPendingQuery] *)
Definition oldPendingQuery (carnival batch : string) (queryDate : Z)
    (deleteThreshold : Z) (r : SpecialCourse.doc) : bool :=
  inScope carnival batch queryDate r && isPending r &&
  (SpecialCourse.createdAt r <? deleteThreshold).

(** The filter of [paidCount]. *)
Definition paidQuery (carnival batch : string) (queryDate : Z)
    (r : SpecialCourse.doc) : bool :=
  inScope carnival batch queryDate r &&
  SpecialCourse.isRegistrationComplete r.

(** [activePendingQuery] *)
Definition activePendingQuery (carnival batch : string) (queryDate : Z)
    (deleteThreshold : Z) (r : SpecialCourse.doc) : bool :=
  inScope carnival batch queryDate r && isPending r &&
  (deleteThreshold <=? SpecialCourse.createdAt r).

(** The filter of [expiredPendingCount]. *)
Definition expiredQuery (carnival batch : string) (queryDate : Z)
    (r : SpecialCourse.doc) : bool :=
  inScope carnival batch queryDate r &&
  Status.eqb (SpecialCourse.status r) Status.expired &&
  PaymentStatus.eqb (SpecialCourse.payment_status r) PaymentStatus.expired.

(** The first step of [checkSlotAvailability]: delete the old pending
    reservations of the slot, then look their registration ids up to
    delete their payment records. *)
Definition deleteOldPending (carnival batch : string) (queryDate : Z)
    (deleteThreshold : Z) (st : Store) : Z * Store :=
  let oldPendingCount :=
    countDocuments (oldPendingQuery carnival batch queryDate deleteThreshold)
      (courses st) in
  if 0 <? oldPendingCount then
    let st1 :=
      withCourses
        (deleteMany (oldPendingQuery carnival batch queryDate deleteThreshold)
           (courses st)) st in
    let regIds :=
      distinct (oldPendingQuery carnival batch queryDate deleteThreshold)
        SpecialCourse.registrationId (courses st1) in
    let st2 :=
      if (0 <? List.length regIds)%nat then
        withPayments (deleteMany (paymentOfAny regIds) (coursePayments st1)) st1
      else st1 in
    (oldPendingCount, st2)
  else (oldPendingCount, st).

(** The snapshot of the [catch] branch. *)
Definition slotErrorInfo (carnival batch : string) (message : string)
  : SlotInfo :=
  {| slotCarnival := carnival; slotBatch := batch;
     dateString := None; isOnline := None;
     registeredCount := 0; availableSlots := BATCH_CAPACITY;
     isFull := false; capacity := BATCH_CAPACITY;
     slotStatus := slotError;
     details := {| paidCount := 0; activePendingCount := 0;
                   expiredPendingCount := 0; oldPendingDeleted := 0;
                   totalCount := 0 |};
     slotErrorMessage := Some message |}.

(** [checkSlotAvailability(carnivalName, batchName, selectedDate)] at the
    instant [now].  An invalid date makes [toISOString] throw, which the
    [catch] branch turns into the error snapshot. *)
Definition checkSlotAvailability (now : Z) (carnival batch : string)
    (selectedDate : DateInput) (st : Store) : SlotInfo * Store :=
  match parseDateForQuery selectedDate with
  | None => (slotErrorInfo carnival batch "Invalid time value", st)
  | Some queryDate =>
      let deleteThreshold := deleteThresholdAt now in
      let '(oldPendingCount, st') :=
        deleteOldPending carnival batch queryDate deleteThreshold st in
      let paid := countDocuments (paidQuery carnival batch queryDate)
                    (courses st') in
      let activePending :=
        countDocuments
          (activePendingQuery carnival batch queryDate deleteThreshold)
          (courses st') in
      let expiredPending :=
        countDocuments (expiredQuery carnival batch queryDate)
          (courses st') in
      let dateStr := JsDate.isoDate queryDate in
      let online := String.eqb dateStr "2026-01-25" in
      let effectiveCapacity := if online then 9999 else BATCH_CAPACITY in
      let registered := paid + activePending in
      let avail := Z.max 0 (effectiveCapacity - registered) in
      let status :=
        if negb online && (avail =? 0) then full
        else if negb online && (avail <=? 3) then limited
        else available in
      ({| slotCarnival := carnival; slotBatch := batch;
          dateString := Some dateStr; isOnline := Some online;
          registeredCount := registered;
          availableSlots := if online then 999 else avail;
          isFull := negb online && (avail =? 0);
          capacity := effectiveCapacity;
          slotStatus := status;
          details := {| paidCount := paid;
                        activePendingCount := activePending;
                        expiredPendingCount := expiredPending;
                        oldPendingDeleted := oldPendingCount;
                        totalCount := paid + activePending + expiredPending |};
          slotErrorMessage := None |}, st')
  end.

End SlotLedger.

(* ================================================================== *)
(** ** Regular expressions *)
(* ================================================================== *)

(** The regular expressions of the code are used through [test] (or as a
    query filter), so only the existence of a match matters.  The literals
    of the source are written as terms of [re]; the one pattern built at
    run time ([new RegExp(...)] in the duplicate check) goes through
    [compile], which covers the patterns made of ASCII literals and of
    [. * + ? | ( ) ^ $], and answers [Unsupported] for anything else. *)
Module JsRegExp.

Inductive re :=
| Eps
| Chr (c : ascii)
| Dot
| Class (p : ascii -> bool)
| Bol
| Eol
| Seq (a b : re)
| Alt (a b : re)
| Star (a : re).

Definition Plus (a : re) : re := Seq a (Star a).
Definition Opt (a : re) : re := Alt a Eps.

Fixpoint Rep (n : nat) (a : re) : re :=
  match n with O => Eps | S k => Seq a (Rep k a) end.

Fixpoint UpTo (n : nat) (a : re) : re :=
  match n with O => Eps | S k => Opt (Seq a (UpTo k a)) end.

Fixpoint Lit (l : list ascii) : re :=
  match l with [] => Eps | c :: l' => Seq (Chr c) (Lit l') end.

(** Character comparison, under the [i] flag or not. *)
Definition sameChar (ignoreCase : bool) (c x : ascii) : bool :=
  if ignoreCase
  then Ascii.eqb (JsString.upperChar c) (JsString.upperChar x)
  else Ascii.eqb c x.

(** [matchFrom fuel i r atStart s k]: [r] matches a prefix of [s] after
    which [k] accepts; [atStart] tells whether [s] is the whole input.
    An iteration of a star has to consume input, so [fuel] above the
    length of [s] is never exhausted. *)
Fixpoint matchFrom (fuel : nat) (ignoreCase : bool)
  : re -> bool -> list ascii -> (bool -> list ascii -> bool) -> bool :=
  fix go (r : re) (atStart : bool) (s : list ascii)
         (k : bool -> list ascii -> bool) {struct r} : bool :=
    match r with
    | Eps => k atStart s
    | Chr c =>
        match s with
        | x :: s' => if sameChar ignoreCase c x then k false s' else false
        | [] => false
        end
    | Dot =>
        match s with
        | x :: s' => if JsString.isLineTerminator x then false else k false s'
        | [] => false
        end
    | Class p =>
        match s with
        | x :: s' => if p x then k false s' else false
        | [] => false
        end
    | Bol => if atStart then k atStart s else false
    | Eol => match s with [] => k atStart s | _ :: _ => false end
    | Seq a b => go a atStart s (fun st s' => go b st s' k)
    | Alt a b => if go a atStart s k then true else go b atStart s k
    | Star a =>
        if k atStart s then true
        else
          match fuel with
          | O => false
          | S f =>
              go a atStart s
                (fun st s' =>
                   if (List.length s' <? List.length s)%nat
                   then matchFrom f ignoreCase (Star a) st s' k
                   else false)
          end
    end.

Fixpoint searchFrom (ignoreCase : bool) (r : re) (atStart : bool)
    (s : list ascii) : bool :=
  if matchFrom (S (List.length s)) ignoreCase r atStart s (fun _ _ => true)
  then true
  else
    match s with
    | [] => false
    | _ :: s' => searchFrom ignoreCase r false s'
    end.

(** [regexp.test(s)] *)
Definition test (ignoreCase : bool) (r : re) (s : string) : bool :=
  searchFrom ignoreCase r true (list_ascii_of_string s).

(** *** Patterns built at run time *)

Inductive Outcome (A : Type) :=
| Ok (a : A)
| Err             (* the constructor throws a SyntaxError *)
| Unsup.          (* outside the fragment *)
Arguments Ok {A} a.
Arguments Err {A}.
Arguments Unsup {A}.

(** Characters that start a construct outside the fragment. *)
Definition outsideFragment (c : ascii) : bool :=
  (128 <=? JsString.code c) ||
  existsb (Ascii.eqb c) ["\"%char; "["%char; "]"%char; "{"%char; "}"%char].

Definition isQuantifier (c : ascii) : bool :=
  existsb (Ascii.eqb c) ["*"%char; "+"%char; "?"%char].

(** An optional quantifier after the atom [a], with its optional lazy
    mark. *)
Definition quantified (a : re) (s : list ascii) : Outcome (re * list ascii) :=
  let lazyMark (t : list ascii) :=
    match t with "?"%char :: t' => t' | _ => t end in
  match s with
  | "*"%char :: t => Ok (Star a, lazyMark t)
  | "+"%char :: t => Ok (Plus a, lazyMark t)
  | "?"%char :: t => Ok (Opt a, lazyMark t)
  | "{"%char :: _ => Unsup
  | _ => Ok (a, s)
  end.

(** Recursive descent on the pattern grammar: a disjunction is a list of
    alternatives separated by [|], an alternative a sequence of terms. *)
Fixpoint parseDisjunction (fuel : nat) (s : list ascii)
  : Outcome (re * list ascii) :=
  match fuel with
  | O => Unsup
  | S f =>
      match parseAlternative f Eps s with
      | Ok (a, "|"%char :: s') =>
          match parseDisjunction f s' with
          | Ok (b, s'') => Ok (Alt a b, s'')
          | Err => Err
          | Unsup => Unsup
          end
      | r => r
      end
  end
with parseAlternative (fuel : nat) (acc : re) (s : list ascii)
  : Outcome (re * list ascii) :=
  match fuel with
  | O => Unsup
  | S f =>
      match s with
      | [] => Ok (acc, [])
      | c :: s' =>
          if outsideFragment c then Unsup
          else if isQuantifier c then Err
          else if Ascii.eqb c "|" || Ascii.eqb c ")" then Ok (acc, s)
          else if Ascii.eqb c "^" then parseAlternative f (Seq acc Bol) s'
          else if Ascii.eqb c "$" then parseAlternative f (Seq acc Eol) s'
          else if Ascii.eqb c "(" then
            match s' with
            | "?"%char :: _ => Unsup
            | _ =>
                match parseDisjunction f s' with
                | Ok (g, ")"%char :: s'') =>
                    match quantified g s'' with
                    | Ok (t, s3) => parseAlternative f (Seq acc t) s3
                    | Err => Err
                    | Unsup => Unsup
                    end
                | Ok (_, _) => Err
                | Err => Err
                | Unsup => Unsup
                end
            end
          else
            match quantified (if Ascii.eqb c "." then Dot else Chr c) s' with
            | Ok (t, s3) => parseAlternative f (Seq acc t) s3
            | Err => Err
            | Unsup => Unsup
            end
      end
  end.

Inductive Compiled :=
| Regex (r : re)
| SyntaxError
| Unsupported.

(** [new RegExp(pattern, flags)] *)
Definition compile (pattern : string) : Compiled :=
  let s := list_ascii_of_string pattern in
  match parseDisjunction (2 * List.length s + 2) s with
  | Ok (r, []) => Regex r
  | Ok (_, _ :: _) => SyntaxError      (* an unmatched [)] *)
  | Err => SyntaxError
  | Unsup => Unsupported
  end.

End JsRegExp.

Example compile_examples :
  JsRegExp.compile "^((" = JsRegExp.SyntaxError /\
  JsRegExp.compile "^a)$" = JsRegExp.SyntaxError /\
  JsRegExp.compile "^*$" = JsRegExp.SyntaxError /\
  JsRegExp.compile "^a**$" = JsRegExp.SyntaxError /\
  JsRegExp.compile "^[a$" = JsRegExp.Unsupported /\
  (exists r, JsRegExp.compile "^(ab|c)*?d.$" = JsRegExp.Regex r /\
             JsRegExp.test true r "ABcabDx" = true /\
             JsRegExp.test true r "abcabd" = false /\
             JsRegExp.test false r "ABcabDx" = false).
Proof. repeat split; try reflexivity. eexists; repeat split; reflexivity. Qed.

(* ================================================================== *)
(** ** [validation.service.js] *)
(* ================================================================== *)

(** The clock sign U+23F0 every batch name carries, in UTF-8. *)
Definition clockSign : string :=
  String (ascii_of_nat 226) (String (ascii_of_nat 143)
    (String (ascii_of_nat 176) "")).

(** The body of a registration request.  A field is [None] when the
    request does not carry it. *)
Module RegisterBody.
Record t := {
  carnivalName : option string;
  parentName : option string;
  email : option string;
  phone : option string;
  childName : option string;
  childAge : option string;
  selectedDate : option string;
  selectedBatch : option string;
  availableDates : option (list string);
  materialType : bool
}.
End RegisterBody.

Module Validation.

Import JsRegExp.

(** [!x || x.trim() === ''] *)
Definition blank (x : option string) : bool :=
  match x with
  | None => true
  | Some s => String.eqb (JsString.trim s) ""
  end.

(** [!x] for a string that may be absent. *)
Definition falsy (x : option string) : bool :=
  match x with
  | None => true
  | Some s => String.eqb s ""
  end.

Definition valueOf (x : option string) : string :=
  match x with Some s => s | None => "" end.

Definition wordChar : re := Class JsString.isWord.
Definition dotOrDash : re :=
  Class (fun c => Ascii.eqb c "." || Ascii.eqb c "-").

(** [/^\w+([\.-]?\w+)*@\w+([\.-]?\w+)*(\.\w{2,3})+$/] *)
Definition emailRegex : re :=
  let name := Seq (Plus wordChar)
                  (Star (Seq (Opt dotOrDash) (Plus wordChar))) in
  Seq Bol (Seq name (Seq (Chr "@") (Seq name
    (Seq (Plus (Seq (Chr ".") (Seq (Rep 2 wordChar) (UpTo 1 wordChar))))
         Eol)))).

(** [/^[6-9]\d{9}$/] *)
Definition phoneRegex : re :=
  Seq Bol (Seq (Class (fun c => (54 <=? JsString.code c) &&
                                (JsString.code c <=? 57)))
    (Seq (Rep 9 (Class JsString.isDigit)) Eol)).

(** [phone.trim().replace(/\s+|[-+()]/g, '')] *)
Definition cleanPhone (phone : string) : string :=
  string_of_list_ascii
    (filter (fun c => negb (existsb (Ascii.eqb c)
                              ["-"%char; "+"%char; "("%char; ")"%char]))
            (JsString.removeWhite
               (list_ascii_of_string (JsString.trim phone)))).

Inductive DateValidation :=
| DateValid (date : Z) (dateString : string)
| DateInvalid (error : string).

(** [validateDate(selectedDate, availableDates)] at the instant [now]. *)
Definition validateDate (now : Z) (selectedDate : option string)
    (availableDates : option (list string)) : DateValidation :=
  if falsy selectedDate then DateInvalid "Date is required"
  else
    let s := valueOf selectedDate in
    let dateParts := JsString.split "-" s in
    match JsDate.UTC (JsString.parseIntAt dateParts 0)
                     (option_map (fun m => m - 1)
                        (JsString.parseIntAt dateParts 1))
                     (JsString.parseIntAt dateParts 2) with
    | None => DateInvalid "Invalid date format"
    | Some date =>
        let listed :=
          match availableDates with
          | Some (d :: ds) => inStrings s (d :: ds)
          | _ => true
          end in
        if negb listed then
          DateInvalid ("Date " ++ s ++ " is not available for this workshop")
        else
          match JsDate.utcMidnight now with
          | Some todayUTC =>
              if date <? todayUTC
              then DateInvalid "Selected date is in the past"
              else DateValid date s
          | None => DateValid date s
          end
    end.

Definition dateIsValid (v : DateValidation) : bool :=
  match v with DateValid _ _ => true | DateInvalid _ => false end.

(** The error of one field, if any. *)
Definition parentNameError (b : RegisterBody.t) : option string :=
  if blank (RegisterBody.parentName b) then Some "Parent name is required"
  else if JsString.strlen (JsString.trim (valueOf (RegisterBody.parentName b))) <? 2
  then Some "Parent name must be at least 2 characters"
  else None.

Definition emailError (b : RegisterBody.t) : option string :=
  if blank (RegisterBody.email b) then Some "Email is required"
  else if negb (test false emailRegex
                  (JsString.trim (valueOf (RegisterBody.email b))))
  then Some "Please enter a valid email address"
  else None.

Definition phoneError (b : RegisterBody.t) : option string :=
  if blank (RegisterBody.phone b) then Some "Phone number is required"
  else
    let clean := cleanPhone (valueOf (RegisterBody.phone b)) in
    if negb (JsString.strlen clean =? 10) || negb (test false phoneRegex clean)
    then Some "Please enter a valid 10-digit Indian phone number"
    else None.

Definition childNameError (b : RegisterBody.t) : option string :=
  if blank (RegisterBody.childName b) then Some "Child name is required"
  else if JsString.strlen (JsString.trim (valueOf (RegisterBody.childName b))) <? 2
  then Some "Child name must be at least 2 characters"
  else None.

Definition childAgeError (b : RegisterBody.t) : option string :=
  if blank (RegisterBody.childAge b) then Some "Child age is required"
  else
    match JsString.parseInt
            (JsString.trim (valueOf (RegisterBody.childAge b))) with
    | Some age =>
        if (age <? 3) || (16 <? age)
        then Some "Child age must be between 3 and 16 years"
        else None
    | None => Some "Child age must be between 3 and 16 years"
    end.

Definition selectedDateError (now : Z) (b : RegisterBody.t)
  : option string :=
  if blank (RegisterBody.selectedDate b) then Some "Please select a date"
  else
    match validateDate now (RegisterBody.selectedDate b)
            (RegisterBody.availableDates b) with
    | DateInvalid e => Some e
    | DateValid _ _ => None
    end.

Definition selectedBatchError (b : RegisterBody.t) : option string :=
  if blank (RegisterBody.selectedBatch b)
  then Some "Please select a time slot"
  else None.

Definition fieldError (field : string) (e : option string)
  : list (string * string) :=
  match e with Some m => [(field, m)] | None => [] end.

(** [validateRegistrationData(data)]: the [errors] object, as the list of
    its entries; [isValid] is its emptiness. *)
Definition validateRegistrationData (now : Z) (b : RegisterBody.t)
  : list (string * string) :=
  fieldError "parentName" (parentNameError b) ++
  fieldError "email" (emailError b) ++
  fieldError "phone" (phoneError b) ++
  fieldError "childName" (childNameError b) ++
  fieldError "childAge" (childAgeError b) ++
  fieldError "selectedDate" (selectedDateError now b) ++
  fieldError "selectedBatch" (selectedBatchError b).

Definition isValid (errors : list (string * string)) : bool :=
  match errors with [] => true | _ :: _ => false end.

(** [validateBatch(batchName).isValid] *)
Definition validateBatch (batchName : option string) : bool :=
  negb (falsy batchName) && JsString.includes clockSign (valueOf batchName).

(** [sanitizeInput(data)], one field at a time. *)
Definition sanitized (x : option string) : string :=
  JsString.trim (valueOf x).

Definition sanitizedEmail (x : option string) : string :=
  JsString.trim (JsString.toLowerCase (valueOf x)).

End Validation.

(* ================================================================== *)
(** ** Helper functions of the controller *)
(* ================================================================== *)

Fixpoint takeLine (l : list ascii) : list ascii :=
  match l with
  | [] => []
  | c :: l' =>
      if JsString.isLineTerminator c then []
      else
        match l' with
        | c2 :: c3 :: _ =>
            if JsString.isLineTerminator3 c c2 c3 then [] else c :: takeLine l'
        | _ => c :: takeLine l'
        end
  end.

(** [\s*(.+)] against [l]: white space is taken greedily and given back,
    one character at a time, until a character other than a line
    terminator follows; the group then runs up to the next line
    terminator. *)
Fixpoint afterClock (l : list ascii) : option (list ascii) :=
  match l with
  | [] => None
  | c1 :: l1 =>
      if JsString.isWhite c1 then
        match afterClock l1 with
        | Some g => Some g
        | None =>
            if JsString.isLineTerminator c1 then None else Some (takeLine l)
        end
      else
        match l1 with
        | c2 :: l2 =>
            if JsString.isWhite2 c1 c2 then
              match afterClock l2 with
              | Some g => Some g
              | None => Some (takeLine l)
              end
            else
              match l2 with
              | c3 :: l3 =>
                  if JsString.isWhite3 c1 c2 c3 then
                    match afterClock l3 with
                    | Some g => Some g
                    | None =>
                        if JsString.isLineTerminator3 c1 c2 c3 then None
                        else Some (takeLine l)
                    end
                  else Some (takeLine l)
              | [] => Some (takeLine l)
              end
        | [] => Some (takeLine l)
        end
  end.

Fixpoint clockMatch (l : list ascii) : option (list ascii) :=
  let here :=
    if JsString.isPrefixOf (list_ascii_of_string clockSign) l
    then afterClock (skipn 3 l) else None in
  match here with
  | Some g => Some g
  | None => match l with [] => None | _ :: l' => clockMatch l' end
  end.

(** [extractBatchTime]: group 1 of [/⏰\s*(.+)/], or the batch itself. *)
Definition extractBatchTime (batchString : string) : string :=
  match clockMatch (list_ascii_of_string batchString) with
  | Some g => string_of_list_ascii g
  | None => batchString
  end.

(** [/^LS-RD26-\d{5}$/] *)
Definition registrationIdRegex : JsRegExp.re :=
  JsRegExp.Seq JsRegExp.Bol
    (JsRegExp.Seq (JsRegExp.Lit (list_ascii_of_string "LS-RD26-"))
       (JsRegExp.Seq (JsRegExp.Rep 5 (JsRegExp.Class JsString.isDigit))
          JsRegExp.Eol)).

(** The document [sort({ registrationId: -1 })] puts first. *)
Fixpoint latestId (ids : list string) : option string :=
  match ids with
  | [] => None
  | i :: ids' =>
      match latestId ids' with
      | Some j => if String.ltb i j then Some j else Some i
      | None => Some i
      end
  end.

(** [generateRegistrationId] *)
Definition generateRegistrationId (st : Store) : string :=
  let matching :=
    filter (JsRegExp.test false registrationIdRegex)
      (map SpecialCourse.registrationId (courses st)) in
  let nextNumber :=
    match latestId matching with
    | Some latest =>
        match JsString.parseInt (String.substring 8 5 latest) with
        | Some n => n + 1
        | None => 1
        end
    | None => 1
    end in
  "LS-RD26-" ++ JsString.padStart0 5 (JsString.ofNumber nextNumber).

Example extractBatchTime_examples :
  extractBatchTime ("Batch A " ++ clockSign ++ " 10:00 AM - 11:30 AM")
    = "10:00 AM - 11:30 AM" /\
  extractBatchTime (clockSign ++ "  ") = " " /\
  extractBatchTime "no clock" = "no clock".
Proof. repeat split; reflexivity. Qed.

(** White space and length beyond ASCII: U+00A0 is trimmed and matched by
    [\s], U+2028 ends a line, and [length] counts UTF-16 code units. *)
Example unicode_examples :
  let text (bytes : list nat) := string_of_list_ascii (map ascii_of_nat bytes) in
  let nbsp := text [194; 160]%nat in
  let lineSeparator := text [226; 128; 168]%nat in
  JsString.trim (nbsp ++ " Asha" ++ lineSeparator) = "Asha" /\
  JsString.strlen (text [195; 169]%nat) = 1 /\
  JsString.strlen clockSign = 1 /\
  JsString.strlen (text [240; 159; 142; 168]%nat) = 2 /\
  Validation.cleanPhone ("98765" ++ nbsp ++ "43210") = "9876543210" /\
  extractBatchTime ("Batch A " ++ clockSign ++ nbsp ++ "10:00 AM"
                      ++ lineSeparator ++ "x") = "10:00 AM" /\
  extractBatchTime ("Batch A " ++ clockSign ++ lineSeparator)
  = "Batch A " ++ clockSign ++ lineSeparator.
Proof. repeat split; reflexivity. Qed.

Example validation_examples :
  JsRegExp.test false Validation.emailRegex "asha.rao@example.co.in" = true /\
  JsRegExp.test false Validation.emailRegex "asha@example" = false /\
  JsRegExp.test false Validation.phoneRegex
    (Validation.cleanPhone " +98765 43210 ") = true /\
  JsString.parseInt " 12abc" = Some 12 /\
  JsString.parseInt "abc" = None /\
  JsString.padStart0 5 (JsString.ofNumber 43) = "00043".
Proof. repeat split; reflexivity. Qed.

(* ================================================================== *)
(** ** What Mongoose does on [save], [create] and upserts *)
(* ================================================================== *)

Inductive SaveError :=
| ValidationFailed        (* a required path is empty, or an enum is violated *)
| DuplicateKey            (* a unique index is violated *)
| DocumentNotFound.       (* the document to update is gone *)

Inductive Saved (A : Type) :=
| SaveOk (a : A)
| SaveThrows (e : SaveError).
Arguments SaveOk {A} a.
Arguments SaveThrows {A} e.

(** [SpecialCourseSchema.pre('save', ...)]: a reservation that is still
    [pending_payment] when it is saved after its [payment_expires_at] is
    flagged as expired. *)
Definition preSave (now : Z) (r : SpecialCourse.doc) : SpecialCourse.doc :=
  match SpecialCourse.payment_expires_at r with
  | Some expires =>
      if Status.eqb (SpecialCourse.status r) Status.pending_payment &&
         (expires <? now)
      then
        SpecialCourse.setExpiry now "Payment timeout (auto-expire on save)"
          (SpecialCourse.setPaymentStatus PaymentStatus.expired
             (SpecialCourse.setStatus Status.expired r))
      else r
  | None => r
  end.

Definition hasId (i : Z) (r : SpecialCourse.doc) : bool :=
  SpecialCourse._id r =? i.

(** [registration.save()] on a document that was loaded from the
    collection: validation, then the [pre('save')] hook, then the update of
    the stored document with the same [_id]. *)
Definition saveDocument (now : Z) (r : SpecialCourse.doc)
    (cs : list SpecialCourse.doc) : Saved (list SpecialCourse.doc) :=
  if negb (Status.inEnum (SpecialCourse.status r)) then
    SaveThrows ValidationFailed
  else if negb (existsb (hasId (SpecialCourse._id r)) cs) then
    SaveThrows DocumentNotFound
  else
    let r' := preSave now r in
    SaveOk (map (fun d => if hasId (SpecialCourse._id r) d then r' else d) cs).

(** The schema's setters on the string paths of a new document. *)
Definition castNew (r : SpecialCourse.doc) : SpecialCourse.doc :=
  {| SpecialCourse._id := SpecialCourse._id r;
     SpecialCourse.registrationId := SpecialCourse.registrationId r;
     SpecialCourse.carnivalName := JsString.trim (SpecialCourse.carnivalName r);
     SpecialCourse.parentName := JsString.trim (SpecialCourse.parentName r);
     SpecialCourse.email :=
       JsString.trim (JsString.toLowerCase (SpecialCourse.email r));
     SpecialCourse.phone := JsString.trim (SpecialCourse.phone r);
     SpecialCourse.childName := JsString.trim (SpecialCourse.childName r);
     SpecialCourse.childAge := JsString.trim (SpecialCourse.childAge r);
     SpecialCourse.selectedBatch := JsString.trim (SpecialCourse.selectedBatch r);
     SpecialCourse.batchTime := JsString.trim (SpecialCourse.batchTime r);
     SpecialCourse.selectedDate := SpecialCourse.selectedDate r;
     SpecialCourse.materialType := SpecialCourse.materialType r;
     SpecialCourse.status := SpecialCourse.status r;
     SpecialCourse.payment_status := SpecialCourse.payment_status r;
     SpecialCourse.payment := SpecialCourse.payment r;
     SpecialCourse.payment_expires_at := SpecialCourse.payment_expires_at r;
     SpecialCourse.payment_confirmed_at := SpecialCourse.payment_confirmed_at r;
     SpecialCourse.expiredAt := SpecialCourse.expiredAt r;
     SpecialCourse.expiration_reason := SpecialCourse.expiration_reason r;
     SpecialCourse.createdAt := SpecialCourse.createdAt r |}.

(** The [required] string paths. *)
Definition requiredPresent (r : SpecialCourse.doc) : bool :=
  forallb (fun s => negb (String.eqb s ""))
    [SpecialCourse.registrationId r; SpecialCourse.carnivalName r;
     SpecialCourse.parentName r; SpecialCourse.email r;
     SpecialCourse.phone r; SpecialCourse.childName r;
     SpecialCourse.childAge r; SpecialCourse.selectedBatch r;
     SpecialCourse.batchTime r].

(** An [_id] no stored document has. *)
Definition freshId (cs : list SpecialCourse.doc) : Z :=
  1 + fold_right (fun d m => Z.max (SpecialCourse._id d) m) 0 cs.

Definition withId (i : Z) (r : SpecialCourse.doc) : SpecialCourse.doc :=
  {| SpecialCourse._id := i;
     SpecialCourse.registrationId := SpecialCourse.registrationId r;
     SpecialCourse.carnivalName := SpecialCourse.carnivalName r;
     SpecialCourse.parentName := SpecialCourse.parentName r;
     SpecialCourse.email := SpecialCourse.email r;
     SpecialCourse.phone := SpecialCourse.phone r;
     SpecialCourse.childName := SpecialCourse.childName r;
     SpecialCourse.childAge := SpecialCourse.childAge r;
     SpecialCourse.selectedBatch := SpecialCourse.selectedBatch r;
     SpecialCourse.batchTime := SpecialCourse.batchTime r;
     SpecialCourse.selectedDate := SpecialCourse.selectedDate r;
     SpecialCourse.materialType := SpecialCourse.materialType r;
     SpecialCourse.status := SpecialCourse.status r;
     SpecialCourse.payment_status := SpecialCourse.payment_status r;
     SpecialCourse.payment := SpecialCourse.payment r;
     SpecialCourse.payment_expires_at := SpecialCourse.payment_expires_at r;
     SpecialCourse.payment_confirmed_at := SpecialCourse.payment_confirmed_at r;
     SpecialCourse.expiredAt := SpecialCourse.expiredAt r;
     SpecialCourse.expiration_reason := SpecialCourse.expiration_reason r;
     SpecialCourse.createdAt := SpecialCourse.createdAt r |}.

Definition hasRegistrationId (id : string) (r : SpecialCourse.doc) : bool :=
  String.eqb (SpecialCourse.registrationId r) id.

(** [new SpecialCourse({...}).save()]: setters, validation, the
    [pre('save')] hook, then the insertion under the unique index on
    [registrationId]. *)
Definition saveNewDocument (now : Z) (r : SpecialCourse.doc)
    (cs : list SpecialCourse.doc)
  : Saved (SpecialCourse.doc * list SpecialCourse.doc) :=
  let r1 := castNew r in
  if negb (requiredPresent r1 && Status.inEnum (SpecialCourse.status r1)) then
    SaveThrows ValidationFailed
  else
    let r2 := withId (freshId cs) (preSave now r1) in
    if existsb (hasRegistrationId (SpecialCourse.registrationId r2)) cs
    then SaveThrows DuplicateKey
    else SaveOk (r2, (cs ++ [r2])%list).

Definition hasPaymentId (pid : string) (p : SpecialCoursePayment.doc) : bool :=
  String.eqb (SpecialCoursePayment.razorpay_payment_id p) pid.

(** [SpecialCoursePayment.create({...})]: the required paths, then the
    unique index on [razorpay_payment_id]. *)
Definition createPayment (p : SpecialCoursePayment.doc)
    (ps : list SpecialCoursePayment.doc)
  : Saved (list SpecialCoursePayment.doc) :=
  match SpecialCoursePayment.registrationId p, SpecialCoursePayment.amount p with
  | Some id, Some _ =>
      if String.eqb id "" ||
         String.eqb (SpecialCoursePayment.razorpay_payment_id p) ""
      then SaveThrows ValidationFailed
      else if existsb (hasPaymentId (SpecialCoursePayment.razorpay_payment_id p)) ps
      then SaveThrows DuplicateKey
      else SaveOk (ps ++ [p])%list
  | _, _ => SaveThrows ValidationFailed
  end.

Fixpoint updateFirst {A} (q : A -> bool) (f : A -> A) (l : list A)
  : option (list A) :=
  match l with
  | [] => None
  | x :: l' =>
      if q x then Some (f x :: l')
      else option_map (cons x) (updateFirst q f l')
  end.

(** [findOneAndUpdate({ razorpay_payment_id }, { status }, { upsert: true })] *)
Definition upsertPaymentStatus (pid : string)
    (s : SpecialCoursePayment.LogStatus) (ps : list SpecialCoursePayment.doc)
  : list SpecialCoursePayment.doc :=
  match updateFirst (hasPaymentId pid) (SpecialCoursePayment.setStatus s) ps with
  | Some ps' => ps'
  | None =>
      (ps ++ [{| SpecialCoursePayment.registrationId := None;
                 SpecialCoursePayment.razorpay_payment_id := pid;
                 SpecialCoursePayment.razorpay_order_id := None;
                 SpecialCoursePayment.amount := None;
                 SpecialCoursePayment.status := s;
                 SpecialCoursePayment.source := None |}])%list
  end.

(* ================================================================== *)
(** ** Duplicate guard and registration *)
(* ================================================================== *)

Inductive DuplicateError :=
| InvalidRegExp           (* [new RegExp] threw a SyntaxError *)
| InvalidQueryDate.       (* the query date is not a date *)

(** The result of [checkDuplicateRegistration]:
    [{ exists: true, data }], [{ exists: false }] or
    [{ exists: false, error }].  [DupOutside] stands for the patterns
    [JsRegExp.compile] does not cover. *)
Inductive DuplicateCheck :=
| DupFound (data : SpecialCourse.doc)
| DupNone
| DupError (error : DuplicateError)
| DupOutside.

Definition dupExists (d : DuplicateCheck) : bool :=
  match d with DupFound _ => true | _ => false end.

Inductive RegisterResponse :=
| RegInvalid (errors : list (string * string))                  (* 400 *)
| RegCarnivalRequired                                           (* 400 *)
| RegDateRejected (message : string)                            (* 400 *)
| RegBatchRejected                                              (* 400 *)
| RegDuplicate (existingRegistration existingBatch : string)    (* 409 *)
| RegBatchFull (slot : SlotInfo)                                (* 400 *)
| RegCreated (created : SpecialCourse.doc) (slot : SlotInfo)    (* 201 *)
| RegFailed (e : SaveError)                                     (* 500 *)
| RegOutside.

Definition registerStatus (r : RegisterResponse) : option Z :=
  match r with
  | RegInvalid _ | RegCarnivalRequired | RegDateRejected _
  | RegBatchRejected | RegBatchFull _ => Some 400
  | RegDuplicate _ _ => Some 409
  | RegCreated _ _ => Some 201
  | RegFailed _ => Some 500
  | RegOutside => None
  end.

Section Registration.

Context (rt : Runtime).

(** The filter of the duplicate check.  [email] and [phone] arrive lower-cased
    and trimmed by the caller; [carnival] is compared as it reaches the
    collection, that is, as the [trim] setter of the path leaves it. *)
Definition duplicateQuery (carnival : string) (queryDate : Z)
    (childPattern : JsRegExp.re) (email phone : string)
    (r : SpecialCourse.doc) : bool :=
  String.eqb (SpecialCourse.carnivalName r) carnival &&
  (SpecialCourse.selectedDate r =? queryDate) &&
  JsRegExp.test true childPattern (SpecialCourse.childName r) &&
  Status.eqb (SpecialCourse.status r) Status.registered &&
  PaymentStatus.eqb (SpecialCourse.payment_status r) PaymentStatus.paid &&
  (String.eqb (SpecialCourse.email r) email ||
   String.eqb (SpecialCourse.phone r) phone).

(** [checkDuplicateRegistration(carnivalName, email, phone, childName,
    selectedDate)]; every exception ends in the [catch] branch. *)
Definition checkDuplicateRegistration (carnival email phone childName
    selectedDate : string) (st : Store) : DuplicateCheck :=
  let queryDate := parseDateForQuery rt (DateString selectedDate) in
  match JsRegExp.compile ("^" ++ JsString.trim childName ++ "$") with
  | JsRegExp.Unsupported => DupOutside
  | JsRegExp.SyntaxError => DupError InvalidRegExp
  | JsRegExp.Regex pattern =>
      match queryDate with
      | None => DupError InvalidQueryDate
      | Some qd =>
          match find (duplicateQuery carnival qd pattern
                        (JsString.trim (JsString.toLowerCase email))
                        (JsString.trim phone))
                     (courses st) with
          | Some existing => DupFound existing
          | None => DupNone
          end
      end
  end.

(** The reservation [register] builds, before it is saved. *)
Definition newRegistration (now : Z) (registrationId carnival : string)
    (date : Z) (b : RegisterBody.t) : SpecialCourse.doc :=
  {| SpecialCourse._id := 0;
     SpecialCourse.registrationId := registrationId;
     SpecialCourse.carnivalName := carnival;
     SpecialCourse.parentName :=
       JsString.trim (Validation.sanitized (RegisterBody.parentName b));
     SpecialCourse.email :=
       JsString.trim (JsString.toLowerCase
                        (Validation.sanitizedEmail (RegisterBody.email b)));
     SpecialCourse.phone :=
       JsString.trim (Validation.sanitized (RegisterBody.phone b));
     SpecialCourse.childName :=
       JsString.trim (Validation.sanitized (RegisterBody.childName b));
     SpecialCourse.childAge :=
       JsString.trim (Validation.sanitized (RegisterBody.childAge b));
     SpecialCourse.selectedBatch :=
       JsString.trim (Validation.sanitized (RegisterBody.selectedBatch b));
     SpecialCourse.batchTime :=
       extractBatchTime (Validation.valueOf (RegisterBody.selectedBatch b));
     SpecialCourse.selectedDate := date;
     SpecialCourse.materialType := RegisterBody.materialType b;
     SpecialCourse.status := Status.pending_payment;
     SpecialCourse.payment_status := PaymentStatus.pending;
     SpecialCourse.payment := SpecialCourse.noPayment;
     SpecialCourse.payment_expires_at :=
       Some (now + MAX_PENDING_MINUTES * 60 * 1000);
     SpecialCourse.payment_confirmed_at := None;
     SpecialCourse.expiredAt := None;
     SpecialCourse.expiration_reason := None;
     SpecialCourse.createdAt := now |}.

(** [register], from the slot check on: what runs once the duplicate
    check has let the request through. *)
Definition registerAfterDuplicateCheck (now : Z) (carnival : string)
    (date : Z) (b : RegisterBody.t) (st : Store)
  : RegisterResponse * Store :=
  let '(slotInfo, st1) :=
    checkSlotAvailability rt now carnival
      (Validation.valueOf (RegisterBody.selectedBatch b))
      (DateString (Validation.valueOf (RegisterBody.selectedDate b))) st in
  if isFull slotInfo then (RegBatchFull slotInfo, st1)
  else
    let registrationId := generateRegistrationId st1 in
    match saveNewDocument now
            (newRegistration now registrationId carnival date b)
            (courses st1) with
    | SaveOk (created, cs) => (RegCreated created slotInfo, withCourses cs st1)
    | SaveThrows e => (RegFailed e, st1)
    end.

(** [exports.register] *)
Definition register (now : Z) (b : RegisterBody.t) (st : Store)
  : RegisterResponse * Store :=
  let errors := Validation.validateRegistrationData now b in
  if negb (Validation.isValid errors) then (RegInvalid errors, st)
  else if Validation.falsy (RegisterBody.carnivalName b) then
    (RegCarnivalRequired, st)
  else
    let carnival := Validation.valueOf (RegisterBody.carnivalName b) in
    match Validation.validateDate now (RegisterBody.selectedDate b)
            (RegisterBody.availableDates b) with
    | Validation.DateInvalid e => (RegDateRejected e, st)
    | Validation.DateValid date _ =>
        if negb (Validation.validateBatch (RegisterBody.selectedBatch b))
        then (RegBatchRejected, st)
        else
          match checkDuplicateRegistration carnival
                  (Validation.valueOf (RegisterBody.email b))
                  (Validation.valueOf (RegisterBody.phone b))
                  (Validation.valueOf (RegisterBody.childName b))
                  (Validation.valueOf (RegisterBody.selectedDate b)) st with
          | DupOutside => (RegOutside, st)
          | DupFound existing =>
              (RegDuplicate (SpecialCourse.registrationId existing)
                            (SpecialCourse.selectedBatch existing), st)
          | DupNone | DupError _ =>
              registerAfterDuplicateCheck now carnival date b st
          end
    end.

End Registration.

(* ================================================================== *)
(** ** Payment, lookups and expiry *)
(* ================================================================== *)

(** What the outside world answers during one request. *)
Inductive FetchOutcome :=
| Fetched (method : option string)   (* [razorpay.payments.fetch] returned *)
| FetchedNothing                     (* it returned a falsy value *)
| FetchFailed.                       (* it threw *)

Record Outside := {
  ordersCreate : option string;      (* the id of the new order; [None]: threw *)
  paymentsFetch : FetchOutcome;
  confirmationEmailSent : bool       (* [emailResult.success], false on a throw *)
}.

Module VerifyBody.
Record t := {
  razorpay_payment_id : option string;
  razorpay_order_id : option string;
  razorpay_signature : option string;
  registrationId : option string;
  paymentMethod : option string      (* [paymentDetails.method] *)
}.
End VerifyBody.

(** [a || b] on strings that may be absent. *)
Definition orElse (a b : option string) : option string :=
  if Validation.falsy a then b else a.

(** A value that may be [undefined], inside a string concatenation. *)
Definition jsToString (x : option string) : string :=
  match x with Some s => s | None => "undefined" end.

Definition optionStringEqb (a b : option string) : bool :=
  match a, b with
  | Some x, Some y => String.eqb x y
  | None, None => true
  | _, _ => false
  end.

(** [Math.floor((now - createdAt) / (1000 * 60))] *)
Definition ageMinutes (now : Z) (r : SpecialCourse.doc) : Z :=
  (now - SpecialCourse.createdAt r) / (1000 * 60).

(** [registration.materialType ? 499 : 299], in hundredths. *)
Definition feeOf (r : SpecialCourse.doc) : Z :=
  if SpecialCourse.materialType r then 49900 else 29900.

Inductive SignatureCheck := SignatureValid | SignatureInvalid | SignatureThrows.

Inductive CreateOrderResponse :=
| OrderIdRequired                                   (* 400 *)
| OrderRegistrationNotFound                         (* 404 *)
| OrderCreated (orderId : string) (amount : Z)      (* 200 *)
| OrderFailed.                                      (* 500 *)

Inductive VerifyResponse :=
| VerifyFieldsRequired                                          (* 400 *)
| VerifyNotFound                                                (* 404 *)
| VerifyAlreadyProcessed (registrationId : string)              (* 200 *)
| VerifyStatusRejected (status : Status.t)                      (* 400 *)
| VerifyExpiredDeleted (registrationId : string) (age : Z)      (* 400 *)
| VerifySlotFull (slot : SlotInfo)                              (* 400 *)
| VerifySignatureInvalid                                        (* 400 *)
| VerifyConfirmed (registrationId : string) (emailSent : bool)
                  (slot : SlotInfo)                             (* 200 *)
| VerifyFailed.                                                 (* 500 *)

Definition verifyStatus (r : VerifyResponse) : Z :=
  match r with
  | VerifyFieldsRequired | VerifyStatusRejected _ | VerifyExpiredDeleted _ _
  | VerifySlotFull _ | VerifySignatureInvalid => 400
  | VerifyNotFound => 404
  | VerifyAlreadyProcessed _ | VerifyConfirmed _ _ _ => 200
  | VerifyFailed => 500
  end.

(** [success] of the response body. *)
Definition verifySuccess (r : VerifyResponse) : bool :=
  match r with
  | VerifyAlreadyProcessed _ | VerifyConfirmed _ _ _ => true
  | _ => false
  end.

Inductive LookupResponse :=
| LookupIdRequired                                              (* 400 *)
| LookupNotFound                                                (* 404 *)
| LookupExpiredDeleted (registrationId : string) (age : Z)      (* 404 *)
| LookupFound (data : SpecialCourse.doc) (slot : option SlotInfo)
              (canProceed : bool).                              (* 200 *)

Definition lookupStatus (r : LookupResponse) : Z :=
  match r with
  | LookupIdRequired => 400
  | LookupNotFound | LookupExpiredDeleted _ _ => 404
  | LookupFound _ _ _ => 200
  end.

Record CleanupResult := {
  deletedCount : Z;
  pendingTotal : Z
}.

Inductive ExpireResponse :=
| ExpireNotFound                                    (* 404 *)
| ExpireDeleted (registrationId : string)           (* 200, success *)
| ExpireRefused (status : Status.t).                (* 200, no success *)

Section Payments.

Context (rt : Runtime).

(** [exports.createOrder] *)
Definition createOrder (now : Z) (out : Outside)
    (registrationId : option string) (st : Store)
  : CreateOrderResponse * Store :=
  if Validation.falsy registrationId then (OrderIdRequired, st)
  else
    match find (hasRegistrationId (Validation.valueOf registrationId))
               (courses st) with
    | None => (OrderRegistrationNotFound, st)
    | Some registration =>
        let amount := feeOf registration in
        match ordersCreate out with
        | None => (OrderFailed, st)
        | Some orderId =>
            let p := SpecialCourse.payment registration in
            let registration' :=
              SpecialCourse.setPayment
                {| SpecialCourse.razorpay_payment_id :=
                     SpecialCourse.razorpay_payment_id p;
                   SpecialCourse.razorpay_order_id := Some orderId;
                   SpecialCourse.razorpay_signature :=
                     SpecialCourse.razorpay_signature p;
                   SpecialCourse.amount := Some amount;
                   SpecialCourse.paymentState := SpecialCourse.paymentState p;
                   SpecialCourse.payment_date := SpecialCourse.payment_date p;
                   SpecialCourse.method := SpecialCourse.method p |}
                registration in
            match saveDocument now registration' (courses st) with
            | SaveOk cs => (OrderCreated orderId amount, withCourses cs st)
            | SaveThrows _ => (OrderFailed, st)
            end
        end
    end.

(** The signature step of [verifyPayment]. *)
Definition checkPaymentSignature (b : VerifyBody.t) : SignatureCheck :=
  if optionStringEqb (VerifyBody.razorpay_signature b) (Some "direct_payment")
  then SignatureValid
  else
    match RAZORPAY_KEY_SECRET rt with
    | None => SignatureThrows
    | Some secret =>
        let body := jsToString (VerifyBody.razorpay_order_id b) ++ "|" ++
                    jsToString (VerifyBody.razorpay_payment_id b) in
        if optionStringEqb (Some (hmacSha256Hex rt secret body))
             (VerifyBody.razorpay_signature b)
        then SignatureValid else SignatureInvalid
    end.

(** [actualPaymentMethod] *)
Definition paymentMethodOf (out : Outside) (b : VerifyBody.t)
  : option string :=
  if optionStringEqb (VerifyBody.razorpay_payment_id b) (Some "direct_payment")
  then Some "card"
  else
    match paymentsFetch out with
    | Fetched m => orElse m (Some "card")
    | FetchedNothing => Some "card"
    | FetchFailed => orElse (VerifyBody.paymentMethod b) (Some "card")
    end.

(** The reservation of [verifyPayment] after its assignments. *)
Definition confirmedRegistration (now : Z) (out : Outside)
    (b : VerifyBody.t) (registration : SpecialCourse.doc)
  : SpecialCourse.doc :=
  SpecialCourse.setPaymentConfirmedAt now
    (SpecialCourse.setPaymentStatus PaymentStatus.paid
       (SpecialCourse.setStatus Status.registered
          (SpecialCourse.setPayment
             {| SpecialCourse.razorpay_payment_id :=
                  VerifyBody.razorpay_payment_id b;
                SpecialCourse.razorpay_order_id :=
                  orElse (VerifyBody.razorpay_order_id b)
                    (orElse (SpecialCourse.razorpay_order_id
                               (SpecialCourse.payment registration))
                            (Some "direct_payment"));
                SpecialCourse.razorpay_signature :=
                  orElse (VerifyBody.razorpay_signature b)
                         (Some "direct_payment");
                SpecialCourse.amount := Some (feeOf registration);
                SpecialCourse.paymentState := Some "paid";
                SpecialCourse.payment_date := Some now;
                SpecialCourse.method := paymentMethodOf out b |}
             registration))).

(** The log record [verifyPayment] creates. *)
Definition verificationLog (b : VerifyBody.t)
    (registration : SpecialCourse.doc) : SpecialCoursePayment.doc :=
  {| SpecialCoursePayment.registrationId := VerifyBody.registrationId b;
     SpecialCoursePayment.razorpay_payment_id :=
       Validation.valueOf (VerifyBody.razorpay_payment_id b);
     SpecialCoursePayment.razorpay_order_id :=
       orElse (VerifyBody.razorpay_order_id b) (Some "direct_payment");
     SpecialCoursePayment.amount := Some (feeOf registration);
     SpecialCoursePayment.status := SpecialCoursePayment.captured;
     SpecialCoursePayment.source := Some "frontend_verification" |}.

(** Deletion of an aged reservation together with its payment records. *)
Definition deleteWithPayments (registrationId : string) (st : Store)
  : Store :=
  let st1 :=
    withCourses (deleteOne (hasRegistrationId registrationId) (courses st))
      st in
  withPayments (deleteMany (paymentOf registrationId) (coursePayments st1))
    st1.

(** [exports.verifyPayment] *)
Definition verifyPayment (now : Z) (out : Outside) (b : VerifyBody.t)
    (st : Store) : VerifyResponse * Store :=
  if Validation.falsy (VerifyBody.razorpay_payment_id b) ||
     Validation.falsy (VerifyBody.registrationId b)
  then (VerifyFieldsRequired, st)
  else
    let registrationId := Validation.valueOf (VerifyBody.registrationId b) in
    match find (hasRegistrationId registrationId) (courses st) with
    | None => (VerifyNotFound, st)
    | Some registration =>
        if PaymentStatus.eqb (SpecialCourse.payment_status registration)
             PaymentStatus.paid
        then (VerifyAlreadyProcessed registrationId, st)
        else if negb (Status.eqb (SpecialCourse.status registration)
                        Status.pending_payment)
        then (VerifyStatusRejected (SpecialCourse.status registration), st)
        else if SpecialCourse.createdAt registration <? deleteThresholdAt now
        then (VerifyExpiredDeleted registrationId (ageMinutes now registration),
              deleteWithPayments registrationId st)
        else
          let '(slotInfo, st1) :=
            checkSlotAvailability rt now
              (SpecialCourse.carnivalName registration)
              (SpecialCourse.selectedBatch registration)
              (DateObject (SpecialCourse.selectedDate registration)) st in
          if isFull slotInfo then (VerifySlotFull slotInfo, st1)
          else
            match checkPaymentSignature b with
            | SignatureThrows => (VerifyFailed, st1)
            | SignatureInvalid => (VerifySignatureInvalid, st1)
            | SignatureValid =>
                match saveDocument now
                        (confirmedRegistration now out b registration)
                        (courses st1) with
                | SaveThrows _ => (VerifyFailed, st1)
                | SaveOk cs =>
                    let st2 := withCourses cs st1 in
                    let st3 :=
                      match createPayment (verificationLog b registration)
                              (coursePayments st2) with
                      | SaveOk ps => withPayments ps st2
                      | SaveThrows _ => st2
                      end in
                    (VerifyConfirmed registrationId
                       (confirmationEmailSent out) slotInfo, st3)
                end
            end
    end.

(** The age test of the two read paths. *)
Definition agedOut (now : Z) (r : SpecialCourse.doc) : bool :=
  Status.eqb (SpecialCourse.status r) Status.pending_payment &&
  (SpecialCourse.createdAt r <? deleteThresholdAt now).

(** [exports.getRegistration] *)
Definition getRegistration (now : Z) (registrationId : string) (st : Store)
  : LookupResponse * Store :=
  match find (hasRegistrationId registrationId) (courses st) with
  | None => (LookupNotFound, st)
  | Some registration =>
      if agedOut now registration then
        (LookupExpiredDeleted registrationId (ageMinutes now registration),
         withCourses
           (deleteOne (hasRegistrationId registrationId) (courses st)) st)
      else (LookupFound registration None false, st)
  end.

(** [exports.checkRegistrationStatus] *)
Definition checkRegistrationStatus (now : Z) (registrationId : option string)
    (st : Store) : LookupResponse * Store :=
  if Validation.falsy registrationId then (LookupIdRequired, st)
  else
    let id := Validation.valueOf registrationId in
    match find (hasRegistrationId id) (courses st) with
    | None => (LookupNotFound, st)
    | Some registration =>
        if agedOut now registration then
          (LookupExpiredDeleted id (ageMinutes now registration),
           withCourses (deleteOne (hasRegistrationId id) (courses st)) st)
        else if Status.eqb (SpecialCourse.status registration)
                  Status.pending_payment
        then
          let '(slotInfo, st1) :=
            checkSlotAvailability rt now
              (SpecialCourse.carnivalName registration)
              (SpecialCourse.selectedBatch registration)
              (DateObject (SpecialCourse.selectedDate registration)) st in
          (LookupFound registration (Some slotInfo)
             ((deleteThresholdAt now <=? SpecialCourse.createdAt registration)
              && negb (isFull slotInfo)), st1)
        else (LookupFound registration None false, st)
    end.

(** [deleteQuery] of the sweep. *)
Definition stalePending (now : Z) (r : SpecialCourse.doc) : bool :=
  isPending r && (SpecialCourse.createdAt r <? deleteThresholdAt now).

(** [cleanupExpiredRegistrations], the sweep. *)
Definition cleanupExpiredRegistrations (now : Z) (st : Store)
  : CleanupResult * Store :=
  let allPending := filter isPending (courses st) in
  let registrationsToDelete := filter (stalePending now) (courses st) in
  match registrationsToDelete with
  | [] => ({| deletedCount := 0;
              pendingTotal := Z.of_nat (List.length allPending) |}, st)
  | _ :: _ =>
      let registrationIds :=
        map SpecialCourse.registrationId registrationsToDelete in
      let cs :=
        deleteMany
          (fun r => inStrings (SpecialCourse.registrationId r) registrationIds)
          (courses st) in
      ({| deletedCount :=
            Z.of_nat (List.length (courses st)) - Z.of_nat (List.length cs);
          pendingTotal := Z.of_nat (List.length allPending) |},
       {| courses := cs;
          coursePayments :=
            deleteMany (paymentOfAny registrationIds) (coursePayments st) |})
  end.

(** [exports.expireRegistration] *)
Definition expireRegistration (registrationId : option string) (st : Store)
  : ExpireResponse * Store :=
  match registrationId with
  | None => (ExpireNotFound, st)
  | Some id =>
      match find (hasRegistrationId id) (courses st) with
      | None => (ExpireNotFound, st)
      | Some registration =>
          if Status.eqb (SpecialCourse.status registration)
               Status.pending_payment
          then (ExpireDeleted id, deleteWithPayments id st)
          else (ExpireRefused (SpecialCourse.status registration), st)
      end
  end.

End Payments.

(* ================================================================== *)
(** ** [PaymentWebhook.controller.js] *)
(* ================================================================== *)

Module Webhook.

(** [req.body.payload.payment.entity]; [amount] is in hundredths. *)
Record Entity := {
  id : string;
  order_id : option string;
  amount : Z;
  method : option string
}.

(** A webhook request: the [x-razorpay-signature] header, the text
    [JSON.stringify(req.body)], the [event] of the body and its payment
    entity ([None] when the body has none, so that reading it throws). *)
Record Request := {
  signature : option string;
  body : string;
  event : option string;
  entity : option Entity
}.

Inductive Response :=
| NoSignatureProvided        (* 400 *)
| InvalidSignature           (* 400 *)
| Processed                  (* 200 *)
| ProcessingFailed.          (* 500 *)

Definition statusCode (r : Response) : Z :=
  match r with
  | NoSignatureProvided | InvalidSignature => 400
  | Processed => 200
  | ProcessingFailed => 500
  end.

End Webhook.

Section WebhookController.

Context (rt : Runtime).

(** [verifyWebhookSignature]: [createHmac] throws without a secret, and
    the [catch] branch answers [false]. *)
Definition verifyWebhookSignature (body signature : string) : bool :=
  match RAZORPAY_WEBHOOK_SECRET rt with
  | None => false
  | Some secret => String.eqb (hmacSha256Hex rt secret body) signature
  end.

(** [{ 'payment.razorpay_order_id': payment.order_id }] *)
Definition hasOrderId (o : option string) (r : SpecialCourse.doc) : bool :=
  optionStringEqb
    (SpecialCourse.razorpay_order_id (SpecialCourse.payment r)) o.

(** [{ 'payment.razorpay_payment_id': payment.id }] *)
Definition hasGatewayPaymentId (i : string) (r : SpecialCourse.doc) : bool :=
  optionStringEqb
    (SpecialCourse.razorpay_payment_id (SpecialCourse.payment r)) (Some i).

Definition webhookLog (registration : SpecialCourse.doc)
    (payment : Webhook.Entity) (s : SpecialCoursePayment.LogStatus)
  : SpecialCoursePayment.doc :=
  {| SpecialCoursePayment.registrationId :=
       Some (SpecialCourse.registrationId registration);
     SpecialCoursePayment.razorpay_payment_id := Webhook.id payment;
     SpecialCoursePayment.razorpay_order_id := Webhook.order_id payment;
     SpecialCoursePayment.amount := Some (Webhook.amount payment);
     SpecialCoursePayment.status := s;
     SpecialCoursePayment.source := None |}.

(** A [create] on the payment log inside a handler's [try]. *)
Definition tryCreatePayment (p : SpecialCoursePayment.doc) (st : Store)
  : Store :=
  match createPayment p (coursePayments st) with
  | SaveOk ps => withPayments ps st
  | SaveThrows _ => st
  end.

(** [handlePaymentAuthorized] *)
Definition handlePaymentAuthorized (now : Z) (payment : Webhook.Entity)
    (st : Store) : Store :=
  match find (hasOrderId (Webhook.order_id payment)) (courses st) with
  | None => st
  | Some registration =>
      let p := SpecialCourse.payment registration in
      let registration' :=
        SpecialCourse.setPayment
          {| SpecialCourse.razorpay_payment_id := Some (Webhook.id payment);
             SpecialCourse.razorpay_order_id :=
               SpecialCourse.razorpay_order_id p;
             SpecialCourse.razorpay_signature :=
               SpecialCourse.razorpay_signature p;
             SpecialCourse.amount := SpecialCourse.amount p;
             SpecialCourse.paymentState := SpecialCourse.paymentState p;
             SpecialCourse.payment_date := SpecialCourse.payment_date p;
             SpecialCourse.method := SpecialCourse.method p |}
          (SpecialCourse.setPaymentStatus PaymentStatus.pending registration) in
      match saveDocument now registration' (courses st) with
      | SaveThrows _ => st
      | SaveOk cs =>
          tryCreatePayment
            (webhookLog registration payment SpecialCoursePayment.authorized)
            (withCourses cs st)
      end
  end.

(** The reservation of [handlePaymentCaptured] after its assignments. *)
Definition capturedRegistration (now : Z) (payment : Webhook.Entity)
    (registration : SpecialCourse.doc) : SpecialCourse.doc :=
  SpecialCourse.setPayment
    {| SpecialCourse.razorpay_payment_id := Some (Webhook.id payment);
       SpecialCourse.razorpay_order_id := Webhook.order_id payment;
       SpecialCourse.razorpay_signature := None;
       SpecialCourse.amount := Some (Webhook.amount payment);
       SpecialCourse.paymentState := Some "paid";
       SpecialCourse.payment_date := Some now;
       SpecialCourse.method := None |}
    (SpecialCourse.setStatus Status.registered
       (SpecialCourse.setPaymentStatus PaymentStatus.paid registration)).

(** [handlePaymentCaptured] *)
Definition handlePaymentCaptured (now : Z) (payment : Webhook.Entity)
    (st : Store) : Store :=
  match find (hasOrderId (Webhook.order_id payment)) (courses st) with
  | None => st
  | Some registration =>
      match saveDocument now (capturedRegistration now payment registration)
              (courses st) with
      | SaveThrows _ => st
      | SaveOk cs =>
          withPayments
            (upsertPaymentStatus (Webhook.id payment)
               SpecialCoursePayment.captured (coursePayments st))
            (withCourses cs st)
      end
  end.

(** [handlePaymentFailed] *)
Definition handlePaymentFailed (now : Z) (payment : Webhook.Entity)
    (st : Store) : Store :=
  match find (hasOrderId (Webhook.order_id payment)) (courses st) with
  | None => st
  | Some registration =>
      let registration' :=
        SpecialCourse.setStatus Status.pending_payment
          (SpecialCourse.setPaymentStatus PaymentStatus.pending registration) in
      match saveDocument now registration' (courses st) with
      | SaveThrows _ => st
      | SaveOk cs =>
          tryCreatePayment
            (webhookLog registration payment SpecialCoursePayment.failed)
            (withCourses cs st)
      end
  end.

(** [handlePaymentRefunded] *)
Definition handlePaymentRefunded (now : Z) (payment : Webhook.Entity)
    (st : Store) : Store :=
  match find (hasGatewayPaymentId (Webhook.id payment)) (courses st) with
  | None => st
  | Some registration =>
      let p := SpecialCourse.payment registration in
      let registration' :=
        SpecialCourse.setPayment
          {| SpecialCourse.razorpay_payment_id :=
               SpecialCourse.razorpay_payment_id p;
             SpecialCourse.razorpay_order_id :=
               SpecialCourse.razorpay_order_id p;
             SpecialCourse.razorpay_signature :=
               SpecialCourse.razorpay_signature p;
             SpecialCourse.amount := SpecialCourse.amount p;
             SpecialCourse.paymentState := Some "refunded";
             SpecialCourse.payment_date := SpecialCourse.payment_date p;
             SpecialCourse.method := SpecialCourse.method p |}
          (SpecialCourse.setStatus Status.refunded registration) in
      match saveDocument now registration' (courses st) with
      | SaveThrows _ => st
      | SaveOk cs =>
          withPayments
            (upsertPaymentStatus (Webhook.id payment)
               SpecialCoursePayment.refunded (coursePayments st))
            (withCourses cs st)
      end
  end.

(** The [switch] of [handleWebhook]. *)
Definition dispatchEvent (now : Z) (event : option string)
    (payment : Webhook.Entity) (st : Store) : Store :=
  if optionStringEqb event (Some "payment.authorized")
  then handlePaymentAuthorized now payment st
  else if optionStringEqb event (Some "payment.captured")
  then handlePaymentCaptured now payment st
  else if optionStringEqb event (Some "payment.failed")
  then handlePaymentFailed now payment st
  else if optionStringEqb event (Some "payment.refunded")
  then handlePaymentRefunded now payment st
  else st.

(** [exports.handleWebhook] *)
Definition handleWebhook (now : Z) (req : Webhook.Request) (st : Store)
  : Webhook.Response * Store :=
  if Validation.falsy (Webhook.signature req)
  then (Webhook.NoSignatureProvided, st)
  else if negb (verifyWebhookSignature (Webhook.body req)
                  (Validation.valueOf (Webhook.signature req)))
  then (Webhook.InvalidSignature, st)
  else
    match Webhook.entity req with
    | None => (Webhook.ProcessingFailed, st)
    | Some payment =>
        (Webhook.Processed, dispatchEvent now (Webhook.event req) payment st)
    end.

End WebhookController.

(* ================================================================== *)
(** ** The program as a transition system *)
(* ================================================================== *)

(** The requests that can change the store.  [SlotQueries] stands for the
    endpoints that only run [checkSlotAvailability] ([checkSlots],
    [checkMultipleSlots], [getCarnivalStatistics]); [Sweep] for the timer,
    [runCleanup] and [testCleanup]. *)
Inductive Operation :=
| SlotQueries (queries : list (string * string * DateInput))
| Register (b : RegisterBody.t)
| CreateOrder (out : Outside) (registrationId : option string)
| VerifyPayment (out : Outside) (b : VerifyBody.t)
| GetRegistration (registrationId : string)
| CheckRegistrationStatus (registrationId : option string)
| Sweep
| ExpireRegistration (registrationId : option string)
| WebhookEvent (req : Webhook.Request).

Section Transitions.

Context (rt : Runtime).

Fixpoint slotQueries (now : Z) (qs : list (string * string * DateInput))
    (st : Store) : Store :=
  match qs with
  | [] => st
  | (carnival, batch, date) :: qs' =>
      slotQueries now qs'
        (snd (checkSlotAvailability rt now carnival batch date st))
  end.

(** The store an operation leaves behind when it runs at [now]. *)
Definition step (now : Z) (op : Operation) (st : Store) : Store :=
  match op with
  | SlotQueries qs => slotQueries now qs st
  | Register b => snd (register rt now b st)
  | CreateOrder out id => snd (createOrder now out id st)
  | VerifyPayment out b => snd (verifyPayment rt now out b st)
  | GetRegistration id => snd (getRegistration now id st)
  | CheckRegistrationStatus id => snd (checkRegistrationStatus rt now id st)
  | Sweep => snd (cleanupExpiredRegistrations now st)
  | ExpireRegistration id => snd (expireRegistration id st)
  | WebhookEvent req => snd (handleWebhook rt now req st)
  end.

Definition emptyStore : Store := {| courses := []; coursePayments := [] |}.

(** The stores the program can be in: it starts empty and runs
    operations at non-decreasing instants. *)
Inductive reachableAt : Z -> Store -> Prop :=
| reach_start : forall t, reachableAt t emptyStore
| reach_step : forall t now op st,
    reachableAt t st -> t <= now -> reachableAt now (step now op st).

Definition reachable (st : Store) : Prop := exists t, reachableAt t st.

End Transitions.

(* ================================================================== *)
(** ** A runtime and a store to run the model on *)
(* ================================================================== *)

(** A runtime for the examples: both secrets are set, no date string
    outside [YYYY-MM-DD] parses, and the keyed hash is replaced by the
    concatenation of key and message. *)
Definition sampleRuntime : Runtime :=
  {| localDateFields := fun _ => None;
     hmacSha256Hex := fun key msg => key ++ ":" ++ msg;
     RAZORPAY_WEBHOOK_SECRET := Some "whsec";
     RAZORPAY_KEY_SECRET := Some "keysec" |}.

(** 2026-01-20T10:00:00Z *)
Definition sampleNow : Z := 1768903200000.

(** 2026-01-26, an offline day. *)
Definition offlineDay : Z := 1769385600000.

Definition sampleBatch : string := "Batch A " ++ clockSign ++ " 10:00 AM".

Definition sampleReservation (i : Z) (id child : string) (s : Status.t)
    (p : PaymentStatus.t) (order : option string) (created : Z)
  : SpecialCourse.doc :=
  {| SpecialCourse._id := i;
     SpecialCourse.registrationId := id;
     SpecialCourse.carnivalName := "Republic Day Carnival";
     SpecialCourse.parentName := "Asha Rao";
     SpecialCourse.email := "asha@example.com";
     SpecialCourse.phone := "9876543210";
     SpecialCourse.childName := child;
     SpecialCourse.childAge := "7";
     SpecialCourse.selectedBatch := sampleBatch;
     SpecialCourse.batchTime := "10:00 AM";
     SpecialCourse.selectedDate := offlineDay;
     SpecialCourse.materialType := false;
     SpecialCourse.status := s;
     SpecialCourse.payment_status := p;
     SpecialCourse.payment :=
       {| SpecialCourse.razorpay_payment_id := None;
          SpecialCourse.razorpay_order_id := order;
          SpecialCourse.razorpay_signature := None;
          SpecialCourse.amount := None;
          SpecialCourse.paymentState := None;
          SpecialCourse.payment_date := None;
          SpecialCourse.method := None |};
     SpecialCourse.payment_expires_at := Some (created + 15 * 60 * 1000);
     SpecialCourse.payment_confirmed_at := None;
     SpecialCourse.expiredAt := None;
     SpecialCourse.expiration_reason := None;
     SpecialCourse.createdAt := created |}.

Definition sampleLog (id pid : string) (s : SpecialCoursePayment.LogStatus)
  : SpecialCoursePayment.doc :=
  {| SpecialCoursePayment.registrationId := Some id;
     SpecialCoursePayment.razorpay_payment_id := pid;
     SpecialCoursePayment.razorpay_order_id := Some "order_A";
     SpecialCoursePayment.amount := Some 29900;
     SpecialCoursePayment.status := s;
     SpecialCoursePayment.source := None |}.

(* ================================================================== *)
(** ** The words of the specification *)
(* ================================================================== *)

(** [confirmedCount] as the specification defines it: the reservations of
    the scope key with [status=registered] and [payment_status=paid]. *)
Definition confirmedCount (carnival batch : string) (date : Z) (st : Store)
  : Z :=
  Z.of_nat (List.length (filter
    (fun r =>
       String.eqb (SpecialCourse.carnivalName r) carnival &&
       String.eqb (SpecialCourse.selectedBatch r) batch &&
       (SpecialCourse.selectedDate r =? date) &&
       Status.eqb (SpecialCourse.status r) Status.registered &&
       PaymentStatus.eqb (SpecialCourse.payment_status r) PaymentStatus.paid)
    (courses st))).

(** [activeHoldCount] as the specification defines it: the reservations of
    the scope key with [status=pending_payment], [payment_status=pending]
    and [createdAt] within the last 10 minutes. *)
Definition activeHoldCount (now : Z) (carnival batch : string) (date : Z)
    (st : Store) : Z :=
  Z.of_nat (List.length (filter
    (fun r =>
       String.eqb (SpecialCourse.carnivalName r) carnival &&
       String.eqb (SpecialCourse.selectedBatch r) batch &&
       (SpecialCourse.selectedDate r =? date) &&
       Status.eqb (SpecialCourse.status r) Status.pending_payment &&
       PaymentStatus.eqb (SpecialCourse.payment_status r) PaymentStatus.pending &&
       (now - 10 * 60 * 1000 <=? SpecialCourse.createdAt r))
    (courses st))).

(* ================================================================== *)
(** ** Lists, filters and deletions *)
(* ================================================================== *)

Lemma filter_ext_all {A} (p q : A -> bool) (l : list A) :
  (forall x, p x = q x) -> filter p l = filter q l.
Proof.
  intros E. induction l as [|x l IH]; simpl; [reflexivity|].
  rewrite E, IH. reflexivity.
Qed.

Lemma filter_after_deleteMany {A} (p del : A -> bool) (l : list A) :
  (forall x, p x = true -> del x = false) ->
  filter p (deleteMany del l) = filter p l.
Proof.
  intros D. unfold deleteMany.
  induction l as [|x l IH]; simpl; [reflexivity|].
  destruct (del x) eqn:Ed; simpl.
  - destruct (p x) eqn:Ep; [|exact IH].
    rewrite (D x Ep) in Ed. discriminate.
  - rewrite IH. reflexivity.
Qed.

Lemma filter_deleteMany_same {A} (q : A -> bool) (l : list A) :
  filter q (deleteMany q l) = [].
Proof.
  unfold deleteMany. induction l as [|x l IH]; simpl; [reflexivity|].
  destruct (q x) eqn:E; simpl; [exact IH|].
  rewrite E. exact IH.
Qed.

Lemma count_after_deleteMany {A} (p del : A -> bool) (l : list A) :
  (forall x, p x = true -> del x = false) ->
  countDocuments p (deleteMany del l) = countDocuments p l.
Proof.
  intros D. unfold countDocuments.
  rewrite (filter_after_deleteMany p del l D). reflexivity.
Qed.

Lemma Status_eqb_eq (a b : Status.t) : Status.eqb a b = true <-> a = b.
Proof. destruct a, b; simpl; split; intros H; congruence. Qed.

Lemma PaymentStatus_eqb_eq (a b : PaymentStatus.t) :
  PaymentStatus.eqb a b = true <-> a = b.
Proof. destruct a, b; simpl; split; intros H; congruence. Qed.

(* ================================================================== *)
(** ** White space, [trim] and [toLowerCase] *)
(* ================================================================== *)

Section DropWhiteFacts.

Variable white2 : ascii -> ascii -> bool.
Variable white3 : ascii -> ascii -> ascii -> bool.

Lemma dropWhiteBy_clean l :
  JsString.startsWhite white2 white3 (JsString.dropWhiteBy white2 white3 l)
  = false.
Proof.
  assert (H : forall n l, (List.length l <= n)%nat ->
            JsString.startsWhite white2 white3
              (JsString.dropWhiteBy white2 white3 l) = false).
  { clear l. induction n as [|n IH]; intros l L.
    - destruct l; [reflexivity|simpl in L; lia].
    - destruct l as [|c1 l1]; [reflexivity|].
      cbn [JsString.dropWhiteBy]. destruct (JsString.isWhite c1) eqn:E1.
      + apply IH. simpl in L. lia.
      + destruct l1 as [|c2 l2].
        * cbn [JsString.startsWhite]. rewrite E1. reflexivity.
        * destruct (white2 c1 c2) eqn:E2.
          -- apply IH. simpl in L. lia.
          -- destruct l2 as [|c3 l3].
             ++ cbn [JsString.startsWhite]. rewrite E1, E2. reflexivity.
             ++ destruct (white3 c1 c2 c3) eqn:E3.
                ** apply IH. simpl in L. lia.
                ** cbn [JsString.startsWhite]. rewrite E1, E2, E3.
                   reflexivity. }
  apply (H (List.length l)). apply Nat.le_refl.
Qed.

Lemma dropWhiteBy_fixed l :
  JsString.startsWhite white2 white3 l = false ->
  JsString.dropWhiteBy white2 white3 l = l.
Proof.
  destruct l as [|c1 [|c2 [|c3 l3]]];
    cbn [JsString.startsWhite JsString.dropWhiteBy]; intros H;
    try reflexivity.
  - rewrite orb_false_r in H. rewrite H. reflexivity.
  - apply orb_false_elim in H. destruct H as [H1 H2].
    rewrite orb_false_r in H2. rewrite H1, H2. reflexivity.
  - apply orb_false_elim in H. destruct H as [H1 H2].
    apply orb_false_elim in H2. destruct H2 as [H2 H3].
    rewrite H1, H2, H3. reflexivity.
Qed.

Lemma dropWhiteBy_suffix l :
  exists p, l = (p ++ JsString.dropWhiteBy white2 white3 l)%list.
Proof.
  assert (H : forall n l, (List.length l <= n)%nat ->
            exists p, l = (p ++ JsString.dropWhiteBy white2 white3 l)%list).
  { clear l. induction n as [|n IH]; intros l L.
    - destruct l; [exists []; reflexivity|simpl in L; lia].
    - destruct l as [|c1 l1]; [exists []; reflexivity|].
      cbn [JsString.dropWhiteBy]. destruct (JsString.isWhite c1).
      + destruct (IH l1) as [p Hp]; [simpl in L; lia|].
        exists (c1 :: p). cbn [app]. rewrite <- Hp. reflexivity.
      + destruct l1 as [|c2 l2]; [exists []; reflexivity|].
        destruct (white2 c1 c2).
        * destruct (IH l2) as [p Hp]; [simpl in L; lia|].
          exists (c1 :: c2 :: p). cbn [app]. rewrite <- Hp. reflexivity.
        * destruct l2 as [|c3 l3]; [exists []; reflexivity|].
          destruct (white3 c1 c2 c3); [|exists []; reflexivity].
          destruct (IH l3) as [p Hp]; [simpl in L; lia|].
          exists (c1 :: c2 :: c3 :: p). cbn [app]. rewrite <- Hp.
          reflexivity. }
  apply (H (List.length l)). apply Nat.le_refl.
Qed.

Lemma startsWhite_prefix x y :
  JsString.startsWhite white2 white3 (x ++ y) = false ->
  JsString.startsWhite white2 white3 x = false.
Proof.
  destruct x as [|c1 [|c2 [|c3 x3]]]; cbn [app JsString.startsWhite];
    intros H; try reflexivity.
  - apply orb_false_elim in H. destruct H as [H1 _]. rewrite H1. reflexivity.
  - apply orb_false_elim in H. destruct H as [H1 H2].
    destruct y as [|c3 y].
    + rewrite H1. exact H2.
    + apply orb_false_elim in H2. destruct H2 as [H2 _].
      rewrite H1, H2. reflexivity.
  - exact H.
Qed.

Hypothesis white2_lower :
  forall a b,
    white2 (JsString.lowerChar a) (JsString.lowerChar b) = white2 a b.
Hypothesis white3_lower :
  forall a b c,
    white3 (JsString.lowerChar a) (JsString.lowerChar b)
      (JsString.lowerChar c) = white3 a b c.
Hypothesis white_lower :
  forall a, JsString.isWhite (JsString.lowerChar a) = JsString.isWhite a.

Lemma dropWhiteBy_lower l :
  JsString.dropWhiteBy white2 white3 (map JsString.lowerChar l)
  = map JsString.lowerChar (JsString.dropWhiteBy white2 white3 l).
Proof.
  assert (H : forall n l, (List.length l <= n)%nat ->
            JsString.dropWhiteBy white2 white3 (map JsString.lowerChar l)
            = map JsString.lowerChar (JsString.dropWhiteBy white2 white3 l)).
  { clear l. induction n as [|n IH]; intros l L.
    - destruct l; [reflexivity|simpl in L; lia].
    - destruct l as [|c1 l1]; [reflexivity|].
      cbn [map JsString.dropWhiteBy]. rewrite white_lower.
      destruct (JsString.isWhite c1).
      + apply IH. simpl in L. lia.
      + destruct l1 as [|c2 l2]; [reflexivity|].
        cbn [map]. rewrite white2_lower. destruct (white2 c1 c2).
        * apply IH. simpl in L. lia.
        * destruct l2 as [|c3 l3]; [reflexivity|].
          cbn [map]. rewrite white3_lower. destruct (white3 c1 c2 c3).
          -- apply IH. simpl in L. lia.
          -- reflexivity. }
  apply (H (List.length l)). apply Nat.le_refl.
Qed.

End DropWhiteFacts.

Lemma trimChars_fixed l :
  JsString.trimChars (JsString.trimChars l) = JsString.trimChars l.
Proof.
  unfold JsString.trimChars, JsString.dropWhite, JsString.dropWhiteReversed.
  set (f2 := fun c2 c1 => JsString.isWhite2 c1 c2).
  set (f3 := fun c3 c2 c1 => JsString.isWhite3 c1 c2 c3).
  pose proof (dropWhiteBy_clean JsString.isWhite2 JsString.isWhite3 l) as Ha.
  set (a := JsString.dropWhiteBy JsString.isWhite2 JsString.isWhite3 l) in *.
  pose proof (dropWhiteBy_clean f2 f3 (rev a)) as Hb.
  destruct (dropWhiteBy_suffix f2 f3 (rev a)) as [p Ep].
  set (c := JsString.dropWhiteBy f2 f3 (rev a)) in *.
  assert (Ea : a = (rev c ++ rev p)%list).
  { rewrite <- rev_app_distr, <- Ep, rev_involutive. reflexivity. }
  assert (Hc : JsString.startsWhite JsString.isWhite2 JsString.isWhite3
                 (rev c) = false).
  { apply (startsWhite_prefix _ _ (rev c) (rev p)). rewrite <- Ea. exact Ha. }
  rewrite (dropWhiteBy_fixed _ _ _ Hc), rev_involutive,
    (dropWhiteBy_fixed _ _ _ Hb).
  reflexivity.
Qed.

(** [trim] is idempotent. *)
Lemma trim_trim s : JsString.trim (JsString.trim s) = JsString.trim s.
Proof.
  unfold JsString.trim.
  rewrite list_ascii_of_string_of_list_ascii, trimChars_fixed. reflexivity.
Qed.

(** [toLowerCase] changes the letters A-Z only, which are below 128. *)
Lemma lowerChar_cases c :
  JsString.lowerChar c = c \/
  (JsString.code c < 128 /\ JsString.code (JsString.lowerChar c) < 128).
Proof.
  destruct c as [b0 b1 b2 b3 b4 b5 b6 b7].
  destruct b0, b1, b2, b3, b4, b5, b6, b7;
    first [left; reflexivity|right; split; reflexivity].
Qed.

Lemma lowerChar_white c :
  JsString.isWhite (JsString.lowerChar c) = JsString.isWhite c.
Proof.
  destruct c as [b0 b1 b2 b3 b4 b5 b6 b7].
  destruct b0, b1, b2, b3, b4, b5, b6, b7; reflexivity.
Qed.

Lemma lowerChar_lowerChar c :
  JsString.lowerChar (JsString.lowerChar c) = JsString.lowerChar c.
Proof.
  destruct c as [b0 b1 b2 b3 b4 b5 b6 b7].
  destruct b0, b1, b2, b3, b4, b5, b6, b7; reflexivity.
Qed.

Lemma isWhite2_high a b :
  JsString.isWhite2 a b = true ->
  128 <= JsString.code a /\ 128 <= JsString.code b.
Proof.
  unfold JsString.isWhite2. rewrite andb_true_iff, !Z.eqb_eq. lia.
Qed.

Lemma isWhite3_high a b c :
  JsString.isWhite3 a b c = true ->
  128 <= JsString.code a /\ 128 <= JsString.code b /\ 128 <= JsString.code c.
Proof.
  unfold JsString.isWhite3. cbv zeta.
  repeat (rewrite orb_true_iff || rewrite andb_true_iff || rewrite Z.eqb_eq
          || rewrite Z.leb_le).
  lia.
Qed.

Lemma isWhite2_lower a b :
  JsString.isWhite2 (JsString.lowerChar a) (JsString.lowerChar b)
  = JsString.isWhite2 a b.
Proof.
  destruct (lowerChar_cases a) as [Ea|[La La']];
    destruct (lowerChar_cases b) as [Eb|[Lb Lb']];
    rewrite ?Ea, ?Eb; try reflexivity;
    destruct (JsString.isWhite2 _ _) eqn:A;
    destruct (JsString.isWhite2 a b) eqn:B; try reflexivity;
    try (apply isWhite2_high in A; lia);
    try (apply isWhite2_high in B; lia).
Qed.

Lemma isWhite3_lower a b c :
  JsString.isWhite3 (JsString.lowerChar a) (JsString.lowerChar b)
    (JsString.lowerChar c)
  = JsString.isWhite3 a b c.
Proof.
  destruct (lowerChar_cases a) as [Ea|[La La']];
    destruct (lowerChar_cases b) as [Eb|[Lb Lb']];
    destruct (lowerChar_cases c) as [Ec|[Lc Lc']];
    rewrite ?Ea, ?Eb, ?Ec; try reflexivity;
    destruct (JsString.isWhite3 _ _ _) eqn:A;
    destruct (JsString.isWhite3 a b c) eqn:B; try reflexivity;
    try (apply isWhite3_high in A; lia);
    try (apply isWhite3_high in B; lia).
Qed.

(** [toLowerCase] and [trim] commute. *)
Lemma toLowerCase_trim s :
  JsString.toLowerCase (JsString.trim s)
  = JsString.trim (JsString.toLowerCase s).
Proof.
  unfold JsString.toLowerCase, JsString.trim, JsString.trimChars,
    JsString.dropWhite, JsString.dropWhiteReversed.
  rewrite !list_ascii_of_string_of_list_ascii.
  rewrite (dropWhiteBy_lower JsString.isWhite2 JsString.isWhite3
             isWhite2_lower isWhite3_lower lowerChar_white).
  rewrite <- map_rev.
  rewrite (dropWhiteBy_lower (fun c2 c1 => JsString.isWhite2 c1 c2)
             (fun c3 c2 c1 => JsString.isWhite3 c1 c2 c3)
             (fun a b => isWhite2_lower b a)
             (fun a b c => isWhite3_lower c b a) lowerChar_white).
  rewrite <- map_rev. reflexivity.
Qed.

Lemma toLowerCase_toLowerCase s :
  JsString.toLowerCase (JsString.toLowerCase s) = JsString.toLowerCase s.
Proof.
  unfold JsString.toLowerCase.
  rewrite list_ascii_of_string_of_list_ascii, map_map.
  f_equal. apply map_ext. intros c. apply lowerChar_lowerChar.
Qed.

(* ================================================================== *)
(** ** Slot ledger: the lazy sweep and the counts *)
(* ================================================================== *)

Section SlotLedgerFacts.

Context (rt : Runtime).

Lemma paid_not_oldPending carnival batch qd thr r :
  paidQuery carnival batch qd r = true ->
  oldPendingQuery carnival batch qd thr r = false.
Proof.
  unfold paidQuery, oldPendingQuery, isPending,
    SpecialCourse.isRegistrationComplete.
  destruct (inScope carnival batch qd r); simpl; [|reflexivity].
  destruct (SpecialCourse.status r); simpl; congruence.
Qed.

Lemma active_not_oldPending carnival batch qd thr r :
  activePendingQuery carnival batch qd thr r = true ->
  oldPendingQuery carnival batch qd thr r = false.
Proof.
  unfold activePendingQuery, oldPendingQuery.
  destruct (inScope carnival batch qd r && isPending r); simpl;
    [|reflexivity].
  intros H. apply Z.leb_le in H. apply Z.ltb_ge. exact H.
Qed.

(** The reservations the lazy sweep leaves are those that are not old
    pending ones of the slot. *)
Lemma deleteOldPending_courses carnival batch qd thr st :
  courses (snd (deleteOldPending carnival batch qd thr st)) =
  deleteMany (oldPendingQuery carnival batch qd thr) (courses st).
Proof.
  unfold deleteOldPending.
  destruct (0 <? countDocuments (oldPendingQuery carnival batch qd thr)
                   (courses st)) eqn:E; simpl.
  - match goal with |- context [if ?c then _ else _] => destruct c end;
      reflexivity.
  - apply Z.ltb_ge in E. unfold countDocuments in E.
    assert (F : filter (oldPendingQuery carnival batch qd thr) (courses st)
                = []).
    { destruct (filter _ (courses st)); [reflexivity|simpl in E; lia]. }
    unfold deleteMany. clear E.
    induction (courses st) as [|x l IH]; simpl in *; [reflexivity|].
    destruct (oldPendingQuery carnival batch qd thr x); simpl;
      [discriminate|].
    rewrite <- IH by assumption. reflexivity.
Qed.

(** The registration ids are looked up after the deletion, so none is
    found and the payment log is left as it was. *)
Lemma deleteOldPending_payments carnival batch qd thr st :
  coursePayments (snd (deleteOldPending carnival batch qd thr st)) =
  coursePayments st.
Proof.
  unfold deleteOldPending.
  destruct (0 <? _); simpl; [|reflexivity].
  unfold distinct. rewrite filter_deleteMany_same. reflexivity.
Qed.

Lemma checkSlotAvailability_payments now carnival batch date st :
  coursePayments (snd (checkSlotAvailability rt now carnival batch date st))
  = coursePayments st.
Proof.
  unfold checkSlotAvailability.
  destruct (parseDateForQuery rt date) as [qd|]; [|reflexivity].
  pose proof (deleteOldPending_payments carnival batch qd
                (deleteThresholdAt now) st) as P.
  destruct (deleteOldPending carnival batch qd (deleteThresholdAt now) st)
    as [n st']. simpl in *. exact P.
Qed.

Lemma checkSlotAvailability_courses now carnival batch date st :
  courses (snd (checkSlotAvailability rt now carnival batch date st)) =
  match parseDateForQuery rt date with
  | Some qd =>
      deleteMany (oldPendingQuery carnival batch qd (deleteThresholdAt now))
        (courses st)
  | None => courses st
  end.
Proof.
  unfold checkSlotAvailability.
  destruct (parseDateForQuery rt date) as [qd|]; [|reflexivity].
  pose proof (deleteOldPending_courses carnival batch qd
                (deleteThresholdAt now) st) as P.
  destruct (deleteOldPending carnival batch qd (deleteThresholdAt now) st)
    as [n st']. simpl in *. exact P.
Qed.

Lemma paidQuery_count carnival batch qd st :
  countDocuments (paidQuery carnival batch qd) (courses st) =
  confirmedCount carnival batch qd st.
Proof.
  unfold countDocuments, confirmedCount. f_equal. f_equal.
  apply filter_ext_all. intros r.
  unfold paidQuery, inScope, SpecialCourse.isRegistrationComplete.
  rewrite !andb_assoc. reflexivity.
Qed.

Lemma activePendingQuery_count now carnival batch qd st :
  countDocuments
    (activePendingQuery carnival batch qd (deleteThresholdAt now))
    (courses st) =
  activeHoldCount now carnival batch qd st.
Proof.
  unfold countDocuments, activeHoldCount. f_equal. f_equal.
  apply filter_ext_all. intros r.
  unfold activePendingQuery, inScope, isPending, deleteThresholdAt,
    DELETE_PENDING_AFTER_MINUTES.
  rewrite !andb_assoc. reflexivity.
Qed.

(** The snapshot of a query on a valid date, in terms of the store the
    query started from. *)
Lemma checkSlotAvailability_snapshot now carnival batch date qd st :
  parseDateForQuery rt date = Some qd ->
  let info := fst (checkSlotAvailability rt now carnival batch date st) in
  let online := String.eqb (JsDate.isoDate qd) "2026-01-25" in
  let occupied := confirmedCount carnival batch qd st +
                  activeHoldCount now carnival batch qd st in
  registeredCount info = occupied /\
  availableSlots info =
    (if online then 999 else Z.max 0 (BATCH_CAPACITY - occupied)) /\
  isFull info = negb online && (Z.max 0 (BATCH_CAPACITY - occupied) =? 0) /\
  paidCount (details info) = confirmedCount carnival batch qd st /\
  activePendingCount (details info) =
    activeHoldCount now carnival batch qd st.
Proof.
  intros P. unfold checkSlotAvailability. rewrite P.
  pose proof (deleteOldPending_courses carnival batch qd
                (deleteThresholdAt now) st) as C.
  destruct (deleteOldPending carnival batch qd (deleteThresholdAt now) st)
    as [n st']. simpl in C. simpl.
  rewrite C.
  rewrite (count_after_deleteMany _ _ _
             (paid_not_oldPending carnival batch qd (deleteThresholdAt now))).
  rewrite (count_after_deleteMany _ _ _
             (active_not_oldPending carnival batch qd (deleteThresholdAt now))).
  rewrite paidQuery_count, activePendingQuery_count.
  destruct (String.eqb (JsDate.isoDate qd) "2026-01-25") eqn:E; simpl;
    repeat split; reflexivity.
Qed.

End SlotLedgerFacts.

(* ================================================================== *)
(** ** Availability (C1) and the payment records of the lazy sweep (C9) *)
(* ================================================================== *)

(** C1.  An availability query on a scope key with a valid date, whose
    carnival and batch names carry no surrounding white space (so that the
    cast of the filter leaves them as they are), reports, when the date is
    not the online date 2026-01-25,
    [remaining = max(0, 20 - (confirmedCount + activeHoldCount))] and
    [isFull] exactly when [remaining = 0]; on 2026-01-25 [isFull] is false
    whatever the occupied count.  The two counts are those of the
    specification, and the lazy sweep of the query does not change them. *)
Theorem C1_availability_snapshot (rt : Runtime) (now : Z)
    (carnival batch : string) (date : DateInput) (qd : Z) (st : Store) :
  JsString.trim carnival = carnival ->
  JsString.trim batch = batch ->
  parseDateForQuery rt date = Some qd ->
  let info := fst (checkSlotAvailability rt now carnival batch date st) in
  let st' := snd (checkSlotAvailability rt now carnival batch date st) in
  let occupied := confirmedCount carnival batch qd st +
                  activeHoldCount now carnival batch qd st in
  (confirmedCount carnival batch qd st' = confirmedCount carnival batch qd st /\
   activeHoldCount now carnival batch qd st' =
     activeHoldCount now carnival batch qd st) /\
  (JsDate.isoDate qd <> "2026-01-25" ->
     availableSlots info = Z.max 0 (20 - occupied) /\
     (isFull info = true <-> availableSlots info = 0)) /\
  (JsDate.isoDate qd = "2026-01-25" -> isFull info = false).
Proof.
  intros _ _ P info st' occupied.
  destruct (checkSlotAvailability_snapshot rt now carnival batch date qd st P)
    as (_ & Havail & Hfull & _ & _).
  fold info in Havail, Hfull. fold occupied in Havail, Hfull.
  split; [|split].
  - pose proof (checkSlotAvailability_courses rt now carnival batch date st) as C.
    rewrite P in C. fold st' in C.
    rewrite <- !paidQuery_count, <- !activePendingQuery_count, C.
    split.
    + apply count_after_deleteMany, paid_not_oldPending.
    + apply count_after_deleteMany, active_not_oldPending.
  - intros Hoff. apply String.eqb_neq in Hoff.
    rewrite Hoff in Havail, Hfull. simpl in Havail, Hfull.
    unfold BATCH_CAPACITY in Havail, Hfull.
    split; [exact Havail|].
    rewrite Hfull, Havail. apply Z.eqb_eq.
  - intros Hon. apply String.eqb_eq in Hon.
    rewrite Hfull, Hon. reflexivity.
Qed.

(** Twenty paid reservations of the sample slot, an active hold and a stale
    one with a payment record. *)
Definition fullSlotStore : Store :=
  {| courses :=
       (map (fun i => sampleReservation (Z.of_nat i)
                        ("LS-RD26-" ++ JsString.padStart0 5
                                         (JsString.ofNumber (Z.of_nat i)))
                        "Meera" Status.registered PaymentStatus.paid None
                        (sampleNow - 86400000))
            (seq 1 20) ++
        [sampleReservation 21 "LS-RD26-00021" "Kabir" Status.pending_payment
           PaymentStatus.pending (Some "order_A") (sampleNow - 11 * 60 * 1000);
         sampleReservation 22 "LS-RD26-00022" "Isha" Status.pending_payment
           PaymentStatus.pending None (sampleNow - 60 * 1000)])%list;
     coursePayments :=
       [sampleLog "LS-RD26-00021" "pay_A" SpecialCoursePayment.authorized] |}.

(** 2026-01-25, the online day. *)
Definition onlineDay : Z := 1769299200000.

(** Twenty-one paid reservations of the sample batch on the online day. *)
Definition onlineStore : Store :=
  {| courses :=
       map (fun i =>
              {| SpecialCourse._id := Z.of_nat i;
                 SpecialCourse.registrationId :=
                   "LS-RD26-" ++ JsString.padStart0 5
                                   (JsString.ofNumber (Z.of_nat i));
                 SpecialCourse.carnivalName := "Republic Day Carnival";
                 SpecialCourse.parentName := "Asha Rao";
                 SpecialCourse.email := "asha@example.com";
                 SpecialCourse.phone := "9876543210";
                 SpecialCourse.childName := "Meera";
                 SpecialCourse.childAge := "7";
                 SpecialCourse.selectedBatch := sampleBatch;
                 SpecialCourse.batchTime := "10:00 AM";
                 SpecialCourse.selectedDate := onlineDay;
                 SpecialCourse.materialType := false;
                 SpecialCourse.status := Status.registered;
                 SpecialCourse.payment_status := PaymentStatus.paid;
                 SpecialCourse.payment := SpecialCourse.noPayment;
                 SpecialCourse.payment_expires_at := None;
                 SpecialCourse.payment_confirmed_at := None;
                 SpecialCourse.expiredAt := None;
                 SpecialCourse.expiration_reason := None;
                 SpecialCourse.createdAt := sampleNow - 86400000 |})
           (seq 1 21);
     coursePayments := [] |}.

Lemma C1_availability_witness :
  parseDateForQuery sampleRuntime (DateString "2026-01-26") = Some offlineDay /\
  confirmedCount "Republic Day Carnival" sampleBatch offlineDay fullSlotStore
    = 20 /\
  activeHoldCount sampleNow "Republic Day Carnival" sampleBatch offlineDay
    fullSlotStore = 1 /\
  availableSlots
    (fst (checkSlotAvailability sampleRuntime sampleNow "Republic Day Carnival"
            sampleBatch (DateString "2026-01-26") fullSlotStore)) =
  Z.max 0 (20 - (confirmedCount "Republic Day Carnival" sampleBatch offlineDay
                   fullSlotStore +
                 activeHoldCount sampleNow "Republic Day Carnival" sampleBatch
                   offlineDay fullSlotStore)) /\
  (isFull
     (fst (checkSlotAvailability sampleRuntime sampleNow
             "Republic Day Carnival" sampleBatch (DateString "2026-01-26")
             fullSlotStore)) = true <->
   availableSlots
     (fst (checkSlotAvailability sampleRuntime sampleNow
             "Republic Day Carnival" sampleBatch (DateString "2026-01-26")
             fullSlotStore)) = 0) /\
  parseDateForQuery sampleRuntime (DateString "2026-01-25") = Some onlineDay /\
  confirmedCount "Republic Day Carnival" sampleBatch onlineDay onlineStore
    = 21 /\
  isFull
    (fst (checkSlotAvailability sampleRuntime sampleNow "Republic Day Carnival"
            sampleBatch (DateString "2026-01-25") onlineStore)) = false.
Proof.
  split; [reflexivity|]. split; [reflexivity|]. split; [reflexivity|].
  destruct (C1_availability_snapshot sampleRuntime sampleNow
              "Republic Day Carnival" sampleBatch (DateString "2026-01-26")
              offlineDay fullSlotStore eq_refl eq_refl eq_refl)
    as (_ & Hoffline & _).
  assert (Hday : JsDate.isoDate offlineDay <> "2026-01-25")
    by (vm_compute; discriminate).
  split; [exact (proj1 (Hoffline Hday))|].
  split; [exact (proj2 (Hoffline Hday))|].
  split; [reflexivity|]. split; [reflexivity|].
  destruct (C1_availability_snapshot sampleRuntime sampleNow
              "Republic Day Carnival" sampleBatch (DateString "2026-01-25")
              onlineDay onlineStore eq_refl eq_refl eq_refl)
    as (_ & _ & Honline).
  apply Honline. reflexivity.
Defined.

(** C9 (the code departs from it).  An availability query on a slot that
    holds a stale pending reservation deletes the reservation and leaves its
    payment record in the log: the registration ids are looked up after the
    reservations are gone. *)
Theorem C9_stale_payment_record_survives :
  let st' :=
    snd (checkSlotAvailability sampleRuntime sampleNow "Republic Day Carnival"
           sampleBatch (DateString "2026-01-26") fullSlotStore) in
  find (hasRegistrationId "LS-RD26-00021") (courses fullSlotStore) <> None /\
  find (hasRegistrationId "LS-RD26-00021") (courses st') = None /\
  filter (paymentOf "LS-RD26-00021") (coursePayments st') =
    [sampleLog "LS-RD26-00021" "pay_A" SpecialCoursePayment.authorized] /\
  (forall rt now carnival batch date st,
     coursePayments (snd (checkSlotAvailability rt now carnival batch date st))
     = coursePayments st).
Proof.
  cbv zeta. split; [vm_compute; discriminate|].
  split; [vm_compute; reflexivity|].
  split; [vm_compute; reflexivity|].
  exact checkSlotAvailability_payments.
Qed.

(* ================================================================== *)
(** ** The two payment ingress paths (C2) *)
(* ================================================================== *)

Lemma find_some_In {A} (p : A -> bool) (l : list A) (x : A) :
  find p l = Some x -> In x l /\ p x = true.
Proof. apply find_some. Qed.

Lemma existsb_of_find {A} (p q : A -> bool) (l : list A) (x : A) :
  find p l = Some x -> q x = true -> existsb q l = true.
Proof.
  intros F Q. apply existsb_exists. exists x.
  split; [apply (find_some _ _ F)|exact Q].
Qed.

(** What the client path has checked when it confirms a payment. *)
Lemma verifyPayment_guards rt now out b st id sent slot st' :
  verifyPayment rt now out b st = (VerifyConfirmed id sent slot, st') ->
  exists registration,
    find (hasRegistrationId id) (courses st) = Some registration /\
    SpecialCourse.payment_status registration <> PaymentStatus.paid /\
    SpecialCourse.status registration = Status.pending_payment /\
    deleteThresholdAt now <= SpecialCourse.createdAt registration /\
    isFull slot = false /\
    slot = fst (checkSlotAvailability rt now
                  (SpecialCourse.carnivalName registration)
                  (SpecialCourse.selectedBatch registration)
                  (DateObject (SpecialCourse.selectedDate registration)) st).
Proof.
  unfold verifyPayment.
  destruct (Validation.falsy (VerifyBody.razorpay_payment_id b) ||
            Validation.falsy (VerifyBody.registrationId b)); [discriminate|].
  destruct (find _ (courses st)) as [registration|] eqn:F; [|discriminate].
  destruct (PaymentStatus.eqb _ PaymentStatus.paid) eqn:Ep; [discriminate|].
  destruct (Status.eqb _ Status.pending_payment) eqn:Es; simpl;
    [|discriminate].
  destruct (_ <? deleteThresholdAt now) eqn:Ea; [discriminate|].
  destruct (checkSlotAvailability rt now _ _ _ st) as [slotInfo st1] eqn:Ec.
  destruct (isFull slotInfo) eqn:Ef; [discriminate|].
  destruct (checkPaymentSignature rt b); try discriminate.
  destruct (saveDocument now _ (courses st1)); [|discriminate].
  intros H. inversion H; subst. exists registration.
  split; [exact F|]. split; [intros Hp; rewrite Hp in Ep; discriminate|].
  split; [apply Status_eqb_eq; exact Es|].
  split; [apply Z.ltb_ge; exact Ea|].
  split; [exact Ef|]. rewrite Ec. reflexivity.
Qed.

(** The webhook path confirms whatever reservation carries the order id. *)
Lemma handlePaymentCaptured_confirms now payment st registration :
  find (hasOrderId (Webhook.order_id payment)) (courses st)
    = Some registration ->
  In (capturedRegistration now payment registration)
     (courses (handlePaymentCaptured now payment st)) /\
  SpecialCourse.status (capturedRegistration now payment registration)
    = Status.registered /\
  SpecialCourse.payment_status (capturedRegistration now payment registration)
    = PaymentStatus.paid /\
  SpecialCourse.registrationId (capturedRegistration now payment registration)
    = SpecialCourse.registrationId registration.
Proof.
  intros F. unfold handlePaymentCaptured. rewrite F.
  destruct (find_some _ _ F) as [Hin _].
  unfold saveDocument. simpl.
  assert (E : existsb (hasId (SpecialCourse._id registration)) (courses st)
              = true).
  { apply existsb_exists. exists registration. split; [exact Hin|].
    unfold hasId. apply Z.eqb_refl. }
  rewrite E. simpl. repeat split.
  apply in_map_iff. exists registration. split; [|exact Hin].
  unfold hasId. rewrite Z.eqb_refl.
  unfold preSave. simpl.
  destruct (SpecialCourse.payment_expires_at registration); reflexivity.
Qed.

(** A signed [payment.captured] event for the order of the stale hold of
    [fullSlotStore]. *)
Definition capturedEvent : Webhook.Request :=
  {| Webhook.signature := Some "whsec:{captured order_A}";
     Webhook.body := "{captured order_A}";
     Webhook.event := Some "payment.captured";
     Webhook.entity :=
       Some {| Webhook.id := "pay_A"; Webhook.order_id := Some "order_A";
               Webhook.amount := 29900; Webhook.method := Some "upi" |} |}.

Definition verifyStaleHold : VerifyBody.t :=
  {| VerifyBody.razorpay_payment_id := Some "pay_A";
     VerifyBody.razorpay_order_id := Some "order_A";
     VerifyBody.razorpay_signature := Some "keysec:order_A|pay_A";
     VerifyBody.registrationId := Some "LS-RD26-00021";
     VerifyBody.paymentMethod := None |}.

Definition quietOutside : Outside :=
  {| ordersCreate := Some "order_A";
     paymentsFetch := Fetched (Some "upi");
     confirmationEmailSent := true |}.

(** A cancelled reservation that still carries an order id. *)
Definition cancelledStore : Store :=
  {| courses :=
       [sampleReservation 1 "LS-RD26-00001" "Kabir" Status.cancelled
          PaymentStatus.pending (Some "order_A") (sampleNow - 60 * 1000)];
     coursePayments := [] |}.

(** C2 (the code departs from it).  The client path refuses a reservation
    that is past the deletion threshold, or whose status is not
    [pending_payment]; the webhook's [payment.captured] handler confirms
    the same reservations: it runs none of the checks after the lookup. *)
Theorem C2_webhook_capture_skips_the_checks :
  (* a hold aged 11 minutes, in a slot that is full *)
  fst (verifyPayment sampleRuntime sampleNow quietOutside verifyStaleHold
         fullSlotStore) = VerifyExpiredDeleted "LS-RD26-00021" 11 /\
  fst (handleWebhook sampleRuntime sampleNow capturedEvent fullSlotStore)
    = Webhook.Processed /\
  option_map
    (fun r => (SpecialCourse.status r, SpecialCourse.payment_status r))
    (find (hasRegistrationId "LS-RD26-00021")
       (courses (snd (handleWebhook sampleRuntime sampleNow capturedEvent
                        fullSlotStore))))
    = Some (Status.registered, PaymentStatus.paid) /\
  (* a cancelled reservation *)
  fst (verifyPayment sampleRuntime sampleNow quietOutside
         {| VerifyBody.razorpay_payment_id := Some "pay_A";
            VerifyBody.razorpay_order_id := Some "order_A";
            VerifyBody.razorpay_signature := Some "keysec:order_A|pay_A";
            VerifyBody.registrationId := Some "LS-RD26-00001";
            VerifyBody.paymentMethod := None |} cancelledStore)
    = VerifyStatusRejected Status.cancelled /\
  option_map
    (fun r => (SpecialCourse.status r, SpecialCourse.payment_status r))
    (find (hasRegistrationId "LS-RD26-00001")
       (courses (snd (handleWebhook sampleRuntime sampleNow capturedEvent
                        cancelledStore))))
    = Some (Status.registered, PaymentStatus.paid) /\
  (* in general: whatever the reservation found under the order id *)
  (forall now payment st registration,
     find (hasOrderId (Webhook.order_id payment)) (courses st)
       = Some registration ->
     exists confirmed,
       In confirmed (courses (handlePaymentCaptured now payment st)) /\
       SpecialCourse.registrationId confirmed
         = SpecialCourse.registrationId registration /\
       SpecialCourse.status confirmed = Status.registered /\
       SpecialCourse.payment_status confirmed = PaymentStatus.paid).
Proof.
  split; [vm_compute; reflexivity|].
  split; [vm_compute; reflexivity|].
  split; [vm_compute; reflexivity|].
  split; [vm_compute; reflexivity|].
  split; [vm_compute; reflexivity|].
  intros now payment st registration F.
  destruct (handlePaymentCaptured_confirms now payment st registration F)
    as (Hin & Hs & Hp & Hid).
  exists (capturedRegistration now payment registration).
  repeat split; assumption.
Qed.

(* ================================================================== *)
(** ** Webhook responses (C8) *)
(* ================================================================== *)

(** The request carries a signature and it is the keyed hash of the body. *)
Definition signatureAccepted (rt : Runtime) (req : Webhook.Request) : bool :=
  negb (Validation.falsy (Webhook.signature req)) &&
  verifyWebhookSignature rt (Webhook.body req)
    (Validation.valueOf (Webhook.signature req)).

(** A correctly signed event that has no payment entity (an event about
    something other than a payment). *)
Definition settlementEvent : Webhook.Request :=
  {| Webhook.signature := Some "whsec:{settlement.processed}";
     Webhook.body := "{settlement.processed}";
     Webhook.event := Some "settlement.processed";
     Webhook.entity := None |}.

(** A [payment.refunded] event never gets past the save: [refunded] is not
    a value of the schema's [status] enum. *)
Lemma handlePaymentRefunded_no_change now payment st :
  handlePaymentRefunded now payment st = st.
Proof.
  unfold handlePaymentRefunded.
  destruct (find _ (courses st)); reflexivity.
Qed.

(** Every answer of the webhook endpoint.  It answers 400 and leaves the
    store unchanged when the signature header is missing or is not the keyed
    hash of the body.  With an accepted signature it answers 200 whenever
    the body carries a payment entity, whatever the event and even when the
    handler of the event fails (as the refund handler always does); and it
    answers 500, leaving the store unchanged, when the body carries no
    payment entity. *)
Lemma handleWebhook_responses (rt : Runtime) (now : Z)
    (req : Webhook.Request) (st : Store) :
  let resp := fst (handleWebhook rt now req st) in
  let st' := snd (handleWebhook rt now req st) in
  (signatureAccepted rt req = false ->
     Webhook.statusCode resp = 400 /\ st' = st) /\
  (signatureAccepted rt req = true ->
     (forall payment, Webhook.entity req = Some payment ->
        Webhook.statusCode resp = 200 /\
        st' = dispatchEvent now (Webhook.event req) payment st) /\
     (Webhook.entity req = None ->
        Webhook.statusCode resp = 500 /\ st' = st)) /\
  (forall payment,
     dispatchEvent now (Some "payment.refunded") payment st = st).
Proof.
  cbv zeta. unfold signatureAccepted, handleWebhook.
  destruct (Validation.falsy (Webhook.signature req)); simpl.
  - split; [intros _; split; reflexivity|].
    split; [discriminate|].
    intros payment. apply handlePaymentRefunded_no_change.
  - destruct (verifyWebhookSignature rt _ _); simpl.
    + split; [discriminate|]. split.
      * intros _. destruct (Webhook.entity req) as [p|]; simpl; split;
          try discriminate.
        -- intros payment E. inversion E; subst. split; reflexivity.
        -- intros _. split; reflexivity.
      * intros payment. apply handlePaymentRefunded_no_change.
    + split; [intros _; split; reflexivity|].
      split; [discriminate|].
      intros payment. apply handlePaymentRefunded_no_change.
Qed.

(** A correctly signed event of a kind the [switch] does not handle, about
    a payment. *)
Definition disputeEvent : Webhook.Request :=
  {| Webhook.signature := Some "whsec:{payment.dispute.created pay_A}";
     Webhook.body := "{payment.dispute.created pay_A}";
     Webhook.event := Some "payment.dispute.created";
     Webhook.entity :=
       Some {| Webhook.id := "pay_A"; Webhook.order_id := Some "order_A";
               Webhook.amount := 29900; Webhook.method := Some "upi" |} |}.

(** C8 (the code departs from it).  The endpoint answers 400, changing
    nothing, when the signature is missing or wrong, and it acknowledges
    with 200 every correctly signed event that carries a payment entity,
    handled or not, even when its handler fails.  But the payment entity is
    read before the [switch], outside the handlers' own [try]: a correctly
    signed event without one (here [settlement.processed]) is answered 500,
    not 200, against the comment "Always send 200 OK" and the [default]
    branch, which acknowledges the events the [switch] does not handle (as
    it does for [payment.dispute.created]). *)
Theorem C8_signed_event_without_payment_is_answered_500 :
  (signatureAccepted sampleRuntime settlementEvent = true /\
   Webhook.entity settlementEvent = None /\
   Webhook.statusCode
     (fst (handleWebhook sampleRuntime sampleNow settlementEvent
             fullSlotStore)) = 500 /\
   snd (handleWebhook sampleRuntime sampleNow settlementEvent fullSlotStore)
   = fullSlotStore) /\
  (signatureAccepted sampleRuntime disputeEvent = true /\
   Webhook.statusCode
     (fst (handleWebhook sampleRuntime sampleNow disputeEvent fullSlotStore))
   = 200 /\
   snd (handleWebhook sampleRuntime sampleNow disputeEvent fullSlotStore)
   = fullSlotStore) /\
  (forall rt now req st,
     signatureAccepted rt req = false ->
     Webhook.statusCode (fst (handleWebhook rt now req st)) = 400 /\
     snd (handleWebhook rt now req st) = st) /\
  (forall rt now req st,
     signatureAccepted rt req = true ->
     (Webhook.entity req = None ->
      Webhook.statusCode (fst (handleWebhook rt now req st)) = 500 /\
      snd (handleWebhook rt now req st) = st) /\
     (Webhook.entity req <> None ->
      Webhook.statusCode (fst (handleWebhook rt now req st)) = 200)).
Proof.
  split; [|split; [|split]].
  - repeat split; vm_compute; reflexivity.
  - repeat split; vm_compute; reflexivity.
  - intros rt now req st H.
    apply (proj1 (handleWebhook_responses rt now req st) H).
  - intros rt now req st H.
    destruct (proj1 (proj2 (handleWebhook_responses rt now req st)) H)
      as [Hsome Hnone].
    split; [exact Hnone|].
    intros Hent. destruct (Webhook.entity req) as [payment|] eqn:E;
      [|contradiction].
    apply (proj1 (Hsome payment eq_refl)).
Qed.

(* ================================================================== *)
(** ** The duplicate guard (C7, C10) *)
(* ================================================================== *)


(** One paid reservation of the child Meera. *)
Definition paidMeeraStore : Store :=
  {| courses :=
       [sampleReservation 1 "LS-RD26-00001" "Meera" Status.registered
          PaymentStatus.paid (Some "order_M") (sampleNow - 86400000)];
     coursePayments := [] |}.

(** A hold that is saved at [now] with [payment_expires_at] 15 minutes
    later passes the save hook unchanged. *)
Lemma preSave_new_hold now r :
  SpecialCourse.payment_expires_at r = Some (now + 15 * 60 * 1000) ->
  preSave now r = r.
Proof.
  unfold preSave. intros E. rewrite E.
  destruct (Status.eqb _ _); cbn [andb]; [|reflexivity].
  destruct (now + 15 * 60 * 1000 <? now) eqn:L; [|reflexivity].
  apply Z.ltb_lt in L. lia.
Qed.



(** A child name with pattern characters in it. *)
Definition dottedNameBody : RegisterBody.t :=
  {| RegisterBody.carnivalName := Some "Republic Day Carnival";
     RegisterBody.parentName := Some "Asha Rao";
     RegisterBody.email := Some "asha@example.com";
     RegisterBody.phone := Some "9876543210";
     RegisterBody.childName := Some "M..ra";
     RegisterBody.childAge := Some "7";
     RegisterBody.selectedDate := Some "2026-01-26";
     RegisterBody.selectedBatch := Some sampleBatch;
     RegisterBody.availableDates := None;
     RegisterBody.materialType := false |}.

(** One paid reservation of the child "Meera (Jr)". *)
Definition paidJuniorStore : Store :=
  {| courses :=
       [sampleReservation 1 "LS-RD26-00001" "Meera (Jr)" Status.registered
          PaymentStatus.paid (Some "order_M") (sampleNow - 86400000)];
     coursePayments := [] |}.

(** C7 (the code departs from it).  The child name is spliced into the
    pattern as it is, so it is matched as a pattern and not compared as a
    name: "M..ra" is reported (and rejected with 409) as a duplicate of the
    paid reservation of "Meera", and a second "Meera (Jr)" is not reported
    as a duplicate of the paid reservation of "Meera (Jr)". *)
Theorem C7_child_name_is_matched_as_a_pattern :
  JsString.toLowerCase "M..ra" <> JsString.toLowerCase "Meera" /\
  dupExists
    (checkDuplicateRegistration sampleRuntime "Republic Day Carnival"
       "asha@example.com" "9876543210" "M..ra" "2026-01-26" paidMeeraStore)
    = true /\
  registerStatus
    (fst (register sampleRuntime sampleNow dottedNameBody paidMeeraStore))
    = Some 409 /\
  checkDuplicateRegistration sampleRuntime "Republic Day Carnival"
    "asha@example.com" "9876543210" "Meera (Jr)" "2026-01-26" paidJuniorStore
    = DupNone.
Proof.
  split; [vm_compute; discriminate|].
  repeat split; vm_compute; reflexivity.
Qed.

(* ================================================================== *)
(** ** Idempotence of the client path (C6) *)
(* ================================================================== *)

Lemma find_filter_keep {A} (p q : A -> bool) (l : list A) (x : A) :
  find p l = Some x -> q x = true -> find p (filter q l) = Some x.
Proof.
  induction l as [|y l IH]; simpl; [discriminate|].
  destruct (p y) eqn:Ep.
  - intros E Q. inversion E; subst. rewrite Q. simpl. rewrite Ep. reflexivity.
  - intros E Q. destruct (q y); simpl; [rewrite Ep|]; apply IH; assumption.
Qed.

Lemma find_map_replace {A} (p same : A -> bool) (l : list A) (x x' : A) :
  find p l = Some x -> same x = true -> p x' = true ->
  find p (map (fun d => if same d then x' else d) l) = Some x'.
Proof.
  intros F S P. induction l as [|y l IH]; simpl in *; [discriminate|].
  destruct (p y) eqn:Ep.
  - inversion F; subst. rewrite S, P. reflexivity.
  - destruct (same y); [rewrite P; reflexivity|].
    rewrite Ep. apply IH. exact F.
Qed.

Lemma preSave_not_pending now r :
  SpecialCourse.status r <> Status.pending_payment -> preSave now r = r.
Proof.
  intros H. unfold preSave.
  destruct (SpecialCourse.payment_expires_at r); [|reflexivity].
  destruct (Status.eqb (SpecialCourse.status r) Status.pending_payment) eqn:E;
    [|reflexivity].
  apply Status_eqb_eq in E. contradiction.
Qed.

(** A request on a reservation that is already paid is answered with
    success and changes nothing. *)
Lemma verifyPayment_already_paid rt now out b st r :
  Validation.falsy (VerifyBody.razorpay_payment_id b) = false ->
  Validation.falsy (VerifyBody.registrationId b) = false ->
  find (hasRegistrationId (Validation.valueOf (VerifyBody.registrationId b)))
       (courses st) = Some r ->
  SpecialCourse.payment_status r = PaymentStatus.paid ->
  verifyPayment rt now out b st =
    (VerifyAlreadyProcessed (Validation.valueOf (VerifyBody.registrationId b)),
     st).
Proof.
  intros Hp Hr F P. unfold verifyPayment. rewrite Hp, Hr, F, P. reflexivity.
Qed.

(** The store a confirming request leaves behind. *)
Lemma verifyPayment_confirmed_store rt now out b st id sent slot st' :
  verifyPayment rt now out b st = (VerifyConfirmed id sent slot, st') ->
  Validation.falsy (VerifyBody.razorpay_payment_id b) = false /\
  Validation.falsy (VerifyBody.registrationId b) = false /\
  id = Validation.valueOf (VerifyBody.registrationId b) /\
  exists registration,
    find (hasRegistrationId id) (courses st) = Some registration /\
    find (hasRegistrationId id) (courses st')
      = Some (confirmedRegistration now out b registration) /\
    coursePayments st' =
      match createPayment (verificationLog b registration)
              (coursePayments st) with
      | SaveOk ps => ps
      | SaveThrows _ => coursePayments st
      end.
Proof.
  unfold verifyPayment.
  destruct (Validation.falsy (VerifyBody.razorpay_payment_id b)) eqn:Hp;
    [discriminate|].
  destruct (Validation.falsy (VerifyBody.registrationId b)) eqn:Hr;
    [discriminate|]. simpl.
  destruct (find _ (courses st)) as [registration|] eqn:F; [|discriminate].
  destruct (PaymentStatus.eqb _ PaymentStatus.paid); [discriminate|].
  destruct (Status.eqb _ Status.pending_payment) eqn:Es; simpl;
    [|discriminate].
  destruct (_ <? deleteThresholdAt now) eqn:Ea; [discriminate|].
  pose proof (checkSlotAvailability_courses rt now
                (SpecialCourse.carnivalName registration)
                (SpecialCourse.selectedBatch registration)
                (DateObject (SpecialCourse.selectedDate registration)) st) as C.
  pose proof (checkSlotAvailability_payments rt now
                (SpecialCourse.carnivalName registration)
                (SpecialCourse.selectedBatch registration)
                (DateObject (SpecialCourse.selectedDate registration)) st) as P.
  destruct (checkSlotAvailability rt now _ _ _ st) as [slotInfo st1].
  simpl in C, P.
  destruct (isFull slotInfo); [discriminate|].
  destruct (checkPaymentSignature rt b); try discriminate.
  unfold saveDocument. simpl.
  destruct (existsb (hasId (SpecialCourse._id registration)) (courses st1));
    simpl; [|discriminate].
  intros H.
  assert (Hid : id = Validation.valueOf (VerifyBody.registrationId b))
    by (destruct (createPayment _ _); inversion H; reflexivity).
  assert (Hst : st' =
    match createPayment (verificationLog b registration) (coursePayments st1)
    with
    | SaveOk ps =>
        withPayments ps
          (withCourses
             (map (fun d => if hasId (SpecialCourse._id registration) d
                            then preSave now
                                   (confirmedRegistration now out b registration)
                            else d) (courses st1)) st1)
    | SaveThrows _ =>
        withCourses
          (map (fun d => if hasId (SpecialCourse._id registration) d
                         then preSave now
                                (confirmedRegistration now out b registration)
                         else d) (courses st1)) st1
    end) by (destruct (createPayment _ _); inversion H; reflexivity).
  clear H. repeat split; try assumption.
  exists registration. subst id. split; [exact F|].
  rewrite (preSave_not_pending now
             (confirmedRegistration now out b registration)) in Hst
    by (simpl; discriminate).
  assert (Hfind :
    find (hasRegistrationId (Validation.valueOf (VerifyBody.registrationId b)))
      (map (fun d => if hasId (SpecialCourse._id registration) d
                     then confirmedRegistration now out b registration
                     else d) (courses st1))
    = Some (confirmedRegistration now out b registration)).
  { apply find_map_replace with (x := registration).
    - rewrite C. simpl. unfold deleteMany. apply find_filter_keep; [exact F|].
      unfold oldPendingQuery. rewrite Ea. rewrite andb_false_r. reflexivity.
    - unfold hasId. apply Z.eqb_refl.
    - destruct (find_some _ _ F) as [_ Hm]. exact Hm. }
  rewrite P in Hst. subst st'.
  destruct (createPayment _ (coursePayments st)); simpl;
    (split; [exact Hfind|]); [reflexivity|exact P].
Qed.

Lemma filter_none {A} (p : A -> bool) (l : list A) :
  existsb p l = false -> filter p l = [].
Proof.
  induction l as [|x l IH]; simpl; [reflexivity|].
  destruct (p x); simpl; [discriminate|exact IH].
Qed.

Lemma falsy_false_some (x : option string) :
  Validation.falsy x = false ->
  exists s, x = Some s /\ String.eqb s "" = false /\ Validation.valueOf x = s.
Proof.
  destruct x as [s|]; simpl; [|discriminate].
  intros H. exists s. repeat split. exact H.
Qed.

(** The log record of a confirming request is created unless the log
    already holds a record with the same gateway payment id. *)
Lemma createPayment_verificationLog b registration ps :
  Validation.falsy (VerifyBody.razorpay_payment_id b) = false ->
  Validation.falsy (VerifyBody.registrationId b) = false ->
  createPayment (verificationLog b registration) ps =
  if existsb (hasPaymentId (Validation.valueOf (VerifyBody.razorpay_payment_id b)))
       ps
  then SaveThrows DuplicateKey
  else SaveOk (ps ++ [verificationLog b registration])%list.
Proof.
  intros Hp Hr.
  destruct (falsy_false_some _ Hp) as (pid & Ep & Np & Vp).
  destruct (falsy_false_some _ Hr) as (rid & Er & Nr & Vr).
  unfold createPayment. simpl. rewrite Er, Vp, Np, Nr. reflexivity.
Qed.

Definition isCaptured (p : SpecialCoursePayment.doc) : bool :=
  match SpecialCoursePayment.status p with
  | SpecialCoursePayment.captured => true
  | _ => false
  end.

Definition plainBody : RegisterBody.t :=
  {| RegisterBody.carnivalName := Some "Republic Day Carnival";
     RegisterBody.parentName := Some "Asha Rao";
     RegisterBody.email := Some "asha@example.com";
     RegisterBody.phone := Some "9876543210";
     RegisterBody.childName := Some "Kabir";
     RegisterBody.childAge := Some "7";
     RegisterBody.selectedDate := Some "2026-01-26";
     RegisterBody.selectedBatch := Some sampleBatch;
     RegisterBody.availableDates := None;
     RegisterBody.materialType := false |}.

Definition paymentA (event : string) : Webhook.Request :=
  {| Webhook.signature := Some ("whsec:{" ++ event ++ " order_A}");
     Webhook.body := "{" ++ event ++ " order_A}";
     Webhook.event := Some event;
     Webhook.entity :=
       Some {| Webhook.id := "pay_A"; Webhook.order_id := Some "order_A";
               Webhook.amount := 29900; Webhook.method := Some "upi" |} |}.

Definition verifyA : VerifyBody.t :=
  {| VerifyBody.razorpay_payment_id := Some "pay_A";
     VerifyBody.razorpay_order_id := Some "order_A";
     VerifyBody.razorpay_signature := Some "keysec:order_A|pay_A";
     VerifyBody.registrationId := Some "LS-RD26-00001";
     VerifyBody.paymentMethod := None |}.

(** A registration followed by the creation of its order. *)
Definition orderedStore : Store :=
  step sampleRuntime (sampleNow + 1000)
    (CreateOrder quietOutside (Some "LS-RD26-00001"))
    (step sampleRuntime sampleNow (Register plainBody) emptyStore).

(** The same, once the gateway has announced the authorization. *)
Definition authorizedStore : Store :=
  step sampleRuntime (sampleNow + 2000)
    (WebhookEvent (paymentA "payment.authorized")) orderedStore.

Lemma orderedStore_reachable :
  reachableAt sampleRuntime (sampleNow + 1000) orderedStore.
Proof.
  unfold orderedStore.
  apply reach_step with (t := sampleNow); [|vm_compute; discriminate].
  apply reach_step with (t := sampleNow); [|vm_compute; discriminate].
  apply reach_start.
Qed.

Lemma authorizedStore_reachable :
  reachableAt sampleRuntime (sampleNow + 2000) authorizedStore.
Proof.
  unfold authorizedStore.
  apply reach_step with (t := sampleNow + 1000); [|vm_compute; discriminate].
  apply orderedStore_reachable.
Qed.

(** C6, refuted as stated: when the gateway's [payment.authorized] event
    has already logged the payment id, two verifications succeed, the
    reservation is registered after each, and the log holds no captured
    record for the payment. *)
Lemma C6_two_calls_without_a_captured_record :
  let first :=
    verifyPayment sampleRuntime (sampleNow + 3000) quietOutside verifyA
      authorizedStore in
  let second :=
    verifyPayment sampleRuntime (sampleNow + 4000) quietOutside verifyA
      (snd first) in
  reachable sampleRuntime authorizedStore /\
  verifySuccess (fst first) = true /\
  verifySuccess (fst second) = true /\
  option_map SpecialCourse.status
    (find (hasRegistrationId "LS-RD26-00001") (courses (snd first)))
    = Some Status.registered /\
  option_map SpecialCourse.status
    (find (hasRegistrationId "LS-RD26-00001") (courses (snd second)))
    = Some Status.registered /\
  countDocuments (fun p => hasPaymentId "pay_A" p && isCaptured p)
    (coursePayments (snd second)) = 0.
Proof.
  cbv zeta. split.
  - exists (sampleNow + 2000). apply authorizedStore_reachable.
  - repeat split; vm_compute; reflexivity.
Qed.

(** C6, amended.  After a verification that confirms a payment, the
    reservation is registered and paid, and any further verification with
    the same body, at any later time, answers with success and leaves
    reservations and payment log as they are.  The log then holds exactly
    one record with the gateway payment id: the captured record of the
    confirming call when no record with that id existed before it, and
    otherwise the record that existed already. *)
Theorem C6_second_verification_changes_nothing (rt : Runtime) (now : Z)
    (out : Outside) (b : VerifyBody.t) (st : Store) (id : string)
    (sent : bool) (slot : SlotInfo) :
  fst (verifyPayment rt now out b st) = VerifyConfirmed id sent slot ->
  let st1 := snd (verifyPayment rt now out b st) in
  let pid := Validation.valueOf (VerifyBody.razorpay_payment_id b) in
  (exists r1,
     find (hasRegistrationId id) (courses st1) = Some r1 /\
     SpecialCourse.status r1 = Status.registered /\
     SpecialCourse.payment_status r1 = PaymentStatus.paid) /\
  (forall now2 out2,
     verifyPayment rt now2 out2 b st1 = (VerifyAlreadyProcessed id, st1) /\
     verifySuccess (VerifyAlreadyProcessed id) = true) /\
  (existsb (hasPaymentId pid) (coursePayments st) = false ->
     exists log,
       filter (hasPaymentId pid) (coursePayments st1) = [log] /\
       SpecialCoursePayment.status log = SpecialCoursePayment.captured /\
       SpecialCoursePayment.registrationId log = Some id) /\
  (existsb (hasPaymentId pid) (coursePayments st) = true ->
     coursePayments st1 = coursePayments st).
Proof.
  intros H0 st1 pid.
  assert (H : verifyPayment rt now out b st = (VerifyConfirmed id sent slot, st1)).
  { unfold st1. rewrite <- H0. apply surjective_pairing. }
  clearbody st1. clear H0.
  destruct (verifyPayment_confirmed_store _ _ _ _ _ _ _ _ _ H)
    as (Hp & Hr & Hid & registration & F & F1 & L).
  rewrite (createPayment_verificationLog b registration _ Hp Hr) in L.
  fold pid in L.
  split; [|split; [|split]].
  - exists (confirmedRegistration now out b registration).
    split; [exact F1|]. split; reflexivity.
  - intros now2 out2. split; [|reflexivity]. subst id.
    apply verifyPayment_already_paid with
      (r := confirmedRegistration now out b registration);
      try assumption. reflexivity.
  - intros Hnone. rewrite Hnone in L.
    exists (verificationLog b registration). rewrite L.
    rewrite filter_app, (filter_none _ _ Hnone). simpl.
    destruct (falsy_false_some _ Hp) as (p & Ep & Np & Vp).
    destruct (falsy_false_some _ Hr) as (r & Er & Nr & Vr).
    unfold hasPaymentId. simpl. unfold pid. rewrite String.eqb_refl.
    repeat split. rewrite Er. subst id. rewrite Vr. reflexivity.
  - intros Hsome. rewrite Hsome in L. exact L.
Qed.

Lemma C6_second_verification_witness :
  let first :=
    verifyPayment sampleRuntime (sampleNow + 3000) quietOutside verifyA
      orderedStore in
  verifySuccess (fst first) = true /\
  verifyPayment sampleRuntime (sampleNow + 4000) quietOutside verifyA
    (snd first) = (VerifyAlreadyProcessed "LS-RD26-00001", snd first) /\
  countDocuments (fun p => hasPaymentId "pay_A" p && isCaptured p)
    (coursePayments (snd first)) = 1.
Proof.
  cbv zeta.
  assert (R : { slot |
    fst (verifyPayment sampleRuntime (sampleNow + 3000) quietOutside verifyA
           orderedStore) = VerifyConfirmed "LS-RD26-00001" true slot }).
  { eexists. vm_compute. reflexivity. }
  destruct R as [slot R].
  destruct (C6_second_verification_changes_nothing sampleRuntime
              (sampleNow + 3000) quietOutside verifyA orderedStore
              "LS-RD26-00001" true slot R) as (_ & Hsecond & _ & _).
  split; [vm_compute; reflexivity|].
  split; [apply (Hsecond (sampleNow + 4000) quietOutside)|].
  vm_compute. reflexivity.
Defined.

(* ================================================================== *)
(** ** What an operation can do to the reservations *)
(* ================================================================== *)

(** [Sub l l']: [l'] is [l] with some elements removed. *)
Inductive Sub {A : Type} : list A -> list A -> Prop :=
| sub_nil : Sub [] []
| sub_keep : forall x l l', Sub l l' -> Sub (x :: l) (x :: l')
| sub_drop : forall x l l', Sub l l' -> Sub (x :: l) l'.

Lemma Sub_refl {A} (l : list A) : Sub l l.
Proof. induction l; constructor; assumption. Qed.

Lemma Sub_trans {A} (l1 l2 l3 : list A) : Sub l1 l2 -> Sub l2 l3 -> Sub l1 l3.
Proof.
  intros H. revert l3. induction H; intros l3 H3.
  - exact H3.
  - inversion H3; subst.
    + apply sub_keep. apply IHSub. assumption.
    + apply sub_drop. apply IHSub. assumption.
  - apply sub_drop. apply IHSub. exact H3.
Qed.

Lemma Sub_filter {A} (p : A -> bool) (l : list A) : Sub l (filter p l).
Proof.
  induction l as [|x l IH]; simpl; [constructor|].
  destruct (p x); constructor; exact IH.
Qed.

Lemma Sub_deleteMany {A} (p : A -> bool) (l : list A) : Sub l (deleteMany p l).
Proof. apply Sub_filter. Qed.

Lemma Sub_deleteOne {A} (p : A -> bool) (l : list A) : Sub l (deleteOne p l).
Proof.
  induction l as [|x l IH]; simpl; [constructor|].
  destruct (p x); [apply sub_drop, Sub_refl|apply sub_keep, IH].
Qed.

Lemma Sub_In {A} (l l' : list A) (x : A) : Sub l l' -> In x l' -> In x l.
Proof.
  induction 1; simpl; intros H1; [exact H1| |right; auto].
  destruct H1; [left; assumption|right; auto].
Qed.

Lemma Sub_map {A B} (f : A -> B) (l l' : list A) :
  Sub l l' -> Sub (map f l) (map f l').
Proof. induction 1; simpl; constructor; assumption. Qed.

Lemma Sub_NoDup {A} (l l' : list A) : Sub l l' -> NoDup l -> NoDup l'.
Proof.
  induction 1; intros N; [exact N| |].
  - inversion N; subst. constructor; [|auto].
    intros Hin. apply H2. apply (Sub_In _ _ _ H Hin).
  - inversion N; subst. auto.
Qed.

Lemma Sub_Forall {A} (P : A -> Prop) (l l' : list A) :
  Sub l l' -> Forall P l -> Forall P l'.
Proof.
  intros S F. apply Forall_forall. intros x Hin.
  apply (proj1 (Forall_forall P l) F). apply (Sub_In _ _ _ S Hin).
Qed.

(** How an update relates the document it saves to the stored one. *)
Definition Updates (r r' : SpecialCourse.doc) : Prop :=
  SpecialCourse._id r' = SpecialCourse._id r /\
  SpecialCourse.registrationId r' = SpecialCourse.registrationId r /\
  SpecialCourse.createdAt r' = SpecialCourse.createdAt r /\
  ((SpecialCourse.status r' = Status.registered /\
    SpecialCourse.payment_status r' = PaymentStatus.paid) \/
   (SpecialCourse.status r' = SpecialCourse.status r /\
    (SpecialCourse.payment_status r' = SpecialCourse.payment_status r \/
     SpecialCourse.payment_status r' = PaymentStatus.pending)) \/
   (SpecialCourse.status r' = Status.pending_payment /\
    SpecialCourse.payment_status r' = PaymentStatus.pending)).

(** The new reservations an operation can leave: some are deleted, then
    at most one is updated or one is inserted. *)
Inductive Outcome (now : Z) (cs : list SpecialCourse.doc)
  : list SpecialCourse.doc -> Prop :=
| out_shrink : forall cs1, Sub cs cs1 -> Outcome now cs cs1
| out_update : forall cs1 r r',
    Sub cs cs1 -> In r cs1 -> Updates r r' ->
    Outcome now cs
      (map (fun d => if hasId (SpecialCourse._id r) d then preSave now r' else d)
           cs1)
| out_insert : forall cs1 r,
    Sub cs cs1 ->
    existsb (hasRegistrationId (SpecialCourse.registrationId r)) cs1 = false ->
    SpecialCourse.registrationId r <> "" ->
    SpecialCourse.status r = Status.pending_payment ->
    SpecialCourse.payment_status r = PaymentStatus.pending ->
    Outcome now cs (cs1 ++ [withId (freshId cs1) (preSave now r)]).

Lemma Outcome_same now cs : Outcome now cs cs.
Proof. apply out_shrink, Sub_refl. Qed.

(** A save of a loaded document that succeeds is an update in place. *)
Lemma saveDocument_ok now r r' cs cs' :
  SpecialCourse._id r' = SpecialCourse._id r ->
  saveDocument now r' cs = SaveOk cs' ->
  cs' = map (fun d => if hasId (SpecialCourse._id r) d then preSave now r' else d)
            cs.
Proof.
  intros Hid. unfold saveDocument.
  destruct (negb (Status.inEnum (SpecialCourse.status r'))); [discriminate|].
  destruct (negb (existsb _ cs)); [discriminate|].
  intros H. inversion H. rewrite Hid. reflexivity.
Qed.

Lemma Outcome_save now cs cs1 r r' :
  Sub cs cs1 -> In r cs1 -> Updates r r' ->
  Outcome now cs
    match saveDocument now r' cs1 with
    | SaveOk cs' => cs'
    | SaveThrows _ => cs1
    end.
Proof.
  intros S Hin U.
  destruct (saveDocument now r' cs1) as [cs'|e] eqn:E.
  - rewrite (saveDocument_ok now r r' cs1 cs' (proj1 U) E).
    apply out_update; assumption.
  - apply out_shrink. exact S.
Qed.

Lemma preSave_registrationId now r :
  SpecialCourse.registrationId (preSave now r) = SpecialCourse.registrationId r.
Proof.
  unfold preSave. destruct (SpecialCourse.payment_expires_at r); [|reflexivity].
  destruct (_ && _); reflexivity.
Qed.

Lemma preSave_id now r :
  SpecialCourse._id (preSave now r) = SpecialCourse._id r.
Proof.
  unfold preSave. destruct (SpecialCourse.payment_expires_at r); [|reflexivity].
  destruct (_ && _); reflexivity.
Qed.

Lemma preSave_createdAt now r :
  SpecialCourse.createdAt (preSave now r) = SpecialCourse.createdAt r.
Proof.
  unfold preSave. destruct (SpecialCourse.payment_expires_at r); [|reflexivity].
  destruct (_ && _); reflexivity.
Qed.

Lemma withId_registrationId i r :
  SpecialCourse.registrationId (withId i r) = SpecialCourse.registrationId r.
Proof. reflexivity. Qed.

Lemma requiredPresent_registrationId r :
  requiredPresent r = true -> SpecialCourse.registrationId r <> "".
Proof.
  unfold requiredPresent. intros H Hempty. rewrite Hempty in H.
  cbn [forallb] in H. discriminate.
Qed.

Section Outcomes.

Context (rt : Runtime).

Lemma Sub_checkSlotAvailability now carnival batch date st :
  Sub (courses st)
      (courses (snd (checkSlotAvailability rt now carnival batch date st))).
Proof.
  rewrite checkSlotAvailability_courses.
  destruct (parseDateForQuery rt date); [apply Sub_deleteMany|apply Sub_refl].
Qed.

Lemma Sub_slotQueries now qs st :
  Sub (courses st) (courses (slotQueries rt now qs st)).
Proof.
  revert st. induction qs as [|[[carnival batch] date] qs IH]; intros st; simpl.
  - apply Sub_refl.
  - eapply Sub_trans; [apply Sub_checkSlotAvailability|apply IH].
Qed.

Lemma Outcome_registerAfterDuplicateCheck now carnival date b st :
  Outcome now (courses st)
    (courses (snd (registerAfterDuplicateCheck rt now carnival date b st))).
Proof.
  unfold registerAfterDuplicateCheck.
  pose proof (Sub_checkSlotAvailability now carnival
                (Validation.valueOf (RegisterBody.selectedBatch b))
                (DateString (Validation.valueOf (RegisterBody.selectedDate b)))
                st) as S.
  destruct (checkSlotAvailability rt now carnival _ _ st) as [slot st1].
  cbn [snd] in S.
  destruct (isFull slot); cbn [snd]; [apply out_shrink; exact S|].
  unfold saveNewDocument.
  set (r := newRegistration now (generateRegistrationId st1) carnival date b).
  destruct (requiredPresent (castNew r) &&
            Status.inEnum (SpecialCourse.status (castNew r))) eqn:Ereq;
    cbn [negb snd]; [|apply out_shrink; exact S].
  rewrite withId_registrationId, preSave_registrationId.
  destruct (existsb _ (courses st1)) eqn:Edup; cbn [snd courses withCourses];
    [apply out_shrink; exact S|].
  apply out_insert; try exact S.
  - exact Edup.
  - apply andb_prop in Ereq. destruct Ereq as [Ereq _].
    apply requiredPresent_registrationId. exact Ereq.
  - reflexivity.
  - reflexivity.
Qed.

Lemma Outcome_register now b st :
  Outcome now (courses st) (courses (snd (register rt now b st))).
Proof.
  unfold register.
  destruct (negb (Validation.isValid _)); [apply Outcome_same|].
  destruct (Validation.falsy (RegisterBody.carnivalName b));
    [apply Outcome_same|].
  destruct (Validation.validateDate now _ _) as [date ds|e];
    [|apply Outcome_same].
  destruct (negb (Validation.validateBatch _)); [apply Outcome_same|].
  destruct (checkDuplicateRegistration rt _ _ _ _ _ st);
    try apply Outcome_same; apply Outcome_registerAfterDuplicateCheck.
Qed.

Lemma Outcome_createOrder now out id st :
  Outcome now (courses st) (courses (snd (createOrder now out id st))).
Proof.
  unfold createOrder.
  destruct (Validation.falsy id); [apply Outcome_same|].
  destruct (find _ (courses st)) as [registration|] eqn:F;
    [|apply Outcome_same].
  destruct (ordersCreate out) as [orderId|]; [|apply Outcome_same].
  match goal with
  | |- context [saveDocument now ?r' (courses st)] =>
      pose proof (Outcome_save now (courses st) (courses st) registration r'
                    (Sub_refl _) (proj1 (find_some _ _ F))) as O
  end.
  match type of O with
  | ?U -> _ => assert (HU : U)
  end.
  { repeat split. right. left. split; [reflexivity|left; reflexivity]. }
  specialize (O HU).
  destruct (saveDocument now _ (courses st)); exact O.
Qed.

Lemma Sub_deleteWithPayments id st :
  Sub (courses st) (courses (deleteWithPayments id st)).
Proof. unfold deleteWithPayments. simpl. apply Sub_deleteOne. Qed.

Lemma Outcome_verifyPayment now out b st :
  Outcome now (courses st) (courses (snd (verifyPayment rt now out b st))).
Proof.
  unfold verifyPayment.
  destruct (_ || _); [apply Outcome_same|].
  destruct (find _ (courses st)) as [registration|] eqn:F;
    [|apply Outcome_same].
  destruct (PaymentStatus.eqb _ _); [apply Outcome_same|].
  destruct (negb _); [apply Outcome_same|].
  destruct (_ <? deleteThresholdAt now) eqn:Ea;
    [apply out_shrink, Sub_deleteWithPayments|].
  pose proof (Sub_checkSlotAvailability now
                (SpecialCourse.carnivalName registration)
                (SpecialCourse.selectedBatch registration)
                (DateObject (SpecialCourse.selectedDate registration)) st) as S.
  pose proof (checkSlotAvailability_courses rt now
                (SpecialCourse.carnivalName registration)
                (SpecialCourse.selectedBatch registration)
                (DateObject (SpecialCourse.selectedDate registration)) st) as C.
  destruct (checkSlotAvailability rt now _ _ _ st) as [slot st1].
  simpl in S, C.
  destruct (isFull slot); [apply out_shrink; exact S|].
  destruct (checkPaymentSignature rt b); try (apply out_shrink; exact S).
  assert (Hin : In registration (courses st1)).
  { rewrite C. unfold deleteMany. apply filter_In.
    split; [apply (find_some _ _ F)|].
    unfold oldPendingQuery. rewrite Ea, andb_false_r. reflexivity. }
  pose proof (Outcome_save now (courses st) (courses st1) registration
                (confirmedRegistration now out b registration) S Hin) as O.
  assert (HU : Updates registration
                 (confirmedRegistration now out b registration)).
  { repeat split. left. split; reflexivity. }
  specialize (O HU).
  destruct (saveDocument now _ (courses st1)) as [cs'|e]; [|exact O].
  destruct (createPayment _ _); exact O.
Qed.

Lemma Sub_getRegistration now id st :
  Sub (courses st) (courses (snd (getRegistration now id st))).
Proof.
  unfold getRegistration.
  destruct (find _ (courses st)) as [r|]; [|apply Sub_refl].
  destruct (agedOut now r); simpl; [apply Sub_deleteOne|apply Sub_refl].
Qed.

Lemma Sub_checkRegistrationStatus now id st :
  Sub (courses st) (courses (snd (checkRegistrationStatus rt now id st))).
Proof.
  unfold checkRegistrationStatus.
  destruct (Validation.falsy id); [apply Sub_refl|].
  destruct (find _ (courses st)) as [r|]; [|apply Sub_refl].
  destruct (agedOut now r); simpl; [apply Sub_deleteOne|].
  destruct (Status.eqb _ _); [|apply Sub_refl].
  pose proof (Sub_checkSlotAvailability now (SpecialCourse.carnivalName r)
                (SpecialCourse.selectedBatch r)
                (DateObject (SpecialCourse.selectedDate r)) st) as S.
  destruct (checkSlotAvailability rt now _ _ _ st) as [slot st1]. exact S.
Qed.

Lemma Sub_cleanupExpiredRegistrations now st :
  Sub (courses st) (courses (snd (cleanupExpiredRegistrations now st))).
Proof.
  unfold cleanupExpiredRegistrations.
  destruct (filter (stalePending now) (courses st)); simpl;
    [apply Sub_refl|apply Sub_deleteMany].
Qed.

Lemma Sub_expireRegistration id st :
  Sub (courses st) (courses (snd (expireRegistration id st))).
Proof.
  unfold expireRegistration.
  destruct id as [id|]; [|apply Sub_refl].
  destruct (find _ (courses st)) as [r|]; [|apply Sub_refl].
  destruct (Status.eqb _ _); [apply Sub_deleteWithPayments|apply Sub_refl].
Qed.

Lemma courses_tryCreatePayment p st :
  courses (tryCreatePayment p st) = courses st.
Proof.
  unfold tryCreatePayment. destruct (createPayment _ _); reflexivity.
Qed.

Lemma Outcome_handlePaymentAuthorized now payment st :
  Outcome now (courses st) (courses (handlePaymentAuthorized now payment st)).
Proof.
  unfold handlePaymentAuthorized.
  destruct (find _ (courses st)) as [registration|] eqn:F;
    [|apply Outcome_same].
  match goal with
  | |- context [saveDocument now ?r' (courses st)] =>
      pose proof (Outcome_save now (courses st) (courses st) registration r'
                    (Sub_refl _) (proj1 (find_some _ _ F))) as O
  end.
  match type of O with
  | ?U -> _ => assert (HU : U)
  end.
  { repeat split. right. left. split; [reflexivity|right; reflexivity]. }
  specialize (O HU).
  destruct (saveDocument now _ (courses st)); [|exact O].
  rewrite courses_tryCreatePayment. exact O.
Qed.

Lemma Outcome_handlePaymentCaptured now payment st :
  Outcome now (courses st) (courses (handlePaymentCaptured now payment st)).
Proof.
  unfold handlePaymentCaptured.
  destruct (find _ (courses st)) as [registration|] eqn:F;
    [|apply Outcome_same].
  pose proof (Outcome_save now (courses st) (courses st) registration
                (capturedRegistration now payment registration)
                (Sub_refl _) (proj1 (find_some _ _ F))) as O.
  assert (HU : Updates registration
                 (capturedRegistration now payment registration)).
  { repeat split. left. split; reflexivity. }
  specialize (O HU).
  destruct (saveDocument now _ (courses st)); exact O.
Qed.

Lemma Outcome_handlePaymentFailed now payment st :
  Outcome now (courses st) (courses (handlePaymentFailed now payment st)).
Proof.
  unfold handlePaymentFailed.
  destruct (find _ (courses st)) as [registration|] eqn:F;
    [|apply Outcome_same].
  match goal with
  | |- context [saveDocument now ?r' (courses st)] =>
      pose proof (Outcome_save now (courses st) (courses st) registration r'
                    (Sub_refl _) (proj1 (find_some _ _ F))) as O
  end.
  match type of O with
  | ?U -> _ => assert (HU : U)
  end.
  { repeat split. right. right. split; reflexivity. }
  specialize (O HU).
  destruct (saveDocument now _ (courses st)); [|exact O].
  rewrite courses_tryCreatePayment. exact O.
Qed.

Lemma Outcome_handleWebhook now req st :
  Outcome now (courses st) (courses (snd (handleWebhook rt now req st))).
Proof.
  unfold handleWebhook.
  destruct (Validation.falsy _); [apply Outcome_same|].
  destruct (negb _); [apply Outcome_same|].
  destruct (Webhook.entity req) as [payment|]; [|apply Outcome_same].
  simpl. unfold dispatchEvent.
  destruct (optionStringEqb _ _); [apply Outcome_handlePaymentAuthorized|].
  destruct (optionStringEqb _ _); [apply Outcome_handlePaymentCaptured|].
  destruct (optionStringEqb _ _); [apply Outcome_handlePaymentFailed|].
  destruct (optionStringEqb _ _); [|apply Outcome_same].
  rewrite handlePaymentRefunded_no_change. apply Outcome_same.
Qed.

(** Every operation deletes some reservations, then updates or inserts at
    most one. *)
Lemma step_Outcome now op st :
  Outcome now (courses st) (courses (step rt now op st)).
Proof.
  destruct op; simpl.
  - apply out_shrink, Sub_slotQueries.
  - apply Outcome_register.
  - apply Outcome_createOrder.
  - apply Outcome_verifyPayment.
  - apply out_shrink, Sub_getRegistration.
  - apply out_shrink, Sub_checkRegistrationStatus.
  - apply out_shrink, Sub_cleanupExpiredRegistrations.
  - apply out_shrink, Sub_expireRegistration.
  - apply Outcome_handleWebhook.
Qed.

End Outcomes.

(* ================================================================== *)
(** ** Invariants of the reachable stores *)
(* ================================================================== *)

(** A hold that awaits payment has not been paid. *)
Definition pendingUnpaid (r : SpecialCourse.doc) : Prop :=
  SpecialCourse.status r = Status.pending_payment ->
  SpecialCourse.payment_status r = PaymentStatus.pending.

(** What the unique indexes, the required paths and the handlers keep. *)
Record wellFormed (cs : list SpecialCourse.doc) : Prop := {
  wf_ids : NoDup (map SpecialCourse._id cs);
  wf_registrationIds : NoDup (map SpecialCourse.registrationId cs);
  wf_named : Forall (fun r => SpecialCourse.registrationId r <> "") cs;
  wf_pending : Forall pendingUnpaid cs
}.

Lemma NoDup_map_same {A B} (f : A -> B) (l : list A) (a b : A) :
  NoDup (map f l) -> In a l -> In b l -> f a = f b -> a = b.
Proof.
  induction l as [|x l IH]; simpl; intros N Ha Hb E; [contradiction|].
  inversion N as [|y m Hnot N']; subst.
  destruct Ha as [Ha|Ha], Hb as [Hb|Hb]; subst.
  - reflexivity.
  - exfalso. apply Hnot. rewrite E. apply in_map. exact Hb.
  - exfalso. apply Hnot. rewrite <- E. apply in_map. exact Ha.
  - apply IH; assumption.
Qed.

Lemma NoDup_snoc {A} (l : list A) (x : A) :
  NoDup l -> ~ In x l -> NoDup (l ++ [x]).
Proof.
  induction l as [|y l IH]; simpl; intros N H.
  - constructor; [intros []|constructor].
  - inversion N; subst. constructor.
    + intros Hin. apply in_app_or in Hin. destruct Hin as [Hin|[E|[]]].
      * contradiction.
      * apply H. left. symmetry. exact E.
    + apply IH; [assumption|]. intros Hin. apply H. right. exact Hin.
Qed.

Lemma preSave_status_cases now r :
  preSave now r = r \/
  (SpecialCourse.status (preSave now r) = Status.expired /\
   SpecialCourse.payment_status (preSave now r) = PaymentStatus.expired /\
   SpecialCourse.status r = Status.pending_payment /\
   exists e, SpecialCourse.payment_expires_at r = Some e /\ e < now).
Proof.
  unfold preSave.
  destruct (SpecialCourse.payment_expires_at r) as [e|]; [|left; reflexivity].
  destruct (Status.eqb (SpecialCourse.status r) Status.pending_payment) eqn:Es;
    [|left; reflexivity].
  destruct (e <? now) eqn:El; [|left; reflexivity].
  right. simpl. repeat split.
  - apply Status_eqb_eq. exact Es.
  - exists e. split; [reflexivity|]. apply Z.ltb_lt. exact El.
Qed.

Lemma preSave_pendingUnpaid now r : pendingUnpaid r -> pendingUnpaid (preSave now r).
Proof.
  intros P. destruct (preSave_status_cases now r) as [E|(Hs & _)].
  - rewrite E. exact P.
  - intros H. rewrite Hs in H. discriminate.
Qed.

Lemma freshId_above cs r :
  In r cs -> SpecialCourse._id r < freshId cs.
Proof.
  unfold freshId. induction cs as [|x cs IH]; cbn [fold_right In];
    [contradiction|].
  intros [E|Hin]; [subst; lia|]. specialize (IH Hin). lia.
Qed.

Lemma map_update_field {B} (f : SpecialCourse.doc -> B) i r' cs :
  (forall d, In d cs -> hasId i d = true -> f r' = f d) ->
  map f (map (fun d => if hasId i d then r' else d) cs) = map f cs.
Proof.
  intros H. rewrite map_map. apply map_ext_in. intros d Hin.
  destruct (hasId i d) eqn:E; [apply H; assumption|reflexivity].
Qed.

Lemma Updates_pendingUnpaid r r' :
  Updates r r' -> pendingUnpaid r -> pendingUnpaid r'.
Proof.
  intros (_ & _ & _ & [[Hs _]|[[Hs Hp]|[_ Hp]]]) P H.
  - rewrite Hs in H. discriminate.
  - rewrite Hs in H. specialize (P H).
    destruct Hp as [Hp|Hp]; rewrite Hp; [exact P|reflexivity].
  - exact Hp.
Qed.

(** An operation keeps the store well formed. *)
Lemma Outcome_wellFormed now cs cs' :
  Outcome now cs cs' -> wellFormed cs -> wellFormed cs'.
Proof.
  intros O [Nid Nreg Hnamed Hpend]. destruct O as [cs1 S|cs1 r r' S Hin U|cs1 r S Hnew Hname Hs Hp].
  - constructor.
    + apply (Sub_NoDup _ _ (Sub_map _ _ _ S) Nid).
    + apply (Sub_NoDup _ _ (Sub_map _ _ _ S) Nreg).
    + apply (Sub_Forall _ _ _ S Hnamed).
    + apply (Sub_Forall _ _ _ S Hpend).
  - pose proof (Sub_NoDup _ _ (Sub_map SpecialCourse._id _ _ S) Nid) as Nid1.
    pose proof (Sub_NoDup _ _ (Sub_map SpecialCourse.registrationId _ _ S) Nreg)
      as Nreg1.
    pose proof (Sub_Forall _ _ _ S Hnamed) as Hnamed1.
    pose proof (Sub_Forall _ _ _ S Hpend) as Hpend1.
    destruct U as (Uid & Ureg & Ucreated & Ustatus).
    assert (Hsame : forall d, In d cs1 ->
                      hasId (SpecialCourse._id r) d = true -> d = r).
    { intros d Hd E. apply (NoDup_map_same SpecialCourse._id cs1); try assumption.
      unfold hasId in E. apply Z.eqb_eq in E. exact E. }
    constructor.
    + rewrite map_update_field; [exact Nid1|].
      intros d Hd E. rewrite preSave_id, Uid. unfold hasId in E.
      apply Z.eqb_eq in E. symmetry. exact E.
    + rewrite map_update_field; [exact Nreg1|].
      intros d Hd E. rewrite preSave_registrationId, Ureg.
      rewrite (Hsame d Hd E). reflexivity.
    + apply Forall_forall. intros x Hx. apply in_map_iff in Hx.
      destruct Hx as (d & Ex & Hd).
      destruct (hasId (SpecialCourse._id r) d) eqn:E.
      * subst x. rewrite preSave_registrationId, Ureg.
        apply (proj1 (Forall_forall _ _) Hnamed1 r Hin).
      * subst x. apply (proj1 (Forall_forall _ _) Hnamed1 d Hd).
    + apply Forall_forall. intros x Hx. apply in_map_iff in Hx.
      destruct Hx as (d & Ex & Hd).
      destruct (hasId (SpecialCourse._id r) d) eqn:E.
      * subst x. apply preSave_pendingUnpaid.
        apply (Updates_pendingUnpaid r r'); [repeat split; assumption|].
        apply (proj1 (Forall_forall _ _) Hpend1 r Hin).
      * subst x. apply (proj1 (Forall_forall _ _) Hpend1 d Hd).
  - pose proof (Sub_NoDup _ _ (Sub_map SpecialCourse._id _ _ S) Nid) as Nid1.
    pose proof (Sub_NoDup _ _ (Sub_map SpecialCourse.registrationId _ _ S) Nreg)
      as Nreg1.
    pose proof (Sub_Forall _ _ _ S Hnamed) as Hnamed1.
    pose proof (Sub_Forall _ _ _ S Hpend) as Hpend1.
    constructor.
    + rewrite map_app. simpl. apply NoDup_snoc.
      * exact Nid1.
      * intros Hin. apply in_map_iff in Hin.
        destruct Hin as (d & Ed & Hd).
        pose proof (freshId_above cs1 d Hd) as L. rewrite Ed in L. lia.
    + rewrite map_app. cbn [map]. apply NoDup_snoc.
      * exact Nreg1.
      * intros Hin. apply in_map_iff in Hin.
        destruct Hin as (d & Ed & Hd).
        rewrite withId_registrationId, preSave_registrationId in Ed.
        assert (T : existsb (hasRegistrationId (SpecialCourse.registrationId r))
                      cs1 = true).
        { apply existsb_exists. exists d. split; [exact Hd|].
          unfold hasRegistrationId. rewrite Ed. apply String.eqb_refl. }
        rewrite T in Hnew. discriminate.
    + apply Forall_app. split; [exact Hnamed1|]. constructor; [|constructor].
      rewrite withId_registrationId, preSave_registrationId. exact Hname.
    + apply Forall_app. split; [exact Hpend1|]. constructor; [|constructor].
      assert (P : pendingUnpaid (preSave now r)).
      { apply preSave_pendingUnpaid. intros _. exact Hp. }
      exact P.
Qed.

Lemma wellFormed_nil : wellFormed [].
Proof. constructor; simpl; constructor. Qed.

(** Every reachable store is well formed. *)
Lemma reachableAt_wellFormed rt t st :
  reachableAt rt t st -> wellFormed (courses st).
Proof.
  induction 1.
  - apply wellFormed_nil.
  - apply (Outcome_wellFormed now (courses st)); [apply step_Outcome|assumption].
Qed.

(* ================================================================== *)
(** ** Lazy expiry on the lookup paths (C5) *)
(* ================================================================== *)

Lemma find_none_all {A} (p : A -> bool) (l : list A) :
  (forall x, In x l -> p x = false) -> find p l = None.
Proof.
  induction l as [|x l IH]; simpl; intros H; [reflexivity|].
  rewrite (H x (or_introl eq_refl)). apply IH. intros y Hy. apply H.
  right. exact Hy.
Qed.

(** Under the unique index, deleting the reservation of a code leaves no
    reservation with that code. *)
Lemma find_deleteOne_unique id cs :
  NoDup (map SpecialCourse.registrationId cs) ->
  find (hasRegistrationId id) (deleteOne (hasRegistrationId id) cs) = None.
Proof.
  induction cs as [|x cs IH]; simpl; intros N; [reflexivity|].
  inversion N as [|y m Hnot N']; subst.
  destruct (hasRegistrationId id x) eqn:E.
  - apply find_none_all. intros y Hy.
    unfold hasRegistrationId in *. apply String.eqb_eq in E.
    destruct (String.eqb (SpecialCourse.registrationId y) id) eqn:Ey;
      [|reflexivity].
    apply String.eqb_eq in Ey. exfalso. apply Hnot. rewrite E, <- Ey.
    apply in_map. exact Hy.
  - simpl. rewrite E. apply IH. exact N'.
Qed.

Lemma getRegistration_unknown now id st :
  find (hasRegistrationId id) (courses st) = None ->
  getRegistration now id st = (LookupNotFound, st).
Proof. intros F. unfold getRegistration. rewrite F. reflexivity. Qed.

(** C5.  In a reachable store, a lookup by code (get details, check
    status, verify payment) that finds a [pending_payment] reservation
    created more than 10 minutes ago deletes it and answers with the
    expiry error (404 on the two read paths, 400 on the payment path)
    instead of the reservation; afterwards no reservation has that code, so
    a further lookup answers "not found". *)
Theorem C5_lazy_expiry_on_lookup (rt : Runtime) (t now : Z) (st : Store)
    (id : string) (r : SpecialCourse.doc) :
  reachableAt rt t st ->
  find (hasRegistrationId id) (courses st) = Some r ->
  SpecialCourse.status r = Status.pending_payment ->
  SpecialCourse.createdAt r < now - 10 * 60 * 1000 ->
  let gone (st' : Store) :=
    find (hasRegistrationId id) (courses st') = None /\
    forall now', getRegistration now' id st' = (LookupNotFound, st') in
  (fst (getRegistration now id st) = LookupExpiredDeleted id (ageMinutes now r) /\
   lookupStatus (fst (getRegistration now id st)) = 404 /\
   gone (snd (getRegistration now id st))) /\
  (fst (checkRegistrationStatus rt now (Some id) st)
     = LookupExpiredDeleted id (ageMinutes now r) /\
   lookupStatus (fst (checkRegistrationStatus rt now (Some id) st)) = 404 /\
   gone (snd (checkRegistrationStatus rt now (Some id) st))) /\
  (forall out b,
     VerifyBody.registrationId b = Some id ->
     Validation.falsy (VerifyBody.razorpay_payment_id b) = false ->
     fst (verifyPayment rt now out b st)
       = VerifyExpiredDeleted id (ageMinutes now r) /\
     verifyStatus (fst (verifyPayment rt now out b st)) = 400 /\
     gone (snd (verifyPayment rt now out b st))).
Proof.
  intros R F Hs Ha gone.
  pose proof (reachableAt_wellFormed rt t st R) as [Nid Nreg Hnamed Hpend].
  destruct (find_some _ _ F) as [Hin Hm].
  assert (Hname : String.eqb id "" = false).
  { apply String.eqb_neq. unfold hasRegistrationId in Hm.
    apply String.eqb_eq in Hm. rewrite <- Hm.
    apply (proj1 (Forall_forall _ _) Hnamed r Hin). }
  assert (Hpay : SpecialCourse.payment_status r = PaymentStatus.pending)
    by (apply (proj1 (Forall_forall _ _) Hpend r Hin); exact Hs).
  assert (Hold : (SpecialCourse.createdAt r <? deleteThresholdAt now) = true).
  { apply Z.ltb_lt. unfold deleteThresholdAt, DELETE_PENDING_AFTER_MINUTES.
    exact Ha. }
  assert (Haged : agedOut now r = true)
    by (unfold agedOut; rewrite Hs, Hold; reflexivity).
  assert (G : forall ps,
            gone {| courses := deleteOne (hasRegistrationId id) (courses st);
                    coursePayments := ps |}).
  { intros ps. unfold gone. simpl.
    pose proof (find_deleteOne_unique id (courses st) Nreg) as D.
    split; [exact D|]. intros now'. apply getRegistration_unknown. exact D. }
  split; [|split].
  - unfold getRegistration. rewrite F, Haged. simpl.
    split; [reflexivity|]. split; [reflexivity|]. apply G.
  - unfold checkRegistrationStatus. simpl. rewrite Hname, F, Haged. simpl.
    split; [reflexivity|]. split; [reflexivity|]. apply G.
  - intros out b Hb Hp. unfold verifyPayment.
    rewrite Hp, Hb. simpl. rewrite Hname, F, Hpay, Hs, Hold. simpl.
    split; [reflexivity|]. split; [reflexivity|]. apply G.
Qed.

(** The store after one registration. *)
Definition registeredStore : Store :=
  step sampleRuntime sampleNow (Register plainBody) emptyStore.

Lemma C5_lazy_expiry_witness :
  fst (getRegistration (sampleNow + 11 * 60 * 1000) "LS-RD26-00001"
         registeredStore) = LookupExpiredDeleted "LS-RD26-00001" 11 /\
  find (hasRegistrationId "LS-RD26-00001")
    (courses (snd (getRegistration (sampleNow + 11 * 60 * 1000)
                     "LS-RD26-00001" registeredStore))) = None.
Proof.
  assert (F : { r | find (hasRegistrationId "LS-RD26-00001")
                      (courses registeredStore) = Some r }).
  { eexists. vm_compute. reflexivity. }
  destruct F as [r F].
  assert (Hs : SpecialCourse.status r = Status.pending_payment).
  { assert (E : option_map SpecialCourse.status (Some r)
                = Some Status.pending_payment)
      by (rewrite <- F; vm_compute; reflexivity).
    inversion E. reflexivity. }
  assert (Hc : SpecialCourse.createdAt r = sampleNow).
  { assert (E : option_map SpecialCourse.createdAt (Some r) = Some sampleNow)
      by (rewrite <- F; vm_compute; reflexivity).
    inversion E. reflexivity. }
  assert (R : reachableAt sampleRuntime sampleNow registeredStore).
  { unfold registeredStore.
    apply reach_step with (t := sampleNow); [apply reach_start|].
    apply Z.le_refl. }
  assert (Ha : SpecialCourse.createdAt r
               < sampleNow + 11 * 60 * 1000 - 10 * 60 * 1000)
    by (rewrite Hc; reflexivity).
  destruct (C5_lazy_expiry_on_lookup sampleRuntime sampleNow
              (sampleNow + 11 * 60 * 1000) registeredStore "LS-RD26-00001" r
              R F Hs Ha) as ((Hget & _ & Hgone & _) & _).
  split; [|exact Hgone].
  rewrite Hget. unfold ageMinutes. rewrite Hc. reflexivity.
Defined.

(* ================================================================== *)
(** ** Registered and paid (C3) *)
(* ================================================================== *)

(** The reservation of [orderedStore] confirmed by the webhook, then an
    authorization event for the same order delivered afterwards. *)
Definition lateAuthorizationStore : Store :=
  step sampleRuntime (sampleNow + 3000)
    (WebhookEvent (paymentA "payment.authorized"))
    (step sampleRuntime (sampleNow + 2000)
       (WebhookEvent (paymentA "payment.captured")) orderedStore).

(** C3, refuted as stated: a reachable store holds a reservation that is
    [registered] while its [payment_status] is [pending]. *)
Lemma C3_registered_with_pending_payment :
  reachable sampleRuntime lateAuthorizationStore /\
  option_map
    (fun r => (SpecialCourse.status r, SpecialCourse.payment_status r))
    (find (hasRegistrationId "LS-RD26-00001") (courses lateAuthorizationStore))
  = Some (Status.registered, PaymentStatus.pending).
Proof.
  split.
  - exists (sampleNow + 3000). unfold lateAuthorizationStore.
    apply reach_step with (t := sampleNow + 2000);
      [|vm_compute; discriminate].
    apply reach_step with (t := sampleNow + 1000);
      [|vm_compute; discriminate].
    apply orderedStore_reachable.
  - vm_compute. reflexivity.
Qed.

Lemma preSave_registered now r :
  SpecialCourse.status (preSave now r) = Status.registered -> preSave now r = r.
Proof.
  intros H. destruct (preSave_status_cases now r) as [E|(Hs & _)];
    [exact E|]. rewrite Hs in H. discriminate.
Qed.

Lemma Outcome_registered now cs cs' r' :
  Outcome now cs cs' -> In r' cs' ->
  SpecialCourse.status r' = Status.registered ->
  SpecialCourse.payment_status r' = PaymentStatus.paid \/
  exists r, In r cs /\ SpecialCourse._id r = SpecialCourse._id r' /\
            SpecialCourse.status r = Status.registered.
Proof.
  intros O Hin Hs. destruct O as [cs1 S|cs1 r u S Hr U|cs1 r S Hnew Hname Hrs Hp].
  - right. exists r'. split; [apply (Sub_In _ _ _ S Hin)|]. split; [reflexivity|exact Hs].
  - apply in_map_iff in Hin. destruct Hin as (d & Ed & Hd).
    destruct (hasId (SpecialCourse._id r) d) eqn:E.
    + subst r'. pose proof (preSave_registered now u Hs) as Ep.
      rewrite Ep in *. clear Ep.
      destruct U as (Uid & _ & _ & [[_ Hpaid]|[[Hsame _]|[Hpend _]]]).
      * left. exact Hpaid.
      * right. exists r. split; [apply (Sub_In _ _ _ S Hr)|].
        split; [symmetry; exact Uid|]. rewrite <- Hsame. exact Hs.
      * rewrite Hpend in Hs. discriminate.
    + subst r'. right. exists d. split; [apply (Sub_In _ _ _ S Hd)|].
      split; [reflexivity|exact Hs].
  - apply in_app_or in Hin. destruct Hin as [Hin|[E|[]]].
    + right. exists r'. split; [apply (Sub_In _ _ _ S Hin)|].
      split; [reflexivity|exact Hs].
    + subst r'. exfalso. simpl in Hs.
      destruct (preSave_status_cases now r) as [Ep|(He & _)].
      * rewrite Ep, Hrs in Hs. discriminate.
      * rewrite He in Hs. discriminate.
Qed.

(** C3, amended.  Every code path that sets a reservation's status to
    [registered] sets [payment_status] to [paid] in the same update: a
    reservation that is registered after an operation is paid, unless it
    was registered already before the operation ran. *)
Theorem C3_registered_is_set_with_paid (rt : Runtime) (now : Z)
    (op : Operation) (st : Store) (r' : SpecialCourse.doc) :
  In r' (courses (step rt now op st)) ->
  SpecialCourse.status r' = Status.registered ->
  SpecialCourse.payment_status r' = PaymentStatus.paid \/
  exists r, In r (courses st) /\
            SpecialCourse._id r = SpecialCourse._id r' /\
            SpecialCourse.status r = Status.registered.
Proof.
  intros Hin Hs.
  apply (Outcome_registered now (courses st) (courses (step rt now op st)));
    [apply step_Outcome|exact Hin|exact Hs].
Qed.

Lemma C3_registered_is_set_with_paid_witness :
  let st' :=
    step sampleRuntime (sampleNow + 3000) (VerifyPayment quietOutside verifyA)
      orderedStore in
  exists r',
    find (hasRegistrationId "LS-RD26-00001") (courses st') = Some r' /\
    SpecialCourse.status r' = Status.registered /\
    (SpecialCourse.payment_status r' = PaymentStatus.paid \/
     exists r, In r (courses orderedStore) /\
               SpecialCourse._id r = SpecialCourse._id r' /\
               SpecialCourse.status r = Status.registered).
Proof.
  cbv zeta.
  assert (F : { r' | find (hasRegistrationId "LS-RD26-00001")
                       (courses (step sampleRuntime (sampleNow + 3000)
                                   (VerifyPayment quietOutside verifyA)
                                   orderedStore)) = Some r' }).
  { eexists. vm_compute. reflexivity. }
  destruct F as [r' F]. exists r'.
  assert (Hs : SpecialCourse.status r' = Status.registered).
  { assert (E : option_map SpecialCourse.status (Some r')
                = Some Status.registered)
      by (rewrite <- F; vm_compute; reflexivity).
    inversion E. reflexivity. }
  split; [exact F|]. split; [exact Hs|].
  apply (C3_registered_is_set_with_paid sampleRuntime (sampleNow + 3000)
           (VerifyPayment quietOutside verifyA) orderedStore r');
    [apply (find_some _ _ F)|exact Hs].
Defined.

(* ================================================================== *)
(** ** What [payment_expires_at] decides (C4) *)
(* ================================================================== *)

(** The reservation of [orderedStore], paid through the client path. *)
Definition paidStore : Store :=
  step sampleRuntime (sampleNow + 3000) (VerifyPayment quietOutside verifyA)
    orderedStore.

(** C4, refuted as stated: a [payment.failed] event for the order of a
    paid reservation leaves the reservation [pending_payment] when it
    arrives 14 minutes after the registration, and flags it [expired]
    (without deleting it) when it arrives 16 minutes after it, that is,
    after [payment_expires_at]; both times are past the 10-minute cutoff. *)
Lemma C4_save_hook_flags_after_payment_expires_at :
  reachable sampleRuntime paidStore /\
  option_map
    (fun r => (SpecialCourse.status r, SpecialCourse.payment_expires_at r))
    (find (hasRegistrationId "LS-RD26-00001") (courses paidStore))
  = Some (Status.registered, Some (sampleNow + 15 * 60 * 1000)) /\
  option_map SpecialCourse.status
    (find (hasRegistrationId "LS-RD26-00001")
       (courses (step sampleRuntime (sampleNow + 14 * 60 * 1000)
                   (WebhookEvent (paymentA "payment.failed")) paidStore)))
  = Some Status.pending_payment /\
  option_map
    (fun r => (SpecialCourse.status r, SpecialCourse.payment_status r))
    (find (hasRegistrationId "LS-RD26-00001")
       (courses (step sampleRuntime (sampleNow + 16 * 60 * 1000)
                   (WebhookEvent (paymentA "payment.failed")) paidStore)))
  = Some (Status.expired, PaymentStatus.expired).
Proof.
  split.
  - exists (sampleNow + 3000). unfold paidStore.
    apply reach_step with (t := sampleNow + 1000);
      [|vm_compute; discriminate].
    apply orderedStore_reachable.
  - repeat split; vm_compute; reflexivity.
Qed.

(** A reservation without its [payment_expires_at]. *)
Definition forgetExpiry (r : SpecialCourse.doc) : SpecialCourse.doc :=
  {| SpecialCourse._id := SpecialCourse._id r;
     SpecialCourse.registrationId := SpecialCourse.registrationId r;
     SpecialCourse.carnivalName := SpecialCourse.carnivalName r;
     SpecialCourse.parentName := SpecialCourse.parentName r;
     SpecialCourse.email := SpecialCourse.email r;
     SpecialCourse.phone := SpecialCourse.phone r;
     SpecialCourse.childName := SpecialCourse.childName r;
     SpecialCourse.childAge := SpecialCourse.childAge r;
     SpecialCourse.selectedBatch := SpecialCourse.selectedBatch r;
     SpecialCourse.batchTime := SpecialCourse.batchTime r;
     SpecialCourse.selectedDate := SpecialCourse.selectedDate r;
     SpecialCourse.materialType := SpecialCourse.materialType r;
     SpecialCourse.status := SpecialCourse.status r;
     SpecialCourse.payment_status := SpecialCourse.payment_status r;
     SpecialCourse.payment := SpecialCourse.payment r;
     SpecialCourse.payment_expires_at := None;
     SpecialCourse.payment_confirmed_at := SpecialCourse.payment_confirmed_at r;
     SpecialCourse.expiredAt := SpecialCourse.expiredAt r;
     SpecialCourse.expiration_reason := SpecialCourse.expiration_reason r;
     SpecialCourse.createdAt := SpecialCourse.createdAt r |}.

Definition forgetExpiries (st : Store) : Store :=
  {| courses := map forgetExpiry (courses st);
     coursePayments := coursePayments st |}.

(** The operations whose expiry test is the age of the reservation: the
    slot queries, the three lookups by code, the sweep and the manual
    expiry. *)
Definition expiresByAge (op : Operation) : bool :=
  match op with
  | SlotQueries _ | VerifyPayment _ _ | GetRegistration _
  | CheckRegistrationStatus _ | Sweep | ExpireRegistration _ => true
  | Register _ | CreateOrder _ _ | WebhookEvent _ => false
  end.

Lemma filter_map_compat {A} (f : A -> A) (q : A -> bool) (l : list A) :
  (forall x, q (f x) = q x) -> filter q (map f l) = map f (filter q l).
Proof.
  intros H. induction l as [|x l IH]; simpl; [reflexivity|].
  rewrite H. destruct (q x); simpl; rewrite IH; reflexivity.
Qed.

Lemma count_map_compat {A} (f : A -> A) (q : A -> bool) (l : list A) :
  (forall x, q (f x) = q x) -> countDocuments q (map f l) = countDocuments q l.
Proof.
  intros H. unfold countDocuments. rewrite (filter_map_compat f q l H).
  rewrite length_map. reflexivity.
Qed.

Lemma deleteMany_map_compat {A} (f : A -> A) (q : A -> bool) (l : list A) :
  (forall x, q (f x) = q x) -> deleteMany q (map f l) = map f (deleteMany q l).
Proof.
  intros H. unfold deleteMany. apply filter_map_compat.
  intros x. rewrite H. reflexivity.
Qed.

Lemma find_map_compat {A} (f : A -> A) (q : A -> bool) (l : list A) :
  (forall x, q (f x) = q x) -> find q (map f l) = option_map f (find q l).
Proof.
  intros H. induction l as [|x l IH]; simpl; [reflexivity|].
  rewrite H. destruct (q x); [reflexivity|exact IH].
Qed.

Lemma deleteOne_map_compat {A} (f : A -> A) (q : A -> bool) (l : list A) :
  (forall x, q (f x) = q x) -> deleteOne q (map f l) = map f (deleteOne q l).
Proof.
  intros H. induction l as [|x l IH]; simpl; [reflexivity|].
  rewrite H. destruct (q x); [reflexivity|]. simpl. rewrite IH. reflexivity.
Qed.

Lemma existsb_map_compat {A} (f : A -> A) (q : A -> bool) (l : list A) :
  (forall x, q (f x) = q x) -> existsb q (map f l) = existsb q l.
Proof.
  intros H. induction l as [|x l IH]; simpl; [reflexivity|].
  rewrite H, IH. reflexivity.
Qed.

Lemma store_eq (a b : Store) :
  courses a = courses b -> coursePayments a = coursePayments b -> a = b.
Proof. destruct a, b; simpl; intros; subst; reflexivity. Qed.

Lemma deleteOldPending_count carnival batch qd thr st :
  fst (deleteOldPending carnival batch qd thr st) =
  countDocuments (oldPendingQuery carnival batch qd thr) (courses st).
Proof. unfold deleteOldPending. destruct (0 <? _); reflexivity. Qed.

Section ExpiryFacts.

Context (rt : Runtime).

Lemma deleteOldPending_forget carnival batch qd thr st :
  deleteOldPending carnival batch qd thr (forgetExpiries st) =
  (fst (deleteOldPending carnival batch qd thr st),
   forgetExpiries (snd (deleteOldPending carnival batch qd thr st))).
Proof.
  rewrite (surjective_pairing
             (deleteOldPending carnival batch qd thr (forgetExpiries st))).
  f_equal.
  - rewrite !deleteOldPending_count. simpl.
    apply count_map_compat. reflexivity.
  - apply store_eq.
    + rewrite deleteOldPending_courses. simpl.
      rewrite deleteOldPending_courses.
      apply deleteMany_map_compat. reflexivity.
    + rewrite deleteOldPending_payments. simpl.
      rewrite deleteOldPending_payments. reflexivity.
Qed.

(** A slot query answers the same without the [payment_expires_at]. *)
Lemma checkSlotAvailability_forget now carnival batch date st :
  checkSlotAvailability rt now carnival batch date (forgetExpiries st) =
  (fst (checkSlotAvailability rt now carnival batch date st),
   forgetExpiries (snd (checkSlotAvailability rt now carnival batch date st))).
Proof.
  unfold checkSlotAvailability.
  destruct (parseDateForQuery rt date) as [qd|]; [|reflexivity].
  rewrite deleteOldPending_forget.
  destruct (deleteOldPending carnival batch qd (deleteThresholdAt now) st)
    as [n st1].
  cbn [fst snd forgetExpiries courses].
  rewrite !count_map_compat by reflexivity. reflexivity.
Qed.

Lemma slotQueries_forget now qs st :
  slotQueries rt now qs (forgetExpiries st) =
  forgetExpiries (slotQueries rt now qs st).
Proof.
  revert st. induction qs as [|[[carnival batch] date] qs IH]; intros st;
    simpl; [reflexivity|].
  rewrite checkSlotAvailability_forget. simpl. apply IH.
Qed.

Lemma deleteWithPayments_forget id st :
  deleteWithPayments id (forgetExpiries st) =
  forgetExpiries (deleteWithPayments id st).
Proof.
  unfold deleteWithPayments. apply store_eq; simpl; [|reflexivity].
  apply deleteOne_map_compat. reflexivity.
Qed.

Lemma map_replace_forget i x cs :
  map (fun d => if hasId i d then forgetExpiry x else d) (map forgetExpiry cs)
  = map forgetExpiry (map (fun d => if hasId i d then x else d) cs).
Proof.
  rewrite !map_map. apply map_ext. intros d.
  change (hasId i (forgetExpiry d)) with (hasId i d).
  destruct (hasId i d); reflexivity.
Qed.

Lemma verifyPayment_forget now out b st :
  verifyPayment rt now out b (forgetExpiries st) =
  (fst (verifyPayment rt now out b st),
   forgetExpiries (snd (verifyPayment rt now out b st))).
Proof.
  unfold verifyPayment.
  destruct (_ || _); [reflexivity|].
  cbn [forgetExpiries courses].
  rewrite find_map_compat by reflexivity.
  destruct (find _ (courses st)) as [r|]; cbn [option_map]; [|reflexivity].
  change (SpecialCourse.payment_status (forgetExpiry r))
    with (SpecialCourse.payment_status r).
  change (SpecialCourse.status (forgetExpiry r)) with (SpecialCourse.status r).
  change (SpecialCourse.createdAt (forgetExpiry r))
    with (SpecialCourse.createdAt r).
  change (SpecialCourse.carnivalName (forgetExpiry r))
    with (SpecialCourse.carnivalName r).
  change (SpecialCourse.selectedBatch (forgetExpiry r))
    with (SpecialCourse.selectedBatch r).
  change (SpecialCourse.selectedDate (forgetExpiry r))
    with (SpecialCourse.selectedDate r).
  destruct (PaymentStatus.eqb _ _); [reflexivity|].
  destruct (negb _); [reflexivity|].
  destruct (_ <? deleteThresholdAt now).
  { cbn [fst snd]. f_equal.
    apply (deleteWithPayments_forget
             (Validation.valueOf (VerifyBody.registrationId b)) st). }
  change {| courses := map forgetExpiry (courses st);
            coursePayments := coursePayments st |} with (forgetExpiries st).
  rewrite checkSlotAvailability_forget.
  destruct (checkSlotAvailability rt now _ _ _ st) as [slot st1].
  cbn [fst snd].
  destruct (isFull slot); [reflexivity|].
  destruct (checkPaymentSignature rt b); try reflexivity.
  unfold saveDocument.
  change (SpecialCourse.status (confirmedRegistration now out b (forgetExpiry r)))
    with Status.registered.
  change (SpecialCourse.status (confirmedRegistration now out b r))
    with Status.registered.
  change (SpecialCourse._id (confirmedRegistration now out b (forgetExpiry r)))
    with (SpecialCourse._id r).
  change (SpecialCourse._id (confirmedRegistration now out b r))
    with (SpecialCourse._id r).
  cbn [Status.inEnum negb forgetExpiries courses].
  rewrite existsb_map_compat by reflexivity.
  destruct (existsb (hasId (SpecialCourse._id r)) (courses st1));
    cbn [negb]; [|reflexivity].
  rewrite !preSave_not_pending by (simpl; discriminate).
  change (confirmedRegistration now out b (forgetExpiry r))
    with (forgetExpiry (confirmedRegistration now out b r)).
  rewrite map_replace_forget.
  change (feeOf (forgetExpiry r)) with (feeOf r).
  cbn [coursePayments withCourses].
  change (verificationLog b (forgetExpiry r)) with (verificationLog b r).
  change (coursePayments (forgetExpiries st1)) with (coursePayments st1).
  destruct (createPayment (verificationLog b r) (coursePayments st1));
    reflexivity.
Qed.

End ExpiryFacts.

Section ExpiryPaths.

Context (rt : Runtime).

Lemma getRegistration_forget now id st :
  snd (getRegistration now id (forgetExpiries st)) =
  forgetExpiries (snd (getRegistration now id st)).
Proof.
  unfold getRegistration. cbn [forgetExpiries courses].
  rewrite find_map_compat by reflexivity.
  destruct (find _ (courses st)) as [r|]; cbn [option_map]; [|reflexivity].
  change (agedOut now (forgetExpiry r)) with (agedOut now r).
  destruct (agedOut now r); [|reflexivity].
  cbn [snd]. apply store_eq; simpl; [|reflexivity].
  apply deleteOne_map_compat. reflexivity.
Qed.

Lemma checkRegistrationStatus_forget now id st :
  snd (checkRegistrationStatus rt now id (forgetExpiries st)) =
  forgetExpiries (snd (checkRegistrationStatus rt now id st)).
Proof.
  unfold checkRegistrationStatus.
  destruct (Validation.falsy id); [reflexivity|].
  cbn [forgetExpiries courses].
  rewrite find_map_compat by reflexivity.
  destruct (find _ (courses st)) as [r|]; cbn [option_map]; [|reflexivity].
  change (agedOut now (forgetExpiry r)) with (agedOut now r).
  destruct (agedOut now r).
  { cbn [snd]. apply store_eq; simpl; [|reflexivity].
    apply deleteOne_map_compat. reflexivity. }
  change (SpecialCourse.status (forgetExpiry r)) with (SpecialCourse.status r).
  destruct (Status.eqb _ _); [|reflexivity].
  change (SpecialCourse.carnivalName (forgetExpiry r))
    with (SpecialCourse.carnivalName r).
  change (SpecialCourse.selectedBatch (forgetExpiry r))
    with (SpecialCourse.selectedBatch r).
  change (SpecialCourse.selectedDate (forgetExpiry r))
    with (SpecialCourse.selectedDate r).
  change {| courses := map forgetExpiry (courses st);
            coursePayments := coursePayments st |} with (forgetExpiries st).
  rewrite checkSlotAvailability_forget.
  destruct (checkSlotAvailability rt now _ _ _ st) as [slot st1]. reflexivity.
Qed.

Lemma cleanupExpiredRegistrations_forget now st :
  snd (cleanupExpiredRegistrations now (forgetExpiries st)) =
  forgetExpiries (snd (cleanupExpiredRegistrations now st)).
Proof.
  unfold cleanupExpiredRegistrations. cbn [forgetExpiries courses coursePayments].
  rewrite (filter_map_compat forgetExpiry (stalePending now)) by reflexivity.
  destruct (filter (stalePending now) (courses st)) as [|x l];
    cbn [map snd]; [reflexivity|].
  apply store_eq; cbn [courses coursePayments forgetExpiries].
  - change (SpecialCourse.registrationId (forgetExpiry x))
      with (SpecialCourse.registrationId x).
    rewrite map_map.
    rewrite (map_ext (fun r => SpecialCourse.registrationId (forgetExpiry r))
               SpecialCourse.registrationId) by reflexivity.
    apply deleteMany_map_compat. reflexivity.
  - change (SpecialCourse.registrationId (forgetExpiry x))
      with (SpecialCourse.registrationId x).
    rewrite map_map.
    rewrite (map_ext (fun r => SpecialCourse.registrationId (forgetExpiry r))
               SpecialCourse.registrationId) by reflexivity.
    reflexivity.
Qed.

Lemma expireRegistration_forget id st :
  snd (expireRegistration id (forgetExpiries st)) =
  forgetExpiries (snd (expireRegistration id st)).
Proof.
  unfold expireRegistration. destruct id as [id|]; [|reflexivity].
  cbn [forgetExpiries courses].
  rewrite find_map_compat by reflexivity.
  destruct (find _ (courses st)) as [r|]; cbn [option_map]; [|reflexivity].
  change (SpecialCourse.status (forgetExpiry r)) with (SpecialCourse.status r).
  destruct (Status.eqb _ _); [|reflexivity].
  cbn [snd]. apply (deleteWithPayments_forget id st).
Qed.

(** The operations that expire by age give the same store, whatever the
    [payment_expires_at] of the reservations. *)
Lemma step_forget now op st :
  expiresByAge op = true ->
  step rt now op (forgetExpiries st) = forgetExpiries (step rt now op st).
Proof.
  destruct op; simpl; intros H; try discriminate.
  - apply slotQueries_forget.
  - rewrite verifyPayment_forget. reflexivity.
  - apply getRegistration_forget.
  - apply checkRegistrationStatus_forget.
  - apply cleanupExpiredRegistrations_forget.
  - apply expireRegistration_forget.
Qed.

Lemma verifyPayment_documents now out b st r' :
  In r' (courses (snd (verifyPayment rt now out b st))) ->
  In r' (courses st) \/ SpecialCourse.status r' = Status.registered.
Proof.
  unfold verifyPayment.
  destruct (_ || _); [left; assumption|].
  destruct (find _ (courses st)) as [registration|] eqn:F;
    [|left; assumption].
  destruct (PaymentStatus.eqb _ _); [left; assumption|].
  destruct (negb _); [left; assumption|].
  destruct (_ <? deleteThresholdAt now).
  { intros H. left. apply (Sub_In _ _ _ (Sub_deleteWithPayments _ st) H). }
  pose proof (Sub_checkSlotAvailability rt now
                (SpecialCourse.carnivalName registration)
                (SpecialCourse.selectedBatch registration)
                (DateObject (SpecialCourse.selectedDate registration)) st) as S.
  destruct (checkSlotAvailability rt now _ _ _ st) as [slot st1].
  cbn [snd] in S.
  destruct (isFull slot);
    [intros H; left; apply (Sub_In _ _ _ S H)|].
  destruct (checkPaymentSignature rt b);
    try (intros H; left; apply (Sub_In _ _ _ S H)).
  destruct (saveDocument now _ (courses st1)) as [cs'|e] eqn:E;
    [|intros H; left; apply (Sub_In _ _ _ S H)].
  apply (saveDocument_ok now registration) in E; [|reflexivity].
  rewrite preSave_not_pending in E by (simpl; discriminate).
  intros H.
  assert (H' : In r' cs') by (destruct (createPayment _ _); exact H).
  rewrite E in H'. apply in_map_iff in H'. destruct H' as (d & Ed & Hd).
  destruct (hasId _ d); subst r'.
  - right. reflexivity.
  - left. apply (Sub_In _ _ _ S Hd).
Qed.

(** None of them flags a reservation: a reservation they leave in the
    store was there before, or is the one the payment path has just
    registered. *)
Lemma step_by_age_documents now op st r' :
  expiresByAge op = true ->
  In r' (courses (step rt now op st)) ->
  In r' (courses st) \/ SpecialCourse.status r' = Status.registered.
Proof.
  destruct op; simpl; intros H Hin; try discriminate.
  - left. apply (Sub_In _ _ _ (Sub_slotQueries rt now _ st) Hin).
  - apply (verifyPayment_documents now out b st r' Hin).
  - left. apply (Sub_In _ _ _ (Sub_getRegistration now _ st) Hin).
  - left. apply (Sub_In _ _ _ (Sub_checkRegistrationStatus rt now _ st) Hin).
  - left. apply (Sub_In _ _ _ (Sub_cleanupExpiredRegistrations now st) Hin).
  - left. apply (Sub_In _ _ _ (Sub_expireRegistration _ st) Hin).
Qed.

End ExpiryPaths.

(** When the save hook flags a reservation. *)
Lemma preSave_flags now r :
  SpecialCourse.status (preSave now r) = Status.expired <->
  SpecialCourse.status r = Status.expired \/
  (SpecialCourse.status r = Status.pending_payment /\
   exists e, SpecialCourse.payment_expires_at r = Some e /\ e < now).
Proof.
  split.
  - intros H. destruct (preSave_status_cases now r) as [E|(_ & _ & Hs & He)].
    + left. rewrite E in H. exact H.
    + right. split; assumption.
  - intros [H|(Hs & e & He & Hl)].
    + rewrite preSave_not_pending; [exact H|]. rewrite H. discriminate.
    + unfold preSave. rewrite He, Hs. simpl.
      apply Z.ltb_lt in Hl. rewrite Hl. reflexivity.
Qed.

(** C4, amended.  [payment_expires_at] does not influence the slot
    queries, the sweep, the manual expiry or the three lookups by code
    (get details, check status, verify payment): they leave the same store
    whatever its value, their expiry condition being [createdAt] older than
    10 minutes, and they flag no reservation as expired (what they expire,
    they delete).  The field is read by the save hook alone, which flags a
    reservation saved while [pending_payment] after its
    [payment_expires_at] as expired instead of deleting it. *)
Theorem C4_expiry_by_age_and_save_hook (rt : Runtime) (now : Z) (st : Store) :
  (forall op, expiresByAge op = true ->
     step rt now op (forgetExpiries st) = forgetExpiries (step rt now op st)) /\
  (forall op r', expiresByAge op = true ->
     In r' (courses (step rt now op st)) ->
     SpecialCourse.status r' = Status.expired -> In r' (courses st)) /\
  (forall r,
     SpecialCourse.status (preSave now r) = Status.expired <->
     SpecialCourse.status r = Status.expired \/
     (SpecialCourse.status r = Status.pending_payment /\
      exists e, SpecialCourse.payment_expires_at r = Some e /\ e < now)).
Proof.
  split; [|split].
  - intros op H. apply step_forget. exact H.
  - intros op r' H Hin Hs.
    destruct (step_by_age_documents rt now op st r' H Hin) as [Hold|Hreg];
      [exact Hold|]. rewrite Hreg in Hs. discriminate.
  - intros r. apply preSave_flags.
Qed.

(* ================================================================== *)
(** ** Further properties: the store the handlers maintain *)
(* ================================================================== *)

(** X1.  In every store the program can reach, no two reservations share a
    registration id or an [_id], no registration id is empty, and a
    reservation that awaits payment has [payment_status] [pending]. *)
Theorem reachable_store_invariants (rt : Runtime) (t : Z) (st : Store) :
  reachableAt rt t st ->
  NoDup (map SpecialCourse.registrationId (courses st)) /\
  NoDup (map SpecialCourse._id (courses st)) /\
  (forall r, In r (courses st) ->
     SpecialCourse.registrationId r <> "" /\
     (SpecialCourse.status r = Status.pending_payment ->
      SpecialCourse.payment_status r = PaymentStatus.pending)).
Proof.
  intros R. destruct (reachableAt_wellFormed rt t st R) as [Nid Nreg Hn Hp].
  split; [exact Nreg|]. split; [exact Nid|].
  intros r Hin. split.
  - apply (proj1 (Forall_forall _ _) Hn r Hin).
  - apply (proj1 (Forall_forall _ _) Hp r Hin).
Qed.

Lemma reachable_store_invariants_witness :
  NoDup (map SpecialCourse.registrationId (courses authorizedStore)) /\
  map SpecialCourse.registrationId (courses authorizedStore)
    = ["LS-RD26-00001"].
Proof.
  split; [|vm_compute; reflexivity].
  apply (reachable_store_invariants sampleRuntime (sampleNow + 2000)
           authorizedStore authorizedStore_reachable).
Defined.

(* ------------------------------------------------------------------ *)
(** *** The sweep *)

Lemma filter_partition_length {A} (p : A -> bool) (l : list A) :
  (List.length (filter p l) +
   List.length (filter (fun x => negb (p x)) l) = List.length l)%nat.
Proof.
  induction l as [|x l IH]; simpl; [reflexivity|].
  destruct (p x); simpl; lia.
Qed.

Lemma inStrings_In s l : inStrings s l = true <-> In s l.
Proof.
  unfold inStrings. rewrite existsb_exists. split.
  - intros (x & Hx & E). apply String.eqb_eq in E. subst. exact Hx.
  - intros H. exists s. split; [exact H|apply String.eqb_refl].
Qed.

(** Under the unique index, selecting by the registration ids of the
    stale holds selects the stale holds. *)
Lemma stale_ids_select_stale now cs :
  NoDup (map SpecialCourse.registrationId cs) ->
  forall r, In r cs ->
    inStrings (SpecialCourse.registrationId r)
      (map SpecialCourse.registrationId (filter (stalePending now) cs))
    = stalePending now r.
Proof.
  intros N r Hin.
  destruct (stalePending now r) eqn:E.
  - apply inStrings_In. apply in_map. apply filter_In. split; assumption.
  - destruct (inStrings _ _) eqn:I; [|reflexivity].
    apply inStrings_In in I. apply in_map_iff in I.
    destruct I as (x & Ex & Hx). apply filter_In in Hx. destruct Hx as [Hx Sx].
    rewrite (NoDup_map_same SpecialCourse.registrationId cs x r N Hx Hin Ex)
      in Sx. rewrite Sx in E. discriminate.
Qed.

Lemma filter_ext_In {A} (p q : A -> bool) (l : list A) :
  (forall x, In x l -> p x = q x) -> filter p l = filter q l.
Proof.
  induction l as [|x l IH]; simpl; intros H; [reflexivity|].
  rewrite (H x (or_introl eq_refl)), IH; [reflexivity|].
  intros y Hy. apply H. right. exact Hy.
Qed.

Lemma filter_all {A} (p : A -> bool) (l : list A) :
  (forall x, In x l -> p x = true) -> filter p l = l.
Proof.
  induction l as [|x l IH]; simpl; intros H; [reflexivity|].
  rewrite (H x (or_introl eq_refl)), IH; [reflexivity|].
  intros y Hy. apply H. right. exact Hy.
Qed.

Lemma filter_negb_none {A} (p : A -> bool) (l : list A) :
  filter p l = [] -> filter (fun x => negb (p x)) l = l.
Proof.
  intros H. apply filter_all. intros x Hx.
  destruct (p x) eqn:E; [|reflexivity].
  assert (Hin : In x (filter p l)) by (apply filter_In; split; assumption).
  rewrite H in Hin. contradiction.
Qed.

(** X2.  In a reachable store the sweep deletes exactly the
    [pending_payment]/[pending] reservations created more than 10 minutes
    ago, in place and leaving the others untouched; [deletedCount] is their
    number; and the payment log loses exactly the records that carry the
    registration id of a deleted reservation. *)
Theorem sweep_deletes_exactly_the_stale_holds (rt : Runtime) (t now : Z)
    (st : Store) :
  reachableAt rt t st ->
  let result := fst (cleanupExpiredRegistrations now st) in
  let st' := snd (cleanupExpiredRegistrations now st) in
  let stale := filter (stalePending now) (courses st) in
  courses st' = filter (fun r => negb (stalePending now r)) (courses st) /\
  deletedCount result = Z.of_nat (List.length stale) /\
  coursePayments st' =
    filter (fun p => negb (paymentOfAny (map SpecialCourse.registrationId stale) p))
      (coursePayments st) /\
  filter (stalePending now) (courses st') = [].
Proof.
  intros R result st' stale.
  pose proof (reachableAt_wellFormed rt t st R) as [_ Nreg _ _].
  assert (C : deleteMany
                (fun r => inStrings (SpecialCourse.registrationId r)
                            (map SpecialCourse.registrationId stale))
                (courses st)
              = filter (fun r => negb (stalePending now r)) (courses st)).
  { unfold deleteMany. apply filter_ext_In. intros r Hin. unfold stale.
    rewrite (stale_ids_select_stale now (courses st) Nreg r Hin). reflexivity. }
  assert (E : filter (stalePending now)
                (filter (fun r => negb (stalePending now r)) (courses st)) = [])
    by apply (filter_deleteMany_same (stalePending now)).
  unfold result, st', cleanupExpiredRegistrations.
  unfold stale in *. clear stale.
  destruct (filter (stalePending now) (courses st)) as [|x l] eqn:Es.
  - cbn [fst snd deletedCount courses coursePayments map List.length].
    rewrite (filter_negb_none (stalePending now) (courses st) Es).
    split; [reflexivity|]. split; [reflexivity|].
    split; [|exact Es].
    symmetry. apply filter_all. intros p _. unfold paymentOfAny.
    destruct (SpecialCoursePayment.registrationId p); reflexivity.
  - cbn [fst snd deletedCount courses coursePayments].
    rewrite C. split; [reflexivity|]. split; [|split; [reflexivity|exact E]].
    pose proof (filter_partition_length (stalePending now) (courses st)) as P.
    rewrite Es in P. lia.
Qed.

Lemma sweep_deletes_exactly_the_stale_holds_witness :
  map SpecialCourse.registrationId
    (courses (snd (cleanupExpiredRegistrations (sampleNow + 11 * 60 * 1000)
                     authorizedStore))) = [] /\
  deletedCount (fst (cleanupExpiredRegistrations (sampleNow + 11 * 60 * 1000)
                       authorizedStore)) = 1 /\
  coursePayments (snd (cleanupExpiredRegistrations (sampleNow + 11 * 60 * 1000)
                         authorizedStore)) = [].
Proof.
  destruct (sweep_deletes_exactly_the_stale_holds sampleRuntime
              (sampleNow + 2000) (sampleNow + 11 * 60 * 1000) authorizedStore
              authorizedStore_reachable) as (Hc & Hd & Hp & _).
  split; [|split].
  - rewrite Hc. vm_compute. reflexivity.
  - rewrite Hd. vm_compute. reflexivity.
  - rewrite Hp. vm_compute. reflexivity.
Defined.

(* ------------------------------------------------------------------ *)
(** *** Reservations that no longer await payment *)

(** The operations of the controller other than the creation of an order;
    the webhook events are the remaining ones. *)
Definition leavesSettledAlone (op : Operation) : bool :=
  match op with
  | CreateOrder _ _ | WebhookEvent _ => false
  | _ => true
  end.

Lemma In_deleteMany_keep {A} (q : A -> bool) (l : list A) (x : A) :
  In x l -> q x = false -> In x (deleteMany q l).
Proof.
  intros Hin Hq. unfold deleteMany. apply filter_In. split; [exact Hin|].
  rewrite Hq. reflexivity.
Qed.

Lemma In_deleteOne_other {A} (q : A -> bool) (l : list A) (x y : A) :
  find q l = Some y -> In x l -> x <> y -> In x (deleteOne q l).
Proof.
  induction l as [|z l IH]; simpl; [discriminate|].
  destruct (q z) eqn:E.
  - intros F [Hz|Hin] N; [|exact Hin]. inversion F; subst. contradiction.
  - intros F [Hz|Hin] N; [left; exact Hz|right; apply IH; assumption].
Qed.

Section SettledReservations.

Context (rt : Runtime).

Lemma settled_survives_slot_query now carnival batch date st r :
  In r (courses st) ->
  SpecialCourse.status r <> Status.pending_payment ->
  In r (courses (snd (checkSlotAvailability rt now carnival batch date st))).
Proof.
  intros Hin Hs. rewrite checkSlotAvailability_courses.
  destruct (parseDateForQuery rt date) as [qd|]; [|exact Hin].
  apply In_deleteMany_keep; [exact Hin|].
  unfold oldPendingQuery, isPending.
  destruct (Status.eqb (SpecialCourse.status r) Status.pending_payment) eqn:E.
  - apply Status_eqb_eq in E. contradiction.
  - cbn [andb]. rewrite andb_false_r. reflexivity.
Qed.

Lemma settled_survives_slot_queries now qs st r :
  In r (courses st) ->
  SpecialCourse.status r <> Status.pending_payment ->
  In r (courses (slotQueries rt now qs st)).
Proof.
  revert st. induction qs as [|[[carnival batch] date] qs IH]; intros st Hin Hs;
    simpl; [exact Hin|].
  apply IH; [|exact Hs]. apply settled_survives_slot_query; assumption.
Qed.

Lemma settled_differs_from_pending (r x : SpecialCourse.doc) :
  SpecialCourse.status r <> Status.pending_payment ->
  SpecialCourse.status x = Status.pending_payment -> r <> x.
Proof. intros Hr Hx E. subst. contradiction. Qed.

Lemma settled_survives_register now b st r :
  In r (courses st) ->
  SpecialCourse.status r <> Status.pending_payment ->
  In r (courses (snd (register rt now b st))).
Proof.
  intros Hin Hs. unfold register.
  destruct (negb (Validation.isValid _)); [exact Hin|].
  destruct (Validation.falsy (RegisterBody.carnivalName b)); [exact Hin|].
  destruct (Validation.validateDate now _ _) as [date ds|e]; [|exact Hin].
  destruct (negb (Validation.validateBatch _)); [exact Hin|].
  assert (A : In r (courses (snd (registerAfterDuplicateCheck rt now
                (Validation.valueOf (RegisterBody.carnivalName b)) date b st)))).
  { unfold registerAfterDuplicateCheck.
    pose proof (settled_survives_slot_query now
                  (Validation.valueOf (RegisterBody.carnivalName b))
                  (Validation.valueOf (RegisterBody.selectedBatch b))
                  (DateString (Validation.valueOf (RegisterBody.selectedDate b)))
                  st r Hin Hs) as K.
    destruct (checkSlotAvailability rt now _ _ _ st) as [slot st1].
    cbn [snd] in K.
    destruct (isFull slot); [exact K|].
    destruct (saveNewDocument now _ (courses st1)) as [[created cs]|e] eqn:E;
      [|exact K].
    unfold saveNewDocument in E.
    destruct (negb _) in E; [discriminate|].
    destruct (existsb _ _) in E; [discriminate|].
    inversion E; subst. cbn [snd courses withCourses].
    apply in_or_app. left. exact K. }
  destruct (checkDuplicateRegistration rt _ _ _ _ _ st); try exact Hin;
    exact A.
Qed.

Lemma settled_survives_verifyPayment now out b st r :
  NoDup (map SpecialCourse._id (courses st)) ->
  In r (courses st) ->
  SpecialCourse.status r <> Status.pending_payment ->
  In r (courses (snd (verifyPayment rt now out b st))).
Proof.
  intros N Hin Hs. unfold verifyPayment.
  destruct (_ || _); [exact Hin|].
  destruct (find _ (courses st)) as [registration|] eqn:F; [|exact Hin].
  destruct (PaymentStatus.eqb _ _); [exact Hin|].
  destruct (Status.eqb (SpecialCourse.status registration)
              Status.pending_payment) eqn:Es; cbn [negb]; [|exact Hin].
  apply Status_eqb_eq in Es.
  pose proof (settled_differs_from_pending r registration Hs Es) as Hne.
  destruct (_ <? deleteThresholdAt now).
  { cbn [snd]. unfold deleteWithPayments. cbn [courses withCourses withPayments].
    apply (In_deleteOne_other _ _ r registration F Hin Hne). }
  pose proof (settled_survives_slot_query now
                (SpecialCourse.carnivalName registration)
                (SpecialCourse.selectedBatch registration)
                (DateObject (SpecialCourse.selectedDate registration))
                st r Hin Hs) as K.
  destruct (checkSlotAvailability rt now _ _ _ st) as [slot st1].
  cbn [snd] in K.
  destruct (isFull slot); [exact K|].
  destruct (checkPaymentSignature rt b); try exact K.
  destruct (saveDocument now _ (courses st1)) as [cs'|e] eqn:E; [|exact K].
  apply (saveDocument_ok now registration) in E; [|reflexivity].
  assert (H' : In r cs').
  { rewrite E. apply in_map_iff. exists r. split; [|exact K].
    destruct (hasId (SpecialCourse._id registration) r) eqn:Eid; [|reflexivity].
    exfalso. apply Hne.
    apply (NoDup_map_same SpecialCourse._id (courses st)); try assumption.
    - apply (find_some _ _ F).
    - unfold hasId in Eid. apply Z.eqb_eq in Eid. exact Eid. }
  destruct (createPayment _ _); exact H'.
Qed.

Lemma agedOut_pending now x :
  agedOut now x = true -> SpecialCourse.status x = Status.pending_payment.
Proof.
  unfold agedOut. intros H. apply andb_prop in H. destruct H as [H _].
  apply Status_eqb_eq. exact H.
Qed.

(** X3.  In a reachable store, a reservation that no longer awaits payment
    (registered, cancelled, expired) is neither deleted nor modified by the
    slot queries, a registration, a payment verification, the two lookups,
    the sweep or the manual expiry. *)
Theorem settled_reservations_are_kept (t now : Z) (op : Operation)
    (st : Store) (r : SpecialCourse.doc) :
  reachableAt rt t st ->
  leavesSettledAlone op = true ->
  In r (courses st) ->
  SpecialCourse.status r <> Status.pending_payment ->
  In r (courses (step rt now op st)).
Proof.
  intros R Hop Hin Hs.
  pose proof (reachableAt_wellFormed rt t st R) as [Nid Nreg _ _].
  destruct op; cbn [leavesSettledAlone] in Hop; try discriminate;
    cbn [step].
  - apply settled_survives_slot_queries; assumption.
  - apply settled_survives_register; assumption.
  - apply settled_survives_verifyPayment; assumption.
  - unfold getRegistration.
    destruct (find _ (courses st)) as [x|] eqn:F; [|exact Hin].
    destruct (agedOut now x) eqn:A; [|exact Hin].
    cbn [snd courses withCourses].
    apply (In_deleteOne_other _ _ r x F Hin).
    apply settled_differs_from_pending; [exact Hs|].
    apply (agedOut_pending now x A).
  - unfold checkRegistrationStatus.
    destruct (Validation.falsy registrationId); [exact Hin|].
    destruct (find _ (courses st)) as [x|] eqn:F; [|exact Hin].
    destruct (agedOut now x) eqn:A.
    { cbn [snd courses withCourses].
      apply (In_deleteOne_other _ _ r x F Hin).
      apply settled_differs_from_pending; [exact Hs|].
      apply (agedOut_pending now x A). }
    destruct (Status.eqb _ _); [|exact Hin].
    pose proof (settled_survives_slot_query now (SpecialCourse.carnivalName x)
                  (SpecialCourse.selectedBatch x)
                  (DateObject (SpecialCourse.selectedDate x)) st r Hin Hs) as K.
    destruct (checkSlotAvailability rt now _ _ _ st) as [slot st1]. exact K.
  - unfold cleanupExpiredRegistrations.
    destruct (filter (stalePending now) (courses st)) as [|y l] eqn:E;
      [exact Hin|].
    cbn [snd courses]. apply In_deleteMany_keep; [exact Hin|].
    rewrite <- E. rewrite (stale_ids_select_stale now (courses st) Nreg r Hin).
    unfold stalePending, isPending.
    destruct (Status.eqb (SpecialCourse.status r) Status.pending_payment) eqn:Es;
      [|reflexivity].
    apply Status_eqb_eq in Es. contradiction.
  - unfold expireRegistration.
    destruct registrationId as [id|]; [|exact Hin].
    destruct (find _ (courses st)) as [x|] eqn:F; [|exact Hin].
    destruct (Status.eqb (SpecialCourse.status x) Status.pending_payment) eqn:Es;
      [|exact Hin].
    cbn [snd]. unfold deleteWithPayments. cbn [courses withCourses withPayments].
    apply (In_deleteOne_other _ _ r x F Hin).
    apply settled_differs_from_pending; [exact Hs|].
    apply Status_eqb_eq. exact Es.
Qed.

End SettledReservations.

Lemma paidStore_reachable :
  reachableAt sampleRuntime (sampleNow + 3000) paidStore.
Proof.
  unfold paidStore.
  apply reach_step with (t := sampleNow + 1000); [|vm_compute; discriminate].
  apply orderedStore_reachable.
Qed.

Lemma settled_reservations_are_kept_witness :
  exists r,
    find (hasRegistrationId "LS-RD26-00001") (courses paidStore) = Some r /\
    In r (courses (step sampleRuntime (sampleNow + 30 * 60 * 1000) Sweep
                     paidStore)).
Proof.
  assert (F : { r | find (hasRegistrationId "LS-RD26-00001")
                      (courses paidStore) = Some r }).
  { eexists. vm_compute. reflexivity. }
  destruct F as [r F]. exists r. split; [exact F|].
  assert (Hs : SpecialCourse.status r <> Status.pending_payment).
  { assert (E : option_map SpecialCourse.status (Some r)
                = Some Status.registered)
      by (rewrite <- F; vm_compute; reflexivity).
    inversion E as [E']. rewrite E'. discriminate. }
  apply (settled_reservations_are_kept sampleRuntime (sampleNow + 3000)
           (sampleNow + 30 * 60 * 1000) Sweep paidStore r
           paidStore_reachable eq_refl (proj1 (find_some _ _ F)) Hs).
Defined.

(* ------------------------------------------------------------------ *)
(** *** What a confirmation through the client path presupposes *)

Lemma optionStringEqb_eq a b : optionStringEqb a b = true -> a = b.
Proof.
  destruct a, b; simpl; intros H; try discriminate; [|reflexivity].
  apply String.eqb_eq in H. subst. reflexivity.
Qed.

Lemma checkPaymentSignature_valid rt b :
  checkPaymentSignature rt b = SignatureValid ->
  VerifyBody.razorpay_signature b = Some "direct_payment" \/
  exists secret,
    RAZORPAY_KEY_SECRET rt = Some secret /\
    VerifyBody.razorpay_signature b =
      Some (hmacSha256Hex rt secret
              (jsToString (VerifyBody.razorpay_order_id b) ++ "|" ++
               jsToString (VerifyBody.razorpay_payment_id b))).
Proof.
  unfold checkPaymentSignature.
  destruct (optionStringEqb (VerifyBody.razorpay_signature b)
              (Some "direct_payment")) eqn:E.
  - intros _. left. apply optionStringEqb_eq. exact E.
  - destruct (RAZORPAY_KEY_SECRET rt) as [secret|]; [|discriminate].
    destruct (optionStringEqb (Some _) _) eqn:E2; [|discriminate].
    intros _. right. exists secret. split; [reflexivity|].
    symmetry. apply optionStringEqb_eq. exact E2.
Qed.

(** X4.  [verifyPayment] confirms a payment only for a reservation it
    finds under the code, that is not paid yet, awaits payment, is at most
    10 minutes old and whose slot the re-check does not report full, and
    only when the signature is the keyed hash of "order|payment" under the
    key secret, or is the literal [direct_payment], which skips the
    verification. *)
Theorem verifyPayment_confirms_only_when (rt : Runtime) (now : Z)
    (out : Outside) (b : VerifyBody.t) (st : Store) (id : string)
    (sent : bool) (slot : SlotInfo) :
  fst (verifyPayment rt now out b st) = VerifyConfirmed id sent slot ->
  exists registration,
    find (hasRegistrationId id) (courses st) = Some registration /\
    VerifyBody.registrationId b = Some id /\
    SpecialCourse.payment_status registration <> PaymentStatus.paid /\
    SpecialCourse.status registration = Status.pending_payment /\
    now - 10 * 60 * 1000 <= SpecialCourse.createdAt registration /\
    isFull slot = false /\
    (VerifyBody.razorpay_signature b = Some "direct_payment" \/
     exists secret,
       RAZORPAY_KEY_SECRET rt = Some secret /\
       VerifyBody.razorpay_signature b =
         Some (hmacSha256Hex rt secret
                 (jsToString (VerifyBody.razorpay_order_id b) ++ "|" ++
                  jsToString (VerifyBody.razorpay_payment_id b)))).
Proof.
  unfold verifyPayment.
  destruct (Validation.falsy (VerifyBody.razorpay_payment_id b));
    [discriminate|].
  destruct (Validation.falsy (VerifyBody.registrationId b)) eqn:Hr;
    [discriminate|]. cbn [orb].
  destruct (falsy_false_some _ Hr) as (rid & Er & _ & Vr). rewrite Vr.
  destruct (find _ (courses st)) as [registration|] eqn:F; [|discriminate].
  destruct (PaymentStatus.eqb _ PaymentStatus.paid) eqn:Ep; [discriminate|].
  destruct (Status.eqb _ Status.pending_payment) eqn:Es; cbn [negb];
    [|discriminate].
  destruct (_ <? deleteThresholdAt now) eqn:Ea; [discriminate|].
  destruct (checkSlotAvailability rt now _ _ _ st) as [slotInfo st1].
  destruct (isFull slotInfo) eqn:Ef; [discriminate|].
  destruct (checkPaymentSignature rt b) eqn:Sig; try discriminate.
  destruct (saveDocument now _ (courses st1)); [|discriminate].
  cbn [fst]. intros H. inversion H; subst.
  exists registration.
  split; [exact F|]. split; [exact Er|].
  split; [intros Hp; rewrite Hp in Ep; discriminate|].
  split; [apply Status_eqb_eq; exact Es|].
  split; [apply Z.ltb_ge in Ea; exact Ea|].
  split; [exact Ef|]. apply checkPaymentSignature_valid. exact Sig.
Qed.

Lemma verifyPayment_confirms_only_when_witness :
  exists registration,
    find (hasRegistrationId "LS-RD26-00001") (courses orderedStore)
      = Some registration /\
    SpecialCourse.status registration = Status.pending_payment /\
    sampleNow + 3000 - 10 * 60 * 1000 <= SpecialCourse.createdAt registration.
Proof.
  assert (R : { slot |
    fst (verifyPayment sampleRuntime (sampleNow + 3000) quietOutside verifyA
           orderedStore) = VerifyConfirmed "LS-RD26-00001" true slot }).
  { eexists. vm_compute. reflexivity. }
  destruct R as [slot R].
  destruct (verifyPayment_confirms_only_when sampleRuntime (sampleNow + 3000)
              quietOutside verifyA orderedStore "LS-RD26-00001" true slot R)
    as (registration & F & _ & _ & Hs & Ha & _).
  exists registration. split; [exact F|]. split; [exact Hs|exact Ha].
Defined.

(* ------------------------------------------------------------------ *)
(** *** The slot re-check at payment time *)

(** Nineteen paid reservations of the sample slot. *)
Definition nineteenPaidStore : Store :=
  {| courses :=
       map (fun i => sampleReservation (Z.of_nat i)
                       ("LS-RD26-" ++ JsString.padStart0 5
                                        (JsString.ofNumber (Z.of_nat i)))
                       "Meera" Status.registered PaymentStatus.paid None
                       (sampleNow - 86400000))
           (seq 1 19);
     coursePayments := [] |}.

(** The twentieth place of the slot, taken by a new hold. *)
Definition twentiethHoldStore : Store :=
  snd (register sampleRuntime sampleNow plainBody nineteenPaidStore).

Definition verifyTwentieth : VerifyBody.t :=
  {| VerifyBody.razorpay_payment_id := Some "pay_T";
     VerifyBody.razorpay_order_id := Some "order_T";
     VerifyBody.razorpay_signature := Some "keysec:order_T|pay_T";
     VerifyBody.registrationId := Some "LS-RD26-00020";
     VerifyBody.paymentMethod := None |}.

(** X5.  The slot re-check of [verifyPayment] counts the hold that is
    being paid among the active holds of its slot.  So when the confirmed
    reservations and the active holds of the slot, this hold included,
    number 20 or more (on a date other than the online one), the payment
    is refused with "slot no longer available" and the hold stays as it
    is: the hold that took the twentieth place cannot be paid through the
    client path. *)
Theorem verifyPayment_counts_the_paying_hold (rt : Runtime) (now : Z)
    (out : Outside) (b : VerifyBody.t) (st : Store) (id : string)
    (r : SpecialCourse.doc) :
  Validation.falsy (VerifyBody.razorpay_payment_id b) = false ->
  VerifyBody.registrationId b = Some id ->
  id <> "" ->
  find (hasRegistrationId id) (courses st) = Some r ->
  SpecialCourse.status r = Status.pending_payment ->
  SpecialCourse.payment_status r = PaymentStatus.pending ->
  now - 10 * 60 * 1000 <= SpecialCourse.createdAt r ->
  JsDate.isoDate (SpecialCourse.selectedDate r) <> "2026-01-25" ->
  20 <= confirmedCount (SpecialCourse.carnivalName r)
          (SpecialCourse.selectedBatch r) (SpecialCourse.selectedDate r) st +
        activeHoldCount now (SpecialCourse.carnivalName r)
          (SpecialCourse.selectedBatch r) (SpecialCourse.selectedDate r) st ->
  (exists slot,
     fst (verifyPayment rt now out b st) = VerifySlotFull slot /\
     availableSlots slot = 0) /\
  In r (filter (activePendingQuery (SpecialCourse.carnivalName r)
                  (SpecialCourse.selectedBatch r) (SpecialCourse.selectedDate r)
                  (deleteThresholdAt now)) (courses st)) /\
  In r (courses (snd (verifyPayment rt now out b st))).
Proof.
  intros Hp Hb Hid F Hs Hpay Hage Hoff Hocc.
  assert (Hname : String.eqb id "" = false) by (apply String.eqb_neq; exact Hid).
  assert (Hyoung : (SpecialCourse.createdAt r <? deleteThresholdAt now) = false).
  { apply Z.ltb_ge. unfold deleteThresholdAt, DELETE_PENDING_AFTER_MINUTES.
    exact Hage. }
  destruct (find_some _ _ F) as [Hin _].
  pose proof (checkSlotAvailability_snapshot rt now
                (SpecialCourse.carnivalName r) (SpecialCourse.selectedBatch r)
                (DateObject (SpecialCourse.selectedDate r))
                (SpecialCourse.selectedDate r) st eq_refl) as Snap.
  cbv zeta in Snap. destruct Snap as (_ & Havail & Hfull & _ & _).
  apply String.eqb_neq in Hoff. rewrite Hoff in Havail, Hfull.
  cbn [negb andb] in Havail, Hfull.
  assert (Hzero : Z.max 0 (BATCH_CAPACITY -
            (confirmedCount (SpecialCourse.carnivalName r)
               (SpecialCourse.selectedBatch r) (SpecialCourse.selectedDate r) st +
             activeHoldCount now (SpecialCourse.carnivalName r)
               (SpecialCourse.selectedBatch r) (SpecialCourse.selectedDate r) st))
          = 0) by (unfold BATCH_CAPACITY; lia).
  rewrite Hzero in Havail, Hfull. cbn [Z.eqb] in Hfull.
  assert (Hkept : In r (courses (snd (checkSlotAvailability rt now
                    (SpecialCourse.carnivalName r) (SpecialCourse.selectedBatch r)
                    (DateObject (SpecialCourse.selectedDate r)) st)))).
  { rewrite checkSlotAvailability_courses. cbn [parseDateForQuery].
    apply In_deleteMany_keep; [exact Hin|].
    unfold oldPendingQuery. rewrite Hyoung, andb_false_r. reflexivity. }
  unfold verifyPayment. rewrite Hp, Hb. cbn [orb Validation.falsy Validation.valueOf].
  rewrite Hname, F, Hpay, Hs. cbn [PaymentStatus.eqb Status.eqb negb].
  rewrite Hyoung.
  destruct (checkSlotAvailability rt now _ _ _ st) as [slot st1].
  cbn [fst snd] in *. rewrite Hfull. cbn [fst snd].
  split; [exists slot; split; [reflexivity|exact Havail]|].
  split; [|exact Hkept].
  apply filter_In. split; [exact Hin|].
  unfold activePendingQuery, inScope, isPending.
  rewrite !String.eqb_refl, Z.eqb_refl, Hs, Hpay. cbn [Status.eqb PaymentStatus.eqb andb].
  apply Z.leb_le. apply Z.ltb_ge in Hyoung. exact Hyoung.
Qed.

Lemma verifyPayment_counts_the_paying_hold_witness :
  registerStatus (fst (register sampleRuntime sampleNow plainBody
                         nineteenPaidStore)) = Some 201 /\
  exists slot,
    fst (verifyPayment sampleRuntime (sampleNow + 60000) quietOutside
           verifyTwentieth twentiethHoldStore) = VerifySlotFull slot /\
    availableSlots slot = 0.
Proof.
  split; [vm_compute; reflexivity|].
  assert (F : { r | find (hasRegistrationId "LS-RD26-00020")
                      (courses twentiethHoldStore) = Some r }).
  { eexists. vm_compute. reflexivity. }
  destruct F as [r F].
  assert (E : option_map
                (fun r => (SpecialCourse.status r, SpecialCourse.payment_status r,
                           SpecialCourse.createdAt r, SpecialCourse.selectedDate r,
                           SpecialCourse.carnivalName r,
                           SpecialCourse.selectedBatch r)) (Some r)
              = Some (Status.pending_payment, PaymentStatus.pending, sampleNow,
                      offlineDay, "Republic Day Carnival", sampleBatch)).
  { rewrite <- F. vm_compute. reflexivity. }
  cbn [option_map] in E. injection E as Hs Hp Hc Hd Hn Hb.
  refine (proj1 (verifyPayment_counts_the_paying_hold sampleRuntime
                   (sampleNow + 60000) quietOutside verifyTwentieth
                   twentiethHoldStore "LS-RD26-00020" r eq_refl eq_refl _ F Hs Hp
                   _ _ _)).
  - discriminate.
  - rewrite Hc. vm_compute. discriminate.
  - rewrite Hd. vm_compute. discriminate.
  - rewrite Hd, Hn, Hb. vm_compute. discriminate.
Defined.

(* ------------------------------------------------------------------ *)
(** *** What a successful registration leaves behind *)

Lemma Sub_removed {A} (q : A -> bool) (l : list A) (x : A) :
  In x l -> In x (deleteMany q l) \/ q x = true.
Proof.
  intros Hin. destruct (q x) eqn:E; [right; reflexivity|].
  left. apply In_deleteMany_keep; assumption.
Qed.

Lemma oldPending_stale carnival batch qd now r :
  oldPendingQuery carnival batch qd (deleteThresholdAt now) r = true ->
  stalePending now r = true.
Proof.
  unfold oldPendingQuery, stalePending.
  destruct (inScope carnival batch qd r); [|discriminate].
  cbn [andb]. intros H. exact H.
Qed.

Lemma checkSlotAvailability_removes_stale rt now carnival batch date st r :
  In r (courses st) ->
  In r (courses (snd (checkSlotAvailability rt now carnival batch date st))) \/
  stalePending now r = true.
Proof.
  intros Hin. rewrite checkSlotAvailability_courses.
  destruct (parseDateForQuery rt date) as [qd|]; [|left; exact Hin].
  destruct (Sub_removed (oldPendingQuery carnival batch qd
                           (deleteThresholdAt now)) _ _ Hin) as [K|K].
  - left. exact K.
  - right. apply (oldPending_stale carnival batch qd). exact K.
Qed.

Lemma validateDate_valid now d ds date s :
  Validation.validateDate now d ds = Validation.DateValid date s ->
  s = Validation.valueOf d /\
  Validation.falsy d = false /\
  (forall today, JsDate.utcMidnight now = Some today -> today <= date).
Proof.
  unfold Validation.validateDate.
  destruct (Validation.falsy d); [discriminate|].
  destruct (JsDate.UTC _ _ _) as [x|]; [|discriminate].
  destruct (negb _); [discriminate|].
  destruct (JsDate.utcMidnight now) as [t|].
  - destruct (x <? t) eqn:L; [discriminate|].
    intros H. inversion H; subst. split; [reflexivity|].
    split; [reflexivity|].
    intros today E. inversion E; subst. apply Z.ltb_ge in L. exact L.
  - intros H. inversion H; subst. split; [reflexivity|].
    split; [reflexivity|]. intros today E. discriminate.
Qed.

(** X6.  When [register] answers 201, the slot check has not reported the
    slot full and the store holds what it held, less some holds that were
    pending for more than 10 minutes, plus exactly one new reservation at
    the end: a hold with [status=pending_payment], [payment_status=pending],
    no payment data, [createdAt = now], [payment_expires_at = now + 15
    minutes], the validated date (not before today's UTC midnight), the
    trimmed names of the request, the lower-cased trimmed email, and a
    registration id and an [_id] that no kept reservation has.  The payment
    log is unchanged. *)
Theorem register_created_hold (rt : Runtime) (now : Z) (b : RegisterBody.t)
    (st : Store) (created : SpecialCourse.doc) (slot : SlotInfo) :
  fst (register rt now b st) = RegCreated created slot ->
  (exists kept,
     courses (snd (register rt now b st)) = (kept ++ [created])%list /\
     Sub (courses st) kept /\
     (forall r, In r (courses st) -> In r kept \/ stalePending now r = true) /\
     (forall r, In r kept ->
        SpecialCourse.registrationId r <> SpecialCourse.registrationId created /\
        SpecialCourse._id r <> SpecialCourse._id created)) /\
  coursePayments (snd (register rt now b st)) = coursePayments st /\
  isFull slot = false /\
  SpecialCourse.status created = Status.pending_payment /\
  SpecialCourse.payment_status created = PaymentStatus.pending /\
  SpecialCourse.payment created = SpecialCourse.noPayment /\
  SpecialCourse.createdAt created = now /\
  SpecialCourse.payment_expires_at created = Some (now + 15 * 60 * 1000) /\
  Validation.validateDate now (RegisterBody.selectedDate b)
    (RegisterBody.availableDates b)
  = Validation.DateValid (SpecialCourse.selectedDate created)
      (Validation.valueOf (RegisterBody.selectedDate b)) /\
  (forall today, JsDate.utcMidnight now = Some today ->
     today <= SpecialCourse.selectedDate created) /\
  SpecialCourse.carnivalName created
  = JsString.trim (Validation.valueOf (RegisterBody.carnivalName b)) /\
  SpecialCourse.selectedBatch created
  = JsString.trim (Validation.valueOf (RegisterBody.selectedBatch b)) /\
  SpecialCourse.childName created
  = JsString.trim (Validation.valueOf (RegisterBody.childName b)) /\
  SpecialCourse.parentName created
  = JsString.trim (Validation.valueOf (RegisterBody.parentName b)) /\
  SpecialCourse.phone created
  = JsString.trim (Validation.valueOf (RegisterBody.phone b)) /\
  SpecialCourse.email created
  = JsString.trim (JsString.toLowerCase
                     (Validation.valueOf (RegisterBody.email b))).
Proof.
  unfold register.
  destruct (negb (Validation.isValid _)); [discriminate|].
  destruct (Validation.falsy (RegisterBody.carnivalName b)); [discriminate|].
  destruct (Validation.validateDate now _ _) as [date ds|e] eqn:Ed;
    [|discriminate].
  destruct (validateDate_valid _ _ _ _ _ Ed) as (Hds & _ & Htoday).
  destruct (negb (Validation.validateBatch _)); [discriminate|].
  assert (K : fst (registerAfterDuplicateCheck rt now
                     (Validation.valueOf (RegisterBody.carnivalName b))
                     date b st) = RegCreated created slot ->
              let st' := snd (registerAfterDuplicateCheck rt now
                     (Validation.valueOf (RegisterBody.carnivalName b))
                     date b st) in
              (exists kept,
                 courses st' = (kept ++ [created])%list /\
                 Sub (courses st) kept /\
                 (forall r, In r (courses st) ->
                    In r kept \/ stalePending now r = true) /\
                 (forall r, In r kept ->
                    SpecialCourse.registrationId r
                      <> SpecialCourse.registrationId created /\
                    SpecialCourse._id r <> SpecialCourse._id created)) /\
              coursePayments st' = coursePayments st /\
              isFull slot = false /\
              created = withId (SpecialCourse._id created)
                (castNew (newRegistration now
                            (SpecialCourse.registrationId created)
                            (Validation.valueOf (RegisterBody.carnivalName b))
                            date b))).
  { unfold registerAfterDuplicateCheck.
    pose proof (Sub_checkSlotAvailability rt now
                  (Validation.valueOf (RegisterBody.carnivalName b))
                  (Validation.valueOf (RegisterBody.selectedBatch b))
                  (DateString (Validation.valueOf (RegisterBody.selectedDate b)))
                  st) as S.
    pose proof (checkSlotAvailability_payments rt now
                  (Validation.valueOf (RegisterBody.carnivalName b))
                  (Validation.valueOf (RegisterBody.selectedBatch b))
                  (DateString (Validation.valueOf (RegisterBody.selectedDate b)))
                  st) as P.
    pose proof (fun r => checkSlotAvailability_removes_stale rt now
                  (Validation.valueOf (RegisterBody.carnivalName b))
                  (Validation.valueOf (RegisterBody.selectedBatch b))
                  (DateString (Validation.valueOf (RegisterBody.selectedDate b)))
                  st r) as R.
    destruct (checkSlotAvailability rt now _ _ _ st) as [slot1 st1].
    cbn [snd] in S, P, R.
    destruct (isFull slot1) eqn:Ef; [discriminate|].
    set (r0 := newRegistration now (generateRegistrationId st1)
                 (Validation.valueOf (RegisterBody.carnivalName b)) date b).
    unfold saveNewDocument.
    destruct (negb _); [discriminate|].
    rewrite withId_registrationId, preSave_registrationId.
    destruct (existsb _ (courses st1)) eqn:Edup; [discriminate|].
    cbn [fst snd]. intros H. inversion H; subst created slot1. clear H.
    rewrite (preSave_new_hold now (castNew r0)) by reflexivity.
    cbv zeta. cbn [courses coursePayments withCourses].
    split; [|split; [exact P|split; [exact Ef|reflexivity]]].
    exists (courses st1). split; [reflexivity|]. split; [exact S|].
    split; [exact R|]. intros r Hin. split.
    - intros E. rewrite withId_registrationId in E.
      assert (T : existsb (hasRegistrationId
                    (SpecialCourse.registrationId (castNew r0)))
                    (courses st1) = true).
      { apply existsb_exists. exists r. split; [exact Hin|].
        unfold hasRegistrationId. rewrite E. apply String.eqb_refl. }
      rewrite T in Edup. discriminate.
    - pose proof (freshId_above (courses st1) r Hin) as L.
      cbn [SpecialCourse._id withId]. lia. }
  intros H.
  assert (F : fst (registerAfterDuplicateCheck rt now
                     (Validation.valueOf (RegisterBody.carnivalName b))
                     date b st) = RegCreated created slot /\
              snd (match checkDuplicateRegistration rt
                  (Validation.valueOf (RegisterBody.carnivalName b))
                  (Validation.valueOf (RegisterBody.email b))
                  (Validation.valueOf (RegisterBody.phone b))
                  (Validation.valueOf (RegisterBody.childName b))
                  (Validation.valueOf (RegisterBody.selectedDate b)) st with
          | DupOutside => (RegOutside, st)
          | DupFound existing =>
              (RegDuplicate (SpecialCourse.registrationId existing)
                            (SpecialCourse.selectedBatch existing), st)
          | DupNone | DupError _ =>
              registerAfterDuplicateCheck rt now
                (Validation.valueOf (RegisterBody.carnivalName b)) date b st
          end) = snd (registerAfterDuplicateCheck rt now
                     (Validation.valueOf (RegisterBody.carnivalName b))
                     date b st)).
  { destruct (checkDuplicateRegistration rt _ _ _ _ _ st);
      try discriminate; split; try exact H; reflexivity. }
  destruct F as [F1 F2]. rewrite F2.
  destruct (K F1) as (Hkept & Hpay & Hfull & Hc).
  split; [exact Hkept|]. split; [exact Hpay|]. split; [exact Hfull|].
  rewrite Hds. rewrite Hc.
  cbn [withId castNew newRegistration SpecialCourse.status
       SpecialCourse.payment_status SpecialCourse.payment
       SpecialCourse.createdAt SpecialCourse.payment_expires_at
       SpecialCourse.selectedDate SpecialCourse.carnivalName
       SpecialCourse.selectedBatch SpecialCourse.childName
       SpecialCourse.parentName SpecialCourse.phone SpecialCourse.email].
  unfold Validation.sanitized, Validation.sanitizedEmail.
  rewrite !trim_trim.
  rewrite !toLowerCase_trim, !toLowerCase_toLowerCase, !trim_trim.
  repeat split; try reflexivity. exact Htoday.
Qed.

(** The sample request as a form would send it, with stray white space
    and capitals. *)
Definition untidyBody : RegisterBody.t :=
  {| RegisterBody.carnivalName := Some "Republic Day Carnival";
     RegisterBody.parentName := Some "  Asha Rao ";
     RegisterBody.email := Some " Asha@Example.COM";
     RegisterBody.phone := Some "98765 43210 ";
     RegisterBody.childName := Some " Kabir  ";
     RegisterBody.childAge := Some "7";
     RegisterBody.selectedDate := Some "2026-01-26";
     RegisterBody.selectedBatch := Some sampleBatch;
     RegisterBody.availableDates := Some ["2026-01-25"; "2026-01-26"];
     RegisterBody.materialType := true |}.

Lemma register_created_hold_witness :
  exists created slot,
    fst (register sampleRuntime sampleNow untidyBody nineteenPaidStore)
      = RegCreated created slot /\
    SpecialCourse.email created = "asha@example.com" /\
    SpecialCourse.childName created = "Kabir" /\
    SpecialCourse.phone created = "98765 43210" /\
    SpecialCourse.payment_expires_at created = Some (sampleNow + 900000) /\
    isFull slot = false.
Proof.
  assert (R : { created : SpecialCourse.doc & { slot : SlotInfo |
    fst (register sampleRuntime sampleNow untidyBody nineteenPaidStore)
      = RegCreated created slot } }).
  { eexists. eexists. vm_compute. reflexivity. }
  destruct R as [created [slot R]].
  destruct (register_created_hold sampleRuntime sampleNow untidyBody
              nineteenPaidStore created slot R)
    as (_ & _ & Hfull & _ & _ & _ & _ & Hexp & _ & _ & _ & _ & Hchild & _ &
        Hphone & Hemail).
  exists created, slot. split; [exact R|].
  split; [rewrite Hemail; vm_compute; reflexivity|].
  split; [rewrite Hchild; vm_compute; reflexivity|].
  split; [rewrite Hphone; vm_compute; reflexivity|].
  split; [exact Hexp|exact Hfull].
Defined.

(* ------------------------------------------------------------------ *)
(** *** A date the slot check cannot parse *)

Lemma saveNewDocument_appends now r cs created cs' :
  saveNewDocument now r cs = SaveOk (created, cs') ->
  cs' = (cs ++ [created])%list.
Proof.
  unfold saveNewDocument.
  destruct (negb _); [discriminate|].
  destruct (existsb _ cs); [discriminate|].
  intros H. inversion H; subst. reflexivity.
Qed.


Lemma checkDuplicateRegistration_unparsed rt carnival email phone child date
    st existing :
  parseDateForQuery rt (DateString date) = None ->
  checkDuplicateRegistration rt carnival email phone child date st
    <> DupFound existing.
Proof.
  intros E. unfold checkDuplicateRegistration. rewrite E.
  destruct (JsRegExp.compile _); discriminate.
Qed.

(** X7.  [validateDate] reads the first three parts of the date and
    [parseDateForQuery] insists on exactly three, so a date can be accepted
    by the first and be unparseable for the second.  For such a request
    both guards of [register] fail open: the duplicate check and the slot
    check end in their [catch] branches, the request is never answered 409
    nor "batch full", no reservation is removed, and when a hold is created
    the snapshot returned with it is the error snapshot (20 places
    available, none taken), however many reservations the slot holds. *)
Theorem register_unparsed_date_skips_the_guards (rt : Runtime) (now : Z)
    (b : RegisterBody.t) (st : Store) :
  parseDateForQuery rt
    (DateString (Validation.valueOf (RegisterBody.selectedDate b))) = None ->
  (forall slot, fst (register rt now b st) <> RegBatchFull slot) /\
  (forall existing batch,
     fst (register rt now b st) <> RegDuplicate existing batch) /\
  (forall r, In r (courses st) -> In r (courses (snd (register rt now b st)))) /\
  (forall created slot,
     fst (register rt now b st) = RegCreated created slot ->
     slotStatus slot = slotError /\ isFull slot = false /\
     availableSlots slot = 20 /\ registeredCount slot = 0 /\
     courses (snd (register rt now b st)) = (courses st ++ [created])%list).
Proof.
  intros E.
  assert (A : forall carnival date,
            exists resp,
              registerAfterDuplicateCheck rt now carnival date b st
              = (resp,
                 match resp with
                 | RegCreated created _ =>
                     withCourses (courses st ++ [created])%list st
                 | _ => st
                 end) /\
              match resp with
              | RegCreated _ slot =>
                  slot = slotErrorInfo carnival
                           (Validation.valueOf (RegisterBody.selectedBatch b))
                           "Invalid time value"
              | RegFailed _ => True
              | _ => False
              end).
  { intros carnival date. unfold registerAfterDuplicateCheck,
      checkSlotAvailability. rewrite E. cbn [isFull slotErrorInfo].
    destruct (saveNewDocument now _ (courses st)) as [[created cs]|e] eqn:Es.
    - apply saveNewDocument_appends in Es. subst cs.
      eexists (RegCreated created _). split; reflexivity.
    - exists (RegFailed e). split; [reflexivity|exact I]. }
  unfold register.
  destruct (negb (Validation.isValid _));
    [cbn [fst snd]; repeat split; try discriminate; auto|].
  destruct (Validation.falsy (RegisterBody.carnivalName b));
    [cbn [fst snd]; repeat split; try discriminate; auto|].
  destruct (Validation.validateDate now _ _) as [date ds|e];
    [|cbn [fst snd]; repeat split; try discriminate; auto].
  destruct (negb (Validation.validateBatch _));
    [cbn [fst snd]; repeat split; try discriminate; auto|].
  destruct (A (Validation.valueOf (RegisterBody.carnivalName b)) date)
    as (resp & Er & Hr).
  pose proof (fun existing =>
    checkDuplicateRegistration_unparsed rt
      (Validation.valueOf (RegisterBody.carnivalName b))
      (Validation.valueOf (RegisterBody.email b))
      (Validation.valueOf (RegisterBody.phone b))
      (Validation.valueOf (RegisterBody.childName b))
      (Validation.valueOf (RegisterBody.selectedDate b)) st existing E) as D.
  destruct (checkDuplicateRegistration rt _ _ _ _ _ st) as [x| |e|].
  - exfalso. apply (D x). reflexivity.
  - rewrite Er. cbn [fst snd].
    destruct resp; try contradiction; repeat split; try discriminate; auto.
    + intros r Hin. cbn [courses withCourses]. apply in_or_app. left. exact Hin.
    + inversion H; subst; reflexivity.
    + inversion H; subst; reflexivity.
    + inversion H; subst; reflexivity.
    + inversion H; subst; reflexivity.
    + inversion H; subst; reflexivity.
  - rewrite Er. cbn [fst snd].
    destruct resp; try contradiction; repeat split; try discriminate; auto.
    + intros r Hin. cbn [courses withCourses]. apply in_or_app. left. exact Hin.
    + inversion H; subst; reflexivity.
    + inversion H; subst; reflexivity.
    + inversion H; subst; reflexivity.
    + inversion H; subst; reflexivity.
    + inversion H; subst; reflexivity.
  - cbn [fst snd]; repeat split; try discriminate; auto.
Qed.

(** The sample request with a fourth part after the date. *)
Definition oddDateBody : RegisterBody.t :=
  {| RegisterBody.carnivalName := Some "Republic Day Carnival";
     RegisterBody.parentName := Some "Asha Rao";
     RegisterBody.email := Some "asha@example.com";
     RegisterBody.phone := Some "9876543210";
     RegisterBody.childName := Some "Kabir";
     RegisterBody.childAge := Some "7";
     RegisterBody.selectedDate := Some "2026-01-26-x";
     RegisterBody.selectedBatch := Some sampleBatch;
     RegisterBody.availableDates := None;
     RegisterBody.materialType := false |}.

Lemma register_unparsed_date_witness :
  registerStatus (fst (register sampleRuntime sampleNow plainBody
                         fullSlotStore)) = Some 400 /\
  exists created slot,
    fst (register sampleRuntime sampleNow oddDateBody fullSlotStore)
      = RegCreated created slot /\
    SpecialCourse.selectedDate created = offlineDay /\
    availableSlots slot = 20.
Proof.
  split; [vm_compute; reflexivity|].
  assert (R : { created : SpecialCourse.doc & { slot : SlotInfo |
    fst (register sampleRuntime sampleNow oddDateBody fullSlotStore)
      = RegCreated created slot /\
    SpecialCourse.selectedDate created = offlineDay } }).
  { eexists. eexists. vm_compute. split; reflexivity. }
  destruct R as [created [slot [R D]]].
  exists created, slot. split; [exact R|]. split; [exact D|].
  apply (proj2 (proj2 (proj2
           (register_unparsed_date_skips_the_guards sampleRuntime sampleNow
              oddDateBody fullSlotStore eq_refl))) created slot R).
Defined.

(* ------------------------------------------------------------------ *)
(** *** Several slots in one request *)

(** The figures of a snapshot a client acts on. *)
Definition occupancy (info : SlotInfo) : Z * Z * bool * SlotStatus * Z :=
  (registeredCount info, availableSlots info, isFull info, slotStatus info,
   capacity info).

Lemma deleteMany_deleteMany {A} (p q : A -> bool) (l : list A) :
  deleteMany q (deleteMany p l) = deleteMany (fun x => p x || q x) l.
Proof.
  unfold deleteMany. induction l as [|x l IH]; cbn [filter]; [reflexivity|].
  destruct (p x) eqn:Ep; cbn [negb orb].
  - exact IH.
  - cbn [filter]. destruct (q x); cbn [negb]; rewrite IH; reflexivity.
Qed.

Lemma deleteMany_none {A} (l : list A) : deleteMany (fun _ => false) l = l.
Proof.
  unfold deleteMany. induction l as [|x l IH]; [reflexivity|].
  cbn [filter negb]. f_equal. exact IH.
Qed.

Lemma deleteMany_ext {A} (p q : A -> bool) (l : list A) :
  (forall x, p x = q x) -> deleteMany p l = deleteMany q l.
Proof.
  intros E. unfold deleteMany. apply filter_ext_all. intros x.
  rewrite E. reflexivity.
Qed.

Lemma paid_not_stale carnival batch qd now r :
  paidQuery carnival batch qd r = true -> stalePending now r = false.
Proof.
  unfold paidQuery, stalePending, isPending,
    SpecialCourse.isRegistrationComplete.
  destruct (inScope carnival batch qd r); cbn [andb]; [|discriminate].
  destruct (SpecialCourse.status r); cbn [Status.eqb andb];
    try discriminate; reflexivity.
Qed.

Lemma active_not_stale carnival batch qd now r :
  activePendingQuery carnival batch qd (deleteThresholdAt now) r = true ->
  stalePending now r = false.
Proof.
  unfold activePendingQuery, stalePending.
  destruct (inScope carnival batch qd r); cbn [andb]; [|discriminate].
  destruct (isPending r); cbn [andb]; [|discriminate].
  intros H. apply Z.leb_le in H. apply Z.ltb_ge. exact H.
Qed.

Section MultipleSlots.

Context (rt : Runtime).

(** [checkMultipleSlotsAvailability] *)
Fixpoint checkMultipleSlotsAvailability (now : Z) (carnival : string)
    (selectedDate : DateInput) (batchList : list string) (st : Store)
  : list SlotInfo * Store :=
  match batchList with
  | [] => ([], st)
  | batch :: rest =>
      let '(slotInfo, st1) :=
        checkSlotAvailability rt now carnival batch selectedDate st in
      let '(availability, st2) :=
        checkMultipleSlotsAvailability now carnival selectedDate rest st1 in
      (slotInfo :: availability, st2)
  end.

(** The figures of a snapshot are those of the paid reservations and the
    active holds, which no lazy sweep at the same instant removes. *)
Lemma occupancy_after_sweeps now carnival batch date del st st0 :
  courses st = deleteMany del (courses st0) ->
  (forall r, del r = true -> stalePending now r = true) ->
  occupancy (fst (checkSlotAvailability rt now carnival batch date st))
  = occupancy (fst (checkSlotAvailability rt now carnival batch date st0)).
Proof.
  intros C D. unfold checkSlotAvailability.
  destruct (parseDateForQuery rt date) as [qd|]; [|reflexivity].
  pose proof (deleteOldPending_courses carnival batch qd
                (deleteThresholdAt now) st) as C1.
  pose proof (deleteOldPending_courses carnival batch qd
                (deleteThresholdAt now) st0) as C0.
  destruct (deleteOldPending carnival batch qd (deleteThresholdAt now) st)
    as [n1 st1].
  destruct (deleteOldPending carnival batch qd (deleteThresholdAt now) st0)
    as [n0 st0'].
  cbn [snd] in C1, C0. cbn [fst]. unfold occupancy.
  cbn [registeredCount availableSlots isFull slotStatus capacity].
  rewrite C1, C0, C.
  rewrite !(count_after_deleteMany _ _ _
              (paid_not_oldPending carnival batch qd (deleteThresholdAt now))).
  rewrite !(count_after_deleteMany _ _ _
              (active_not_oldPending carnival batch qd (deleteThresholdAt now))).
  assert (P : countDocuments (paidQuery carnival batch qd)
                (deleteMany del (courses st0))
              = countDocuments (paidQuery carnival batch qd) (courses st0)).
  { apply count_after_deleteMany. intros r Hr.
    destruct (del r) eqn:E; [|reflexivity].
    pose proof (D r E) as S.
    rewrite (paid_not_stale carnival batch qd now r Hr) in S.
    discriminate. }
  assert (A : countDocuments
                (activePendingQuery carnival batch qd (deleteThresholdAt now))
                (deleteMany del (courses st0))
              = countDocuments
                  (activePendingQuery carnival batch qd (deleteThresholdAt now))
                  (courses st0)).
  { apply count_after_deleteMany. intros r Hr.
    destruct (del r) eqn:E; [|reflexivity].
    pose proof (D r E) as S.
    rewrite (active_not_stale carnival batch qd now r Hr) in S.
    discriminate. }
  rewrite P, A. reflexivity.
Qed.

(** What the lazy sweeps of a request for several batches delete. *)
Definition sweptBy (now : Z) (carnival : string) (date : DateInput)
    (batchList : list string) (r : SpecialCourse.doc) : bool :=
  match parseDateForQuery rt date with
  | Some qd =>
      existsb (fun batch =>
                 oldPendingQuery carnival batch qd (deleteThresholdAt now) r)
              batchList
  | None => false
  end.

Lemma sweptBy_stale now carnival date batchList r :
  sweptBy now carnival date batchList r = true -> stalePending now r = true.
Proof.
  unfold sweptBy. destruct (parseDateForQuery rt date) as [qd|];
    [|discriminate].
  intros H. apply existsb_exists in H. destruct H as (batch & _ & H).
  apply (oldPending_stale carnival batch qd). exact H.
Qed.

Lemma checkMultipleSlotsAvailability_courses now carnival date batchList st :
  courses (snd (checkMultipleSlotsAvailability now carnival date batchList st))
  = deleteMany (sweptBy now carnival date batchList) (courses st).
Proof.
  revert st. induction batchList as [|batch rest IH]; intros st.
  - cbn [checkMultipleSlotsAvailability snd]. unfold sweptBy.
    destruct (parseDateForQuery rt date); cbn [existsb];
      symmetry; apply deleteMany_none.
  - cbn [checkMultipleSlotsAvailability].
    pose proof (checkSlotAvailability_courses rt now carnival batch date st)
      as C.
    destruct (checkSlotAvailability rt now carnival batch date st)
      as [info st1]. cbn [snd] in C.
    specialize (IH st1).
    destruct (checkMultipleSlotsAvailability now carnival date rest st1)
      as [infos st2]. cbn [snd] in *.
    rewrite IH, C. unfold sweptBy.
    destruct (parseDateForQuery rt date) as [qd|].
    + rewrite deleteMany_deleteMany. apply deleteMany_ext. intros r.
      reflexivity.
    + reflexivity.
Qed.

Lemma checkMultipleSlotsAvailability_payments now carnival date batchList st :
  coursePayments
    (snd (checkMultipleSlotsAvailability now carnival date batchList st))
  = coursePayments st.
Proof.
  revert st. induction batchList as [|batch rest IH]; intros st;
    [reflexivity|].
  cbn [checkMultipleSlotsAvailability].
  pose proof (checkSlotAvailability_payments rt now carnival batch date st)
    as P.
  destruct (checkSlotAvailability rt now carnival batch date st)
    as [info st1]. cbn [snd] in P.
  specialize (IH st1).
  destruct (checkMultipleSlotsAvailability now carnival date rest st1)
    as [infos st2]. cbn [snd] in *.
  rewrite IH. exact P.
Qed.

Lemma checkMultipleSlotsAvailability_occupancy now carnival date batchList
    del st st0 :
  courses st = deleteMany del (courses st0) ->
  (forall r, del r = true -> stalePending now r = true) ->
  map occupancy
    (fst (checkMultipleSlotsAvailability now carnival date batchList st))
  = map (fun batch =>
           occupancy (fst (checkSlotAvailability rt now carnival batch date
                             st0)))
        batchList.
Proof.
  revert del st. induction batchList as [|batch rest IH]; intros del st C D;
    [reflexivity|].
  cbn [checkMultipleSlotsAvailability map].
  pose proof (occupancy_after_sweeps now carnival batch date del st st0 C D)
    as O.
  pose proof (checkSlotAvailability_courses rt now carnival batch date st)
    as C1.
  destruct (checkSlotAvailability rt now carnival batch date st)
    as [info st1]. cbn [fst snd] in O, C1.
  assert (K : exists del1,
            courses st1 = deleteMany del1 (courses st0) /\
            forall r, del1 r = true -> stalePending now r = true).
  { destruct (parseDateForQuery rt date) as [qd|].
    - exists (fun r => del r ||
                oldPendingQuery carnival batch qd (deleteThresholdAt now) r).
      split; [rewrite C1, C; apply deleteMany_deleteMany|].
      intros r H. apply orb_prop in H. destruct H as [H|H];
        [apply D; exact H|apply (oldPending_stale carnival batch qd); exact H].
    - exists del. split; [rewrite C1; exact C|exact D]. }
  destruct K as (del1 & K1 & K2).
  specialize (IH del1 st1 K1 K2).
  destruct (checkMultipleSlotsAvailability now carnival date rest st1)
    as [infos st2]. cbn [fst map] in *.
  rewrite O, IH. reflexivity.
Qed.

End MultipleSlots.

(** X8.  In a request for several batches every snapshot carries the
    figures (taken places, available places, [isFull], status, capacity)
    that a single query for that batch on the store before the request
    returns: the lazy sweeps of the batches queried earlier do not alter
    them.  Repeating the request at the same instant returns the same
    figures and changes nothing more, and the payment log is never
    touched. *)
Theorem checkMultipleSlots_figures (rt : Runtime) (now : Z)
    (carnival : string) (date : DateInput) (batchList : list string)
    (st : Store) :
  let run := checkMultipleSlotsAvailability rt now carnival date batchList st in
  let again :=
    checkMultipleSlotsAvailability rt now carnival date batchList (snd run) in
  map occupancy (fst run)
  = map (fun batch =>
           occupancy (fst (checkSlotAvailability rt now carnival batch date st)))
        batchList /\
  map occupancy (fst again) = map occupancy (fst run) /\
  snd again = snd run /\
  coursePayments (snd run) = coursePayments st.
Proof.
  intros run again.
  assert (F : map occupancy (fst run)
              = map (fun batch =>
                       occupancy (fst (checkSlotAvailability rt now carnival
                                         batch date st)))
                    batchList).
  { apply (checkMultipleSlotsAvailability_occupancy rt now carnival date
             batchList (fun _ => false)).
    - symmetry. apply deleteMany_none.
    - intros r H. discriminate. }
  split; [exact F|]. split; [|split].
  - rewrite F.
    apply (checkMultipleSlotsAvailability_occupancy rt now carnival date
             batchList (sweptBy rt now carnival date batchList)).
    + apply checkMultipleSlotsAvailability_courses.
    + apply sweptBy_stale.
  - apply store_eq.
    + unfold again.
      rewrite (checkMultipleSlotsAvailability_courses rt now carnival date
                 batchList (snd run)).
      unfold run.
      rewrite (checkMultipleSlotsAvailability_courses rt now carnival date
                 batchList st).
      rewrite deleteMany_deleteMany. apply deleteMany_ext. intros r.
      apply orb_diag.
    + unfold again.
      rewrite (checkMultipleSlotsAvailability_payments rt now carnival date
                 batchList (snd run)). reflexivity.
  - apply checkMultipleSlotsAvailability_payments.
Qed.

(* ------------------------------------------------------------------ *)
(** *** The status check and the verification that follows it *)

Lemma fresh_not_oldPending carnival batch qd now r :
  deleteThresholdAt now <= SpecialCourse.createdAt r ->
  negb (oldPendingQuery carnival batch qd (deleteThresholdAt now) r) = true.
Proof.
  intros H. unfold oldPendingQuery.
  destruct (inScope carnival batch qd r && isPending r); [|reflexivity].
  cbn [andb]. apply negb_true_iff. apply Z.ltb_ge. exact H.
Qed.

Lemma fresh_survives_slot_query rt now carnival batch date st r :
  deleteThresholdAt now <= SpecialCourse.createdAt r ->
  In r (courses st) ->
  In r (courses (snd (checkSlotAvailability rt now carnival batch date st))).
Proof.
  intros H Hin. rewrite checkSlotAvailability_courses.
  destruct (parseDateForQuery rt date) as [qd|]; [|exact Hin].
  apply filter_In. split; [exact Hin|]. apply fresh_not_oldPending. exact H.
Qed.

Lemma fresh_found_after_slot_query rt now carnival batch date st id r :
  deleteThresholdAt now <= SpecialCourse.createdAt r ->
  find (hasRegistrationId id) (courses st) = Some r ->
  find (hasRegistrationId id)
    (courses (snd (checkSlotAvailability rt now carnival batch date st)))
  = Some r.
Proof.
  intros H F. rewrite checkSlotAvailability_courses.
  destruct (parseDateForQuery rt date) as [qd|]; [|exact F].
  apply find_filter_keep; [exact F|]. apply fresh_not_oldPending. exact H.
Qed.

(** What [verifyPayment] answers for a hold that awaits payment and is at
    most 10 minutes old, when the request is signed correctly: the slot
    re-check alone decides. *)
Lemma verifyPayment_fresh_hold rt now out b st id r :
  Validation.falsy (VerifyBody.razorpay_payment_id b) = false ->
  VerifyBody.registrationId b = Some id ->
  String.eqb id "" = false ->
  find (hasRegistrationId id) (courses st) = Some r ->
  SpecialCourse.status r = Status.pending_payment ->
  SpecialCourse.payment_status r <> PaymentStatus.paid ->
  deleteThresholdAt now <= SpecialCourse.createdAt r ->
  checkPaymentSignature rt b = SignatureValid ->
  fst (verifyPayment rt now out b st)
  = let info :=
      fst (checkSlotAvailability rt now (SpecialCourse.carnivalName r)
             (SpecialCourse.selectedBatch r)
             (DateObject (SpecialCourse.selectedDate r)) st) in
    if isFull info then VerifySlotFull info
    else VerifyConfirmed id (confirmationEmailSent out) info.
Proof.
  intros Hpid Hid Hne F Hs Hp Ha Sig. unfold verifyPayment.
  rewrite Hpid, Hid. cbn [Validation.falsy Validation.valueOf orb].
  rewrite Hne, F.
  destruct (PaymentStatus.eqb (SpecialCourse.payment_status r)
              PaymentStatus.paid) eqn:Ep.
  { apply PaymentStatus_eqb_eq in Ep. contradiction. }
  rewrite Hs. cbn [Status.eqb negb].
  destruct (SpecialCourse.createdAt r <? deleteThresholdAt now) eqn:El.
  { apply Z.ltb_lt in El. lia. }
  pose proof (fresh_survives_slot_query rt now (SpecialCourse.carnivalName r)
                (SpecialCourse.selectedBatch r)
                (DateObject (SpecialCourse.selectedDate r)) st r Ha
                (proj1 (find_some_In _ _ _ F))) as Hin.
  destruct (checkSlotAvailability rt now _ _ _ st) as [info st1].
  cbn [fst snd] in *. cbv zeta.
  destruct (isFull info); [reflexivity|].
  rewrite Sig. unfold saveDocument.
  cbn [confirmedRegistration SpecialCourse.setPaymentConfirmedAt
       SpecialCourse.setPaymentStatus SpecialCourse.setStatus
       SpecialCourse.setPayment SpecialCourse.status SpecialCourse._id
       Status.inEnum negb].
  assert (Ex : existsb (hasId (SpecialCourse._id r)) (courses st1) = true).
  { apply existsb_exists. exists r. split; [exact Hin|].
    unfold hasId. apply Z.eqb_refl. }
  rewrite Ex. reflexivity.
Qed.

(** X9.  [canProceed] of the status check tells the truth about the
    payment step.  When [checkRegistrationStatus] finds the reservation in
    a reachable store, then for every request that names it, carries a
    payment id and is signed correctly, [verifyPayment] run at the same
    instant on the store the status check left confirms the payment if
    [canProceed] was true and does not confirm it if [canProceed] was
    false. *)
Theorem canProceed_agrees_with_verifyPayment (rt : Runtime) (t now : Z)
    (out : Outside) (b : VerifyBody.t) (st : Store) (id : string)
    (r : SpecialCourse.doc) (slot : option SlotInfo) (canProceed : bool) :
  reachableAt rt t st ->
  fst (checkRegistrationStatus rt now (Some id) st)
    = LookupFound r slot canProceed ->
  VerifyBody.registrationId b = Some id ->
  Validation.falsy (VerifyBody.razorpay_payment_id b) = false ->
  checkPaymentSignature rt b = SignatureValid ->
  canProceed = true <->
  exists sent slot',
    fst (verifyPayment rt now out b
           (snd (checkRegistrationStatus rt now (Some id) st)))
    = VerifyConfirmed id sent slot'.
Proof.
  intros R L Hid Hpid Sig.
  pose proof (reachableAt_wellFormed rt t st R) as [_ _ _ Hpend].
  revert L. unfold checkRegistrationStatus.
  cbn [Validation.falsy Validation.valueOf].
  destruct (String.eqb id "") eqn:Hne; [discriminate|].
  destruct (find (hasRegistrationId id) (courses st)) as [r0|] eqn:F;
    [|discriminate].
  unfold agedOut.
  destruct (Status.eqb (SpecialCourse.status r0) Status.pending_payment)
    eqn:Es; cbn [andb].
  - apply Status_eqb_eq in Es.
    destruct (SpecialCourse.createdAt r0 <? deleteThresholdAt now) eqn:El;
      [discriminate|].
    apply Z.ltb_ge in El.
    assert (Hp : SpecialCourse.payment_status r0 <> PaymentStatus.paid).
    { pose proof (proj1 (Forall_forall _ _) Hpend r0
                    (proj1 (find_some_In _ _ _ F)) Es)
        as P. rewrite P. discriminate. }
    pose proof (fresh_found_after_slot_query rt now
                  (SpecialCourse.carnivalName r0)
                  (SpecialCourse.selectedBatch r0)
                  (DateObject (SpecialCourse.selectedDate r0)) st id r0 El F)
      as F1.
    pose proof (occupancy_after_sweeps rt now
                  (SpecialCourse.carnivalName r0)
                  (SpecialCourse.selectedBatch r0)
                  (DateObject (SpecialCourse.selectedDate r0))
                  (sweptBy rt now (SpecialCourse.carnivalName r0)
                     (DateObject (SpecialCourse.selectedDate r0))
                     [SpecialCourse.selectedBatch r0])
                  (snd (checkSlotAvailability rt now
                          (SpecialCourse.carnivalName r0)
                          (SpecialCourse.selectedBatch r0)
                          (DateObject (SpecialCourse.selectedDate r0)) st))
                  st) as O.
    assert (O' : occupancy
                   (fst (checkSlotAvailability rt now
                           (SpecialCourse.carnivalName r0)
                           (SpecialCourse.selectedBatch r0)
                           (DateObject (SpecialCourse.selectedDate r0))
                           (snd (checkSlotAvailability rt now
                                   (SpecialCourse.carnivalName r0)
                                   (SpecialCourse.selectedBatch r0)
                                   (DateObject (SpecialCourse.selectedDate r0))
                                   st))))
                 = occupancy
                     (fst (checkSlotAvailability rt now
                             (SpecialCourse.carnivalName r0)
                             (SpecialCourse.selectedBatch r0)
                             (DateObject (SpecialCourse.selectedDate r0)) st))).
    { apply O.
      - rewrite checkSlotAvailability_courses. unfold sweptBy.
        cbn [parseDateForQuery existsb]. apply deleteMany_ext.
        intros x. rewrite orb_false_r. reflexivity.
      - apply sweptBy_stale. }
    clear O.
    pose proof (verifyPayment_fresh_hold rt now out b
                  (snd (checkSlotAvailability rt now
                          (SpecialCourse.carnivalName r0)
                          (SpecialCourse.selectedBatch r0)
                          (DateObject (SpecialCourse.selectedDate r0)) st))
                  id r0 Hpid Hid Hne F1 Es Hp El Sig) as V.
    cbv zeta in V.
    destruct (checkSlotAvailability rt now (SpecialCourse.carnivalName r0)
                (SpecialCourse.selectedBatch r0)
                (DateObject (SpecialCourse.selectedDate r0)) st)
      as [info st1] eqn:Ec.
    cbn [fst snd] in *.
    intros L. inversion L; subst r slot canProceed. clear L.
    rewrite V.
    assert (Ef : isFull (fst (checkSlotAvailability rt now
                                (SpecialCourse.carnivalName r0)
                                (SpecialCourse.selectedBatch r0)
                                (DateObject (SpecialCourse.selectedDate r0))
                                st1))
                 = isFull info).
    { unfold occupancy in O'. inversion O'. reflexivity. }
    rewrite Ef.
    destruct (deleteThresholdAt now <=? SpecialCourse.createdAt r0) eqn:Eg.
    2: { apply Z.leb_gt in Eg. lia. }
    cbn [andb]. destruct (isFull info); cbn [negb]; split.
    + discriminate.
    + intros (sent & slot' & H). discriminate.
    + intros _. eexists. eexists. reflexivity.
    + reflexivity.
  - cbn [fst snd]. intros L. inversion L; subst r slot canProceed. clear L.
    split; [discriminate|].
    intros (sent & slot' & H). exfalso. revert H. unfold verifyPayment.
    rewrite Hpid, Hid. cbn [Validation.falsy Validation.valueOf orb].
    rewrite Hne, F.
    destruct (PaymentStatus.eqb _ PaymentStatus.paid); [discriminate|].
    rewrite Es. cbn [negb fst]. discriminate.
Qed.

Lemma canProceed_agrees_with_verifyPayment_witness :
  exists sent slot',
    fst (verifyPayment sampleRuntime (sampleNow + 3000) quietOutside verifyA
           (snd (checkRegistrationStatus sampleRuntime (sampleNow + 3000)
                   (Some "LS-RD26-00001") orderedStore)))
    = VerifyConfirmed "LS-RD26-00001" sent slot'.
Proof.
  assert (L : { r : SpecialCourse.doc & { slot : option SlotInfo |
    fst (checkRegistrationStatus sampleRuntime (sampleNow + 3000)
           (Some "LS-RD26-00001") orderedStore) = LookupFound r slot true } }).
  { eexists. eexists. vm_compute. reflexivity. }
  destruct L as [r [slot L]].
  assert (Sig : checkPaymentSignature sampleRuntime verifyA = SignatureValid)
    by (vm_compute; reflexivity).
  apply (proj1 (canProceed_agrees_with_verifyPayment sampleRuntime
                  (sampleNow + 1000) (sampleNow + 3000) quietOutside verifyA
                  orderedStore "LS-RD26-00001" r slot true
                  orderedStore_reachable L eq_refl eq_refl Sig) eq_refl).
Defined.

(* ------------------------------------------------------------------ *)
(** *** What a webhook event can do to the reservations *)

(** Who booked what: the fields of a reservation that identify it and its
    place. *)
Definition booking (r : SpecialCourse.doc)
  : Z * string * string * string * Z * string * string * string * Z :=
  (SpecialCourse._id r, SpecialCourse.registrationId r,
   SpecialCourse.carnivalName r, SpecialCourse.selectedBatch r,
   SpecialCourse.selectedDate r, SpecialCourse.childName r,
   SpecialCourse.email r, SpecialCourse.phone r, SpecialCourse.createdAt r).

Lemma booking_preSave now r : booking (preSave now r) = booking r.
Proof.
  unfold preSave. destruct (SpecialCourse.payment_expires_at r);
    [|reflexivity].
  destruct (_ && _); reflexivity.
Qed.

Lemma booking_id r r' :
  booking r' = booking r -> SpecialCourse._id r' = SpecialCourse._id r.
Proof. unfold booking. intros H. inversion H. reflexivity. Qed.

(** A save of a loaded document changes that document alone, and nothing
    of its booking. *)
Lemma save_in_place now r r' cs cs' :
  NoDup (map SpecialCourse._id cs) -> In r cs ->
  booking r' = booking r ->
  saveDocument now r' cs = SaveOk cs' ->
  map booking cs' = map booking cs /\
  (forall d, In d cs -> In d cs' \/ d = r) /\
  In (preSave now r') cs'.
Proof.
  intros N Hin B E.
  rewrite (saveDocument_ok now r r' cs cs' (booking_id r r' B) E).
  assert (Hsame : forall d, In d cs ->
                    hasId (SpecialCourse._id r) d = true -> d = r).
  { intros d Hd H. apply (NoDup_map_same SpecialCourse._id cs);
      try assumption. unfold hasId in H. apply Z.eqb_eq in H. exact H. }
  split; [|split].
  - rewrite map_map. apply map_ext_in. intros d Hd.
    destruct (hasId (SpecialCourse._id r) d) eqn:H; [|reflexivity].
    rewrite booking_preSave, B, (Hsame d Hd H). reflexivity.
  - intros d Hd. destruct (hasId (SpecialCourse._id r) d) eqn:H.
    + right. apply Hsame; assumption.
    + left. apply in_map_iff. exists d. rewrite H. split; [reflexivity|exact Hd].
  - apply in_map_iff. exists r. split; [|exact Hin].
    unfold hasId. rewrite Z.eqb_refl. reflexivity.
Qed.

Lemma courses_withPayments ps st : courses (withPayments ps st) = courses st.
Proof. reflexivity. Qed.

Ltac save_in_place_step Nid :=
  match goal with
  | |- context [find ?q (courses ?st)] =>
      let F := fresh "F" in
      destruct (find q (courses st)) as [registration|] eqn:F;
      [|split; [reflexivity|intros d Hd; left; exact Hd]];
      match goal with
      | |- context [saveDocument ?now ?r' (courses st)] =>
          let E := fresh "E" in
          destruct (saveDocument now r' (courses st)) as [cs|e] eqn:E;
          [|split; [reflexivity|intros d Hd; left; exact Hd]];
          destruct (save_in_place now registration r' (courses st) cs Nid
                      (proj1 (find_some_In _ _ _ F)) eq_refl E)
            as (M & K & _);
          rewrite ?courses_tryCreatePayment;
          cbn [courses withCourses withPayments];
          split; [exact M|];
          intros d Hd; destruct (K d Hd) as [H|H];
          [left; exact H|right; subst d; reflexivity]
      end
  end.

Lemma handlePaymentAuthorized_in_place now payment st :
  NoDup (map SpecialCourse._id (courses st)) ->
  map booking (courses (handlePaymentAuthorized now payment st))
  = map booking (courses st) /\
  (forall d, In d (courses st) ->
     In d (courses (handlePaymentAuthorized now payment st)) \/
     find (hasOrderId (Webhook.order_id payment)) (courses st) = Some d).
Proof. intros Nid. unfold handlePaymentAuthorized. save_in_place_step Nid. Qed.

Lemma handlePaymentCaptured_in_place now payment st :
  NoDup (map SpecialCourse._id (courses st)) ->
  map booking (courses (handlePaymentCaptured now payment st))
  = map booking (courses st) /\
  (forall d, In d (courses st) ->
     In d (courses (handlePaymentCaptured now payment st)) \/
     find (hasOrderId (Webhook.order_id payment)) (courses st) = Some d).
Proof. intros Nid. unfold handlePaymentCaptured. save_in_place_step Nid. Qed.

Lemma handlePaymentFailed_in_place now payment st :
  NoDup (map SpecialCourse._id (courses st)) ->
  map booking (courses (handlePaymentFailed now payment st))
  = map booking (courses st) /\
  (forall d, In d (courses st) ->
     In d (courses (handlePaymentFailed now payment st)) \/
     find (hasOrderId (Webhook.order_id payment)) (courses st) = Some d).
Proof. intros Nid. unfold handlePaymentFailed. save_in_place_step Nid. Qed.

(** X10.  In a reachable store a webhook request, whatever its event,
    neither adds nor removes a reservation and leaves every booking as it
    is (ids, carnival, batch, date, child, contact, creation time): the
    only reservation it can change is the first one that carries the order
    id of the event. *)
Theorem webhook_updates_in_place (rt : Runtime) (t now : Z)
    (req : Webhook.Request) (st : Store) :
  reachableAt rt t st ->
  map booking (courses (snd (handleWebhook rt now req st)))
  = map booking (courses st) /\
  (forall d, In d (courses st) ->
     In d (courses (snd (handleWebhook rt now req st))) \/
     exists payment,
       Webhook.entity req = Some payment /\
       find (hasOrderId (Webhook.order_id payment)) (courses st) = Some d).
Proof.
  intros R. pose proof (reachableAt_wellFormed rt t st R) as [Nid _ _ _].
  unfold handleWebhook.
  destruct (Validation.falsy (Webhook.signature req));
    [split; [reflexivity|intros d Hd; left; exact Hd]|].
  destruct (negb _); [split; [reflexivity|intros d Hd; left; exact Hd]|].
  destruct (Webhook.entity req) as [payment|];
    [|split; [reflexivity|intros d Hd; left; exact Hd]].
  cbn [snd].
  assert (G : forall st',
            map booking (courses st') = map booking (courses st) /\
            (forall d, In d (courses st) ->
               In d (courses st') \/
               find (hasOrderId (Webhook.order_id payment)) (courses st)
               = Some d) ->
            map booking (courses st') = map booking (courses st) /\
            (forall d, In d (courses st) ->
               In d (courses st') \/
               exists p,
                 Some payment = Some p /\
                 find (hasOrderId (Webhook.order_id p)) (courses st) = Some d)).
  { intros st' [M K]. split; [exact M|]. intros d Hd.
    destruct (K d Hd) as [H|H]; [left; exact H|].
    right. exists payment. split; [reflexivity|exact H]. }
  unfold dispatchEvent.
  destruct (optionStringEqb (Webhook.event req) (Some "payment.authorized"));
    [apply G, handlePaymentAuthorized_in_place, Nid|].
  destruct (optionStringEqb (Webhook.event req) (Some "payment.captured"));
    [apply G, handlePaymentCaptured_in_place, Nid|].
  destruct (optionStringEqb (Webhook.event req) (Some "payment.failed"));
    [apply G, handlePaymentFailed_in_place, Nid|].
  destruct (optionStringEqb (Webhook.event req) (Some "payment.refunded"));
    [rewrite handlePaymentRefunded_no_change|];
    (split; [reflexivity|intros d Hd; left; exact Hd]).
Qed.

Lemma webhook_updates_in_place_witness :
  map SpecialCourse.registrationId
    (courses (snd (handleWebhook sampleRuntime (sampleNow + 2000)
                     (paymentA "payment.captured") orderedStore)))
  = ["LS-RD26-00001"].
Proof.
  pose proof (proj1 (webhook_updates_in_place sampleRuntime (sampleNow + 1000)
                       (sampleNow + 2000) (paymentA "payment.captured")
                       orderedStore orderedStore_reachable)) as M.
  apply (f_equal (map (fun k => snd (fst (fst (fst (fst (fst (fst (fst k)))))))))) in M.
  rewrite !map_map in M. cbn [booking fst snd] in M.
  etransitivity; [exact M|]. vm_compute. reflexivity.
Defined.

Lemma find_unique_In (cs : list SpecialCourse.doc) (x : SpecialCourse.doc) :
  NoDup (map SpecialCourse.registrationId cs) -> In x cs ->
  find (hasRegistrationId (SpecialCourse.registrationId x)) cs = Some x.
Proof.
  induction cs as [|y cs IH]; cbn [map find In]; intros N Hin; [contradiction|].
  inversion N as [|a m Hnot N']; subst.
  destruct Hin as [E|Hin].
  - subst y. unfold hasRegistrationId. rewrite String.eqb_refl. reflexivity.
  - destruct (hasRegistrationId (SpecialCourse.registrationId x) y) eqn:E.
    + exfalso. apply Hnot. unfold hasRegistrationId in E.
      apply String.eqb_eq in E. rewrite E. apply in_map. exact Hin.
    + apply IH; assumption.
Qed.

Lemma registrationIds_of_bookings (cs cs' : list SpecialCourse.doc) :
  map booking cs' = map booking cs ->
  map SpecialCourse.registrationId cs' = map SpecialCourse.registrationId cs.
Proof.
  intros M.
  apply (f_equal (map (fun k => snd (fst (fst (fst (fst (fst (fst (fst k))))))))))
    in M.
  rewrite !map_map in M. exact M.
Qed.

(** X11.  A correctly signed [payment.failed] event reopens whatever
    reservation carries its order id, a registered and paid one included:
    in a reachable store the reservation is saved with
    [status=pending_payment] and [payment_status=pending], which the save
    hook turns into expired/expired when its [payment_expires_at] has
    passed.  Its booking is unchanged, and it no longer counts as a
    completed registration. *)
Theorem failed_event_reopens_reservation (rt : Runtime) (t now : Z)
    (req : Webhook.Request) (payment : Webhook.Entity) (st : Store)
    (r : SpecialCourse.doc) :
  reachableAt rt t st ->
  signatureAccepted rt req = true ->
  Webhook.event req = Some "payment.failed" ->
  Webhook.entity req = Some payment ->
  find (hasOrderId (Webhook.order_id payment)) (courses st) = Some r ->
  exists r',
    find (hasRegistrationId (SpecialCourse.registrationId r))
      (courses (snd (handleWebhook rt now req st))) = Some r' /\
    booking r' = booking r /\
    SpecialCourse.isRegistrationComplete r' = false /\
    ((SpecialCourse.status r' = Status.pending_payment /\
      SpecialCourse.payment_status r' = PaymentStatus.pending) \/
     (SpecialCourse.status r' = Status.expired /\
      SpecialCourse.payment_status r' = PaymentStatus.expired /\
      exists e, SpecialCourse.payment_expires_at r = Some e /\ e < now)).
Proof.
  intros R Sig Ev En F.
  pose proof (reachableAt_wellFormed rt t st R) as [Nid Nreg _ _].
  unfold signatureAccepted in Sig. apply andb_prop in Sig.
  destruct Sig as [S1 S2]. apply negb_true_iff in S1.
  unfold handleWebhook. rewrite S1, S2, En. cbn [negb snd].
  unfold dispatchEvent. rewrite Ev.
  change (optionStringEqb (Some "payment.failed") (Some "payment.authorized"))
    with false.
  change (optionStringEqb (Some "payment.failed") (Some "payment.captured"))
    with false.
  change (optionStringEqb (Some "payment.failed") (Some "payment.failed"))
    with true.
  cbv iota. unfold handlePaymentFailed. rewrite F.
  set (r1 := SpecialCourse.setStatus Status.pending_payment
               (SpecialCourse.setPaymentStatus PaymentStatus.pending r)).
  pose proof (proj1 (find_some_In _ _ _ F)) as Hin.
  destruct (saveDocument now r1 (courses st)) as [cs|e] eqn:E.
  - destruct (save_in_place now r r1 (courses st) cs Nid Hin eq_refl E)
      as (M & _ & Hnew).
    rewrite courses_tryCreatePayment. cbn [courses withCourses].
    exists (preSave now r1).
    assert (N : NoDup (map SpecialCourse.registrationId cs)).
    { rewrite (registrationIds_of_bookings _ _ M). exact Nreg. }
    pose proof (find_unique_In cs (preSave now r1) N Hnew) as Fn.
    rewrite preSave_registrationId in Fn.
    split; [exact Fn|]. split; [rewrite booking_preSave; reflexivity|].
    destruct (preSave_status_cases now r1) as [Eq|(Hs & Hp & _ & He)].
    + rewrite Eq. split; [reflexivity|]. left. split; reflexivity.
    + split.
      * unfold SpecialCourse.isRegistrationComplete. rewrite Hs. reflexivity.
      * right. split; [exact Hs|]. split; [exact Hp|exact He].
  - exfalso. revert E. unfold saveDocument.
    cbn [r1 SpecialCourse.setStatus SpecialCourse.status Status.inEnum negb
         SpecialCourse._id SpecialCourse.setPaymentStatus].
    assert (Ex : existsb (hasId (SpecialCourse._id r)) (courses st) = true).
    { apply existsb_exists. exists r. split; [exact Hin|].
      unfold hasId. apply Z.eqb_refl. }
    unfold r1. cbn [SpecialCourse.setStatus SpecialCourse.status Status.inEnum
                    negb SpecialCourse._id SpecialCourse.setPaymentStatus].
    rewrite Ex. discriminate.
Qed.

(** The paid reservation of the sample, and the gateway's late report of
    a failed attempt on the same order. *)
Lemma failed_event_reopens_reservation_witness :
  exists r',
    find (hasRegistrationId "LS-RD26-00001")
      (courses (snd (handleWebhook sampleRuntime (sampleNow + 4000)
                       (paymentA "payment.failed") paidStore))) = Some r' /\
    SpecialCourse.isRegistrationComplete r' = false.
Proof.
  assert (F : { r | find (hasOrderId (Some "order_A")) (courses paidStore)
                    = Some r /\
                    SpecialCourse.registrationId r = "LS-RD26-00001" /\
                    SpecialCourse.isRegistrationComplete r = true }).
  { eexists. vm_compute. repeat split; reflexivity. }
  destruct F as [r (F & Hid & _)].
  destruct (failed_event_reopens_reservation sampleRuntime (sampleNow + 3000)
              (sampleNow + 4000) (paymentA "payment.failed")
              {| Webhook.id := "pay_A"; Webhook.order_id := Some "order_A";
                 Webhook.amount := 29900; Webhook.method := Some "upi" |}
              paidStore r paidStore_reachable eq_refl eq_refl eq_refl F)
    as (r' & Fn & _ & Hc & _).
  exists r'. rewrite Hid in Fn. split; [exact Fn|exact Hc].
Defined.

(* ------------------------------------------------------------------ *)
(** *** The expiry methods of the schema *)

(** [SpecialCourseSchema.methods.isExpired], called at [now]. *)
Definition isExpired (now : Z) (r : SpecialCourse.doc) : bool :=
  if Status.eqb (SpecialCourse.status r) Status.expired then true
  else if Status.eqb (SpecialCourse.status r) Status.pending_payment then
    match SpecialCourse.payment_expires_at r with
    | Some expires => expires <? now
    | None => false
    end
  else false.

(** [SpecialCourseSchema.methods.getTimeLeft], called at [now]: the
    minutes left, rounded up. *)
Definition getTimeLeft (now : Z) (r : SpecialCourse.doc) : Z :=
  if negb (Status.eqb (SpecialCourse.status r) Status.pending_payment) then 0
  else
    match SpecialCourse.payment_expires_at r with
    | None => 0
    | Some expires =>
        let diffMs := expires - now in
        if diffMs <=? 0 then 0
        else (diffMs + (1000 * 60 - 1)) / (1000 * 60)
    end.

(** X12.  The two expiry methods of the schema agree with the save hook
    and with each other: [isExpired] holds exactly when a save at the same
    instant leaves the reservation flagged as expired; [getTimeLeft] is
    never negative, is 0 whenever [isExpired] holds, and for a hold that
    awaits payment it is 0 exactly from [payment_expires_at] on and
    otherwise the remaining time rounded up to whole minutes. *)
Theorem schema_expiry_methods (now : Z) (r : SpecialCourse.doc) :
  (isExpired now r = true <->
   SpecialCourse.status (preSave now r) = Status.expired) /\
  0 <= getTimeLeft now r /\
  (isExpired now r = true -> getTimeLeft now r = 0) /\
  (forall expires,
     SpecialCourse.status r = Status.pending_payment ->
     SpecialCourse.payment_expires_at r = Some expires ->
     (getTimeLeft now r = 0 <-> expires <= now) /\
     (now < expires ->
      60000 * (getTimeLeft now r - 1) < expires - now
      <= 60000 * getTimeLeft now r)).
Proof.
  split; [|split; [|split]].
  - rewrite preSave_flags. unfold isExpired.
    destruct (Status.eqb (SpecialCourse.status r) Status.expired) eqn:Ee.
    + apply Status_eqb_eq in Ee. split; [intros _; left; exact Ee|reflexivity].
    + destruct (Status.eqb (SpecialCourse.status r) Status.pending_payment)
        eqn:Ep.
      * apply Status_eqb_eq in Ep.
        destruct (SpecialCourse.payment_expires_at r) as [e|].
        -- split.
           ++ intros H. right. split; [exact Ep|]. exists e.
              split; [reflexivity|]. apply Z.ltb_lt. exact H.
           ++ intros [H|(_ & e' & He & Hl)].
              ** rewrite H in Ep. discriminate.
              ** inversion He; subst. apply Z.ltb_lt. exact Hl.
        -- split; [discriminate|].
           intros [H|(_ & e' & He & _)]; [|discriminate].
           rewrite H in Ep. discriminate.
      * split; [discriminate|].
        intros [H|(H & _)].
        -- rewrite H in Ee. discriminate.
        -- rewrite H in Ep. discriminate.
  - unfold getTimeLeft.
    destruct (negb _); [lia|].
    destruct (SpecialCourse.payment_expires_at r) as [e|]; [|lia].
    cbv zeta. destruct (e - now <=? 0) eqn:E; [lia|].
    apply Z.leb_gt in E. apply Z.div_pos; lia.
  - unfold isExpired, getTimeLeft.
    destruct (Status.eqb (SpecialCourse.status r) Status.expired) eqn:Ee.
    + apply Status_eqb_eq in Ee. rewrite Ee. reflexivity.
    + destruct (Status.eqb (SpecialCourse.status r) Status.pending_payment);
        [|reflexivity].
      cbn [negb].
      destruct (SpecialCourse.payment_expires_at r) as [e|]; [|reflexivity].
      intros H. apply Z.ltb_lt in H. cbv zeta.
      destruct (e - now <=? 0) eqn:E; [reflexivity|].
      apply Z.leb_gt in E. lia.
  - intros e Hs He. unfold getTimeLeft. rewrite Hs, He.
    cbn [Status.eqb negb]. cbv zeta.
    destruct (e - now <=? 0) eqn:E.
    + apply Z.leb_le in E. split; [split; intros; [lia|reflexivity]|lia].
    + apply Z.leb_gt in E.
      pose proof (Z.div_mod (e - now + (1000 * 60 - 1)) (1000 * 60)
                    ltac:(lia)) as D.
      pose proof (Z.mod_pos_bound (e - now + (1000 * 60 - 1)) (1000 * 60)
                    ltac:(lia)) as B.
      split; [split; intros H; lia|intros _; lia].
Qed.

(* ------------------------------------------------------------------ *)
(** *** The duplicate guard on ordinary names *)

(** A character that stands for itself in a pattern. *)
Definition plainChar (c : ascii) : bool :=
  negb (JsRegExp.outsideFragment c) && negb (JsRegExp.isQuantifier c) &&
  negb (existsb (Ascii.eqb c)
          ["|"%char; ")"%char; "^"%char; "$"%char; "("%char; "."%char]).

(** The sequence a run of plain characters is parsed into. *)
Definition litSeq (acc : JsRegExp.re) (l : list ascii) : JsRegExp.re :=
  fold_left (fun a c => JsRegExp.Seq a (JsRegExp.Chr c)) l acc.

(** Equality of two texts, character by character, under the [i] flag or
    not. *)
Fixpoint sameChars (ignoreCase : bool) (p s : list ascii) : bool :=
  match p, s with
  | [], [] => true
  | c :: p', x :: s' =>
      if JsRegExp.sameChar ignoreCase c x then sameChars ignoreCase p' s'
      else false
  | _, _ => false
  end.

Fixpoint contChars (ignoreCase : bool) (l : list ascii)
    (k : bool -> list ascii -> bool) : bool -> list ascii -> bool :=
  match l with
  | [] => k
  | c :: l' =>
      fun _ s =>
        match s with
        | x :: s' =>
            if JsRegExp.sameChar ignoreCase c x
            then contChars ignoreCase l' k false s' else false
        | [] => false
        end
  end.

Lemma plainChar_cases c :
  plainChar c = true ->
  JsRegExp.outsideFragment c = false /\ JsRegExp.isQuantifier c = false /\
  Ascii.eqb c "|" = false /\ Ascii.eqb c ")" = false /\
  Ascii.eqb c "^" = false /\ Ascii.eqb c "$" = false /\
  Ascii.eqb c "(" = false /\ Ascii.eqb c "." = false.
Proof.
  unfold plainChar. cbn [existsb]. intros H.
  apply andb_prop in H. destruct H as [H H3].
  apply andb_prop in H. destruct H as [H1 H2].
  apply negb_true_iff in H1, H2, H3.
  repeat (apply orb_false_elim in H3; destruct H3 as [? H3]).
  repeat split; assumption.
Qed.

Lemma quantified_plain a c t :
  JsRegExp.outsideFragment c = false -> JsRegExp.isQuantifier c = false ->
  JsRegExp.quantified a (c :: t) = JsRegExp.Ok (a, c :: t).
Proof.
  destruct c as [b0 b1 b2 b3 b4 b5 b6 b7].
  destruct b0, b1, b2, b3, b4, b5, b6, b7; intros H1 H2;
    try reflexivity; vm_compute in H1, H2; discriminate.
Qed.

Lemma parseAlternative_step f acc c s :
  plainChar c = true ->
  (forall a, JsRegExp.quantified a s = JsRegExp.Ok (a, s)) ->
  JsRegExp.parseAlternative (S f) acc (c :: s)
  = JsRegExp.parseAlternative f (JsRegExp.Seq acc (JsRegExp.Chr c)) s.
Proof.
  intros P Q.
  destruct (plainChar_cases c P) as (H1 & H2 & H3 & H4 & H5 & H6 & H7 & H8).
  cbn [JsRegExp.parseAlternative].
  rewrite H1, H2, H3, H4, H5, H6, H7, H8. cbn [orb]. rewrite Q. reflexivity.
Qed.

Lemma parseAlternative_plain l :
  forall f acc,
    forallb plainChar l = true ->
    (List.length l + 2 <= f)%nat ->
    JsRegExp.parseAlternative f acc (l ++ ["$"%char])
    = JsRegExp.Ok (JsRegExp.Seq (litSeq acc l) JsRegExp.Eol, []).
Proof.
  induction l as [|c l IH]; intros f acc P L.
  - destruct f as [|[|f]]; cbn [List.length] in L; try lia. reflexivity.
  - cbn [forallb] in P. apply andb_prop in P. destruct P as [Pc Pl].
    destruct f as [|f]; cbn [List.length] in L; [lia|].
    cbn [app]. rewrite parseAlternative_step.
    + apply IH; [exact Pl|lia].
    + exact Pc.
    + intros a. destruct l as [|d l'].
      * reflexivity.
      * cbn [forallb] in Pl. apply andb_prop in Pl. destruct Pl as [Pd _].
        destruct (plainChar_cases d Pd) as (H1 & H2 & _).
        cbn [app]. apply quantified_plain; assumption.
Qed.

Lemma list_ascii_of_string_app a b :
  list_ascii_of_string (a ++ b)
  = (list_ascii_of_string a ++ list_ascii_of_string b)%list.
Proof.
  induction a as [|c a IH]; cbn [append list_ascii_of_string app];
    [reflexivity|]. rewrite IH. reflexivity.
Qed.

(** The pattern of the duplicate check, for a name of plain characters. *)
Lemma compile_plain_name name :
  forallb plainChar (list_ascii_of_string name) = true ->
  JsRegExp.compile ("^" ++ name ++ "$")
  = JsRegExp.Regex
      (JsRegExp.Seq
         (litSeq (JsRegExp.Seq JsRegExp.Eps JsRegExp.Bol)
            (list_ascii_of_string name))
         JsRegExp.Eol).
Proof.
  intros P. unfold JsRegExp.compile.
  rewrite !list_ascii_of_string_app.
  change (list_ascii_of_string "^") with ["^"%char].
  change (list_ascii_of_string "$") with ["$"%char].
  set (l := list_ascii_of_string name) in *.
  cbn [app List.length].
  replace (2 * S (List.length (l ++ ["$"%char])) + 2)%nat
    with (S (S (List.length l + List.length l + 4)))%nat
    by (rewrite length_app; cbn [List.length]; lia).
  cbn [JsRegExp.parseDisjunction].
  change (JsRegExp.parseAlternative
            (S (List.length l + List.length l + 4)) JsRegExp.Eps
            ("^"%char :: l ++ ["$"%char])%list)
    with (JsRegExp.parseAlternative (List.length l + List.length l + 4)
            (JsRegExp.Seq JsRegExp.Eps JsRegExp.Bol) (l ++ ["$"%char])).
  rewrite (parseAlternative_plain l _ _ P) by lia.
  reflexivity.
Qed.

Lemma matchFrom_litSeq n ic l :
  forall acc st s k,
    JsRegExp.matchFrom (S n) ic (litSeq acc l) st s k
    = JsRegExp.matchFrom (S n) ic acc st s (contChars ic l k).
Proof.
  induction l as [|c l IH]; intros acc st s k; [reflexivity|].
  unfold litSeq. cbn [fold_left]. fold (litSeq (JsRegExp.Seq acc (JsRegExp.Chr c)) l).
  rewrite IH. reflexivity.
Qed.

Lemma contChars_end ic l :
  forall st s,
    contChars ic l
      (fun st' s' =>
         JsRegExp.matchFrom 1 ic JsRegExp.Eol st' s' (fun _ _ => true)) st s
    = sameChars ic l s.
Proof.
  induction l as [|c l IH]; intros st s.
  - destruct s; reflexivity.
  - cbn [contChars sameChars]. destruct s as [|x s]; [reflexivity|].
    destruct (JsRegExp.sameChar ic c x); [apply IH|reflexivity].
Qed.

Lemma matchFrom_Eol n ic st s k :
  JsRegExp.matchFrom (S n) ic JsRegExp.Eol st s k
  = JsRegExp.matchFrom 1 ic JsRegExp.Eol st s k.
Proof. reflexivity. Qed.

(** The anchored pattern of a plain name matches a text exactly when the
    two are equal character by character. *)
Lemma test_plain_name ic l s :
  JsRegExp.test ic
    (JsRegExp.Seq (litSeq (JsRegExp.Seq JsRegExp.Eps JsRegExp.Bol) l)
       JsRegExp.Eol) s
  = sameChars ic l (list_ascii_of_string s).
Proof.
  unfold JsRegExp.test.
  set (R := JsRegExp.Seq (litSeq (JsRegExp.Seq JsRegExp.Eps JsRegExp.Bol) l)
              JsRegExp.Eol).
  assert (M : forall n st t,
            JsRegExp.matchFrom (S n) ic R st t (fun _ _ => true)
            = if st then sameChars ic l t else false).
  { intros n st t. unfold R.
    change (JsRegExp.matchFrom (S n) ic
              (JsRegExp.Seq
                 (litSeq (JsRegExp.Seq JsRegExp.Eps JsRegExp.Bol) l)
                 JsRegExp.Eol) st t (fun _ _ => true))
      with (JsRegExp.matchFrom (S n) ic
              (litSeq (JsRegExp.Seq JsRegExp.Eps JsRegExp.Bol) l) st t
              (fun st' s' =>
                 JsRegExp.matchFrom 1 ic JsRegExp.Eol st' s'
                   (fun _ _ => true))).
    rewrite matchFrom_litSeq.
    change (JsRegExp.matchFrom (S n) ic
              (JsRegExp.Seq JsRegExp.Eps JsRegExp.Bol) st t
              (contChars ic l
                 (fun st' s' =>
                    JsRegExp.matchFrom 1 ic JsRegExp.Eol st' s'
                      (fun _ _ => true))))
      with (if st
            then contChars ic l
                   (fun st' s' =>
                      JsRegExp.matchFrom 1 ic JsRegExp.Eol st' s'
                        (fun _ _ => true)) st t
            else false).
    destruct st; [apply contChars_end|reflexivity]. }
  assert (N : forall t, JsRegExp.searchFrom ic R false t = false).
  { induction t as [|x t IH]; cbn [JsRegExp.searchFrom]; rewrite M;
      [reflexivity|exact IH]. }
  destruct (list_ascii_of_string s) as [|x t]; cbn [JsRegExp.searchFrom];
    rewrite M.
  - destruct (sameChars ic l []); reflexivity.
  - destruct (sameChars ic l (x :: t)); [reflexivity|apply N].
Qed.

Lemma sameChars_upper p :
  forall s,
    sameChars true p s = true <->
    map JsString.upperChar p = map JsString.upperChar s.
Proof.
  induction p as [|c p IH]; intros [|x s]; cbn [sameChars map].
  - split; reflexivity.
  - split; discriminate.
  - split; discriminate.
  - unfold JsRegExp.sameChar.
    destruct (Ascii.eqb (JsString.upperChar c) (JsString.upperChar x)) eqn:E.
    + apply Ascii.eqb_eq in E. rewrite IH. split.
      * intros H. rewrite E, H. reflexivity.
      * intros H. inversion H. reflexivity.
    + apply Ascii.eqb_neq in E. split; [discriminate|].
      intros H. inversion H. contradiction.
Qed.

(** The conditions of the duplicate guard, with the name compared up to
    the case of its letters. *)
Definition sameBookingPaid (carnival email phone childName : string)
    (date : Z) (r : SpecialCourse.doc) : Prop :=
  SpecialCourse.carnivalName r = carnival /\
  SpecialCourse.selectedDate r = date /\
  map JsString.upperChar (list_ascii_of_string (SpecialCourse.childName r))
  = map JsString.upperChar (list_ascii_of_string (JsString.trim childName)) /\
  SpecialCourse.status r = Status.registered /\
  SpecialCourse.payment_status r = PaymentStatus.paid /\
  (SpecialCourse.email r = JsString.trim (JsString.toLowerCase email) \/
   SpecialCourse.phone r = JsString.trim phone).

Lemma duplicateQuery_plain carnival qd name email phone r :
  duplicateQuery carnival qd
    (JsRegExp.Seq
       (litSeq (JsRegExp.Seq JsRegExp.Eps JsRegExp.Bol)
          (list_ascii_of_string (JsString.trim name)))
       JsRegExp.Eol)
    (JsString.trim (JsString.toLowerCase email)) (JsString.trim phone) r
  = true <->
  sameBookingPaid carnival email phone name qd r.
Proof.
  unfold duplicateQuery, sameBookingPaid. rewrite test_plain_name.
  rewrite !andb_true_iff, orb_true_iff, !String.eqb_eq, Z.eqb_eq,
    Status_eqb_eq, PaymentStatus_eqb_eq.
  rewrite <- sameChars_upper.
  assert (S : forall a b, sameChars true a b = true <->
                          sameChars true b a = true).
  { intros a b. rewrite !sameChars_upper. split; intros H; symmetry; exact H. }
  rewrite (S (list_ascii_of_string (SpecialCourse.childName r))).
  tauto.
Qed.

(** A child name as the store holds it when it was typed in ASCII: the
    [trim] setter of the schema has removed the surrounding white space. *)
Definition plainStoredName (r : SpecialCourse.doc) : Prop :=
  JsString.isAscii (SpecialCourse.childName r) = true /\
  JsString.trim (SpecialCourse.childName r) = SpecialCourse.childName r.

(** X13.  For a child name that, once trimmed, has no character with a
    meaning in a pattern, a carnival name without surrounding white space,
    an email in ASCII, a date the query can parse, and a store whose child
    names are in ASCII, the duplicate guard is exact: it reports a
    duplicate precisely when some reservation is registered and paid for
    the same carnival and date, carries the same email (lower-cased,
    trimmed) or the same phone (trimmed), and has the same child name up to
    the case of the letters a-z; and what it reports is such a
    reservation. *)
Theorem duplicate_guard_on_plain_names (rt : Runtime)
    (carnival email phone childName selectedDate : string) (st : Store)
    (qd : Z) :
  forallb plainChar (list_ascii_of_string (JsString.trim childName)) = true ->
  JsString.trim carnival = carnival ->
  JsString.isAscii email = true ->
  (forall r, In r (courses st) -> plainStoredName r) ->
  parseDateForQuery rt (DateString selectedDate) = Some qd ->
  (forall existing,
     checkDuplicateRegistration rt carnival email phone childName
       selectedDate st = DupFound existing ->
     In existing (courses st) /\
     sameBookingPaid carnival email phone childName qd existing) /\
  ((exists existing,
      checkDuplicateRegistration rt carnival email phone childName
        selectedDate st = DupFound existing) <->
   (exists r, In r (courses st) /\
              sameBookingPaid carnival email phone childName qd r)) /\
  (checkDuplicateRegistration rt carnival email phone childName
     selectedDate st = DupNone <->
   forall r, In r (courses st) ->
             ~ sameBookingPaid carnival email phone childName qd r).
Proof.
  intros P _ _ _ D. unfold checkDuplicateRegistration.
  rewrite (compile_plain_name (JsString.trim childName) P), D.
  set (q := duplicateQuery carnival qd _ _ _).
  assert (Q : forall r, q r = true <->
                        sameBookingPaid carnival email phone childName qd r)
    by (intros r; apply duplicateQuery_plain).
  destruct (find q (courses st)) as [x|] eqn:F.
  - destruct (find_some _ _ F) as [Hin Hq].
    split; [|split].
    + intros existing H. inversion H; subst. split; [exact Hin|].
      apply Q. exact Hq.
    + split; [|intros _; exists x; reflexivity].
      intros _. exists x. split; [exact Hin|apply Q; exact Hq].
    + split; [discriminate|]. intros H. exfalso.
      apply (H x Hin). apply Q. exact Hq.
  - split; [|split].
    + intros existing H. discriminate.
    + split; [intros [e H]; discriminate|].
      intros (r & Hin & Hr). apply Q in Hr.
      rewrite (find_none _ _ F r Hin) in Hr. discriminate.
    + split; [|reflexivity]. intros _ r Hin Hr. apply Q in Hr.
      rewrite (find_none _ _ F r Hin) in Hr. discriminate.
Qed.

Lemma duplicate_guard_on_plain_names_witness :
  exists existing,
    checkDuplicateRegistration sampleRuntime "Republic Day Carnival"
      " Asha@Example.com" "00000" "  meera " "2026-01-26" paidMeeraStore
    = DupFound existing /\
    SpecialCourse.registrationId existing = "LS-RD26-00001".
Proof.
  assert (H : exists r,
            In r (courses paidMeeraStore) /\
            SpecialCourse.registrationId r = "LS-RD26-00001" /\
            sameBookingPaid "Republic Day Carnival" " Asha@Example.com"
              "00000" "  meera " offlineDay r).
  { eexists. split; [left; reflexivity|]. split; [reflexivity|].
    repeat split; try reflexivity. left. reflexivity. }
  destruct H as (r & Hin & Hid & Hr).
  assert (Hstore : forall d, In d (courses paidMeeraStore) ->
                             plainStoredName d).
  { intros d [Hd|[]]. subst d. split; reflexivity. }
  destruct (proj2 (proj1 (proj2
              (duplicate_guard_on_plain_names sampleRuntime
                 "Republic Day Carnival" " Asha@Example.com" "00000"
                 "  meera " "2026-01-26" paidMeeraStore offlineDay
                 eq_refl eq_refl eq_refl Hstore eq_refl)))
              (ex_intro _ r (conj Hin Hr))) as [existing E].
  exists existing. split; [exact E|].
  destruct (proj1 (duplicate_guard_on_plain_names sampleRuntime
                     "Republic Day Carnival" " Asha@Example.com" "00000"
                     "  meera " "2026-01-26" paidMeeraStore offlineDay
                     eq_refl eq_refl eq_refl Hstore eq_refl) existing E)
    as [Hex _].
  destruct Hex as [Hx|[]]. rewrite <- Hx. reflexivity.
Defined.

(* ------------------------------------------------------------------ *)
(** *** An order for a hold that can no longer be paid *)





(* ------------------------------------------------------------------ *)
(** *** The place a registration takes *)

(** The shape of the store and of the new hold after a registration that
    is answered 201. *)
Lemma register_created_shape rt now b st created slot :
  fst (register rt now b st) = RegCreated created slot ->
  exists date,
    Validation.validateDate now (RegisterBody.selectedDate b)
      (RegisterBody.availableDates b)
    = Validation.DateValid date
        (Validation.valueOf (RegisterBody.selectedDate b)) /\
    slot = fst (checkSlotAvailability rt now
                  (Validation.valueOf (RegisterBody.carnivalName b))
                  (Validation.valueOf (RegisterBody.selectedBatch b))
                  (DateString (Validation.valueOf (RegisterBody.selectedDate b)))
                  st) /\
    isFull slot = false /\
    courses (snd (register rt now b st))
    = (courses (snd (checkSlotAvailability rt now
                       (Validation.valueOf (RegisterBody.carnivalName b))
                       (Validation.valueOf (RegisterBody.selectedBatch b))
                       (DateString
                          (Validation.valueOf (RegisterBody.selectedDate b)))
                       st)) ++ [created])%list /\
    created
    = withId (SpecialCourse._id created)
        (castNew (newRegistration now (SpecialCourse.registrationId created)
                    (Validation.valueOf (RegisterBody.carnivalName b))
                    date b)).
Proof.
  unfold register.
  destruct (negb (Validation.isValid _)); [discriminate|].
  destruct (Validation.falsy (RegisterBody.carnivalName b)); [discriminate|].
  destruct (Validation.validateDate now _ _) as [date ds|e] eqn:Ed;
    [|discriminate].
  destruct (validateDate_valid _ _ _ _ _ Ed) as (Hds & _ & _).
  destruct (negb (Validation.validateBatch _)); [discriminate|].
  intros H. exists date. rewrite Hds. split; [reflexivity|].
  assert (K : fst (registerAfterDuplicateCheck rt now
                     (Validation.valueOf (RegisterBody.carnivalName b))
                     date b st) = RegCreated created slot /\
              snd (match checkDuplicateRegistration rt
                  (Validation.valueOf (RegisterBody.carnivalName b))
                  (Validation.valueOf (RegisterBody.email b))
                  (Validation.valueOf (RegisterBody.phone b))
                  (Validation.valueOf (RegisterBody.childName b))
                  (Validation.valueOf (RegisterBody.selectedDate b)) st with
          | DupOutside => (RegOutside, st)
          | DupFound existing =>
              (RegDuplicate (SpecialCourse.registrationId existing)
                            (SpecialCourse.selectedBatch existing), st)
          | DupNone | DupError _ =>
              registerAfterDuplicateCheck rt now
                (Validation.valueOf (RegisterBody.carnivalName b)) date b st
          end) = snd (registerAfterDuplicateCheck rt now
                     (Validation.valueOf (RegisterBody.carnivalName b))
                     date b st)).
  { destruct (checkDuplicateRegistration rt _ _ _ _ _ st);
      try discriminate; split; try exact H; reflexivity. }
  destruct K as [K1 K2]. rewrite K2. clear H K2. revert K1.
  unfold registerAfterDuplicateCheck.
  destruct (checkSlotAvailability rt now _ _ _ st) as [slot1 st1].
  cbn [fst snd].
  destruct (isFull slot1) eqn:Ef; [discriminate|].
  set (r0 := newRegistration now (generateRegistrationId st1)
               (Validation.valueOf (RegisterBody.carnivalName b)) date b).
  unfold saveNewDocument.
  destruct (negb _); [discriminate|].
  destruct (existsb _ (courses st1)); [discriminate|].
  cbn [fst snd]. intros H. inversion H; subst created slot1. clear H.
  rewrite (preSave_new_hold now (castNew r0)) by reflexivity.
  cbn [courses withCourses].
  split; [reflexivity|]. split; [exact Ef|]. split; reflexivity.
Qed.

Lemma countDocuments_snoc {A} (q : A -> bool) (l : list A) (x : A) :
  countDocuments q (l ++ [x]) = countDocuments q l + (if q x then 1 else 0).
Proof.
  unfold countDocuments. rewrite filter_app, length_app. cbn [filter].
  destruct (q x); cbn [List.length]; lia.
Qed.

Lemma registeredCount_counts rt now carnival batch date qd st :
  parseDateForQuery rt date = Some qd ->
  registeredCount (fst (checkSlotAvailability rt now carnival batch date st))
  = countDocuments (paidQuery carnival batch qd) (courses st) +
    countDocuments (activePendingQuery carnival batch qd
                      (deleteThresholdAt now)) (courses st).
Proof.
  intros P.
  destruct (checkSlotAvailability_snapshot rt now carnival batch date qd st P)
    as (H & _).
  rewrite H, paidQuery_count, activePendingQuery_count. reflexivity.
Qed.

(** X15.  A registration that is answered 201 takes exactly one place in
    the slot it asked for.  When the date has the three parts
    [year-month-day] and the carnival and batch names carry no surrounding
    white space, a slot query for the same carnival, batch and date at the
    same instant counts one reservation more than the snapshot returned
    with the registration, and the new hold is among the active holds of
    that slot. *)
Theorem register_takes_one_place (rt : Runtime) (now : Z)
    (b : RegisterBody.t) (st : Store) (created : SpecialCourse.doc)
    (slot : SlotInfo) :
  let carnival := Validation.valueOf (RegisterBody.carnivalName b) in
  let batch := Validation.valueOf (RegisterBody.selectedBatch b) in
  let date := Validation.valueOf (RegisterBody.selectedDate b) in
  fst (register rt now b st) = RegCreated created slot ->
  List.length (JsString.split "-" date) = 3%nat ->
  JsString.trim carnival = carnival ->
  JsString.trim batch = batch ->
  parseDateForQuery rt (DateString date)
  = Some (SpecialCourse.selectedDate created) /\
  activePendingQuery carnival batch (SpecialCourse.selectedDate created)
    (deleteThresholdAt now) created = true /\
  registeredCount
    (fst (checkSlotAvailability rt now carnival batch (DateString date)
            (snd (register rt now b st))))
  = registeredCount slot + 1.
Proof.
  intros carnival batch date H L Tc Tb.
  destruct (register_created_shape rt now b st created slot H)
    as (d & Ed & Hslot & _ & Hc & Hcr).
  fold carnival batch date in Ed, Hslot, Hc, Hcr.
  assert (Hd : SpecialCourse.selectedDate created = d).
  { rewrite Hcr. reflexivity. }
  assert (P : parseDateForQuery rt (DateString date) = Some d).
  { unfold parseDateForQuery. rewrite L. cbn [Nat.eqb].
    revert Ed. unfold Validation.validateDate.
    destruct (Validation.falsy _); [discriminate|].
    fold date.
    destruct (JsDate.UTC _ _ _) as [x|]; [|discriminate].
    destruct (negb _); [discriminate|].
    destruct (JsDate.utcMidnight now);
      [destruct (x <? _); [discriminate|]|];
      intros E; inversion E; reflexivity. }
  assert (A : activePendingQuery carnival batch d (deleteThresholdAt now)
                created = true).
  { rewrite Hcr. unfold activePendingQuery, inScope, isPending.
    cbn [withId castNew newRegistration SpecialCourse.carnivalName
         SpecialCourse.selectedBatch SpecialCourse.selectedDate
         SpecialCourse.status SpecialCourse.payment_status
         SpecialCourse.createdAt Status.eqb PaymentStatus.eqb].
    unfold Validation.sanitized. fold carnival batch.
    rewrite !trim_trim, Tc, Tb, !String.eqb_refl, Z.eqb_refl.
    cbn [andb]. apply Z.leb_le. unfold deleteThresholdAt,
      DELETE_PENDING_AFTER_MINUTES. lia. }
  assert (N : paidQuery carnival batch d created = false).
  { rewrite Hcr. unfold paidQuery, SpecialCourse.isRegistrationComplete.
    cbn [withId castNew newRegistration SpecialCourse.status Status.eqb].
    cbn [andb]. apply andb_false_r. }
  rewrite Hd. split; [exact P|]. split; [exact A|].
  rewrite (registeredCount_counts rt now carnival batch (DateString date) d
             _ P).
  rewrite Hc, !countDocuments_snoc, A, N.
  rewrite checkSlotAvailability_courses, P.
  rewrite (count_after_deleteMany _ _ _
             (paid_not_oldPending carnival batch d (deleteThresholdAt now))).
  rewrite (count_after_deleteMany _ _ _
             (active_not_oldPending carnival batch d (deleteThresholdAt now))).
  rewrite Hslot.
  rewrite (registeredCount_counts rt now carnival batch (DateString date) d
             st P).
  lia.
Qed.

Lemma register_takes_one_place_witness :
  exists created slot,
    fst (register sampleRuntime sampleNow plainBody nineteenPaidStore)
      = RegCreated created slot /\
    registeredCount slot = 19 /\
    registeredCount
      (fst (checkSlotAvailability sampleRuntime sampleNow
              "Republic Day Carnival" sampleBatch (DateString "2026-01-26")
              (snd (register sampleRuntime sampleNow plainBody
                      nineteenPaidStore)))) = 20.
Proof.
  assert (R : { created : SpecialCourse.doc & { slot : SlotInfo |
    fst (register sampleRuntime sampleNow plainBody nineteenPaidStore)
      = RegCreated created slot /\ registeredCount slot = 19 } }).
  { eexists. eexists. vm_compute. split; reflexivity. }
  destruct R as [created [slot [R C]]].
  exists created, slot. split; [exact R|]. split; [exact C|].
  destruct (register_takes_one_place sampleRuntime sampleNow plainBody
              nineteenPaidStore created slot R eq_refl eq_refl eq_refl)
    as (_ & _ & H).
  cbn [Validation.valueOf plainBody RegisterBody.carnivalName
       RegisterBody.selectedBatch RegisterBody.selectedDate] in H.
  rewrite H, C. reflexivity.
Defined.

(* ------------------------------------------------------------------ *)
(** *** The states the handlers write *)

(** The values of [status] and [payment_status] the handlers and the save
    hook assign. *)
Definition writtenState (r : SpecialCourse.doc) : Prop :=
  (SpecialCourse.status r = Status.pending_payment \/
   SpecialCourse.status r = Status.registered \/
   SpecialCourse.status r = Status.expired) /\
  (SpecialCourse.payment_status r = PaymentStatus.pending \/
   SpecialCourse.payment_status r = PaymentStatus.paid \/
   SpecialCourse.payment_status r = PaymentStatus.expired).

Lemma preSave_writtenState now r : writtenState r -> writtenState (preSave now r).
Proof.
  intros W. destruct (preSave_status_cases now r) as [E|(Hs & Hp & _)].
  - rewrite E. exact W.
  - split; [right; right; exact Hs|right; right; exact Hp].
Qed.

Lemma Updates_writtenState r r' :
  Updates r r' -> writtenState r -> writtenState r'.
Proof.
  intros (_ & _ & _ & U) [Ws Wp].
  destruct U as [[Hs Hp]|[[Hs Hp]|[Hs Hp]]].
  - split; [right; left; exact Hs|right; left; exact Hp].
  - split; [rewrite Hs; exact Ws|].
    destruct Hp as [Hp|Hp]; rewrite Hp; [exact Wp|left; reflexivity].
  - split; [left; exact Hs|left; exact Hp].
Qed.

Lemma Outcome_writtenState now cs cs' :
  Outcome now cs cs' -> Forall writtenState cs -> Forall writtenState cs'.
Proof.
  intros O W. destruct O as [cs1 S|cs1 r r' S Hin U|cs1 r S _ _ Hs Hp].
  - apply (Sub_Forall _ _ _ S W).
  - pose proof (Sub_Forall _ _ _ S W) as W1.
    apply Forall_forall. intros x Hx. apply in_map_iff in Hx.
    destruct Hx as (d & Ex & Hd).
    destruct (hasId (SpecialCourse._id r) d); subst x.
    + apply preSave_writtenState. apply (Updates_writtenState r r' U).
      apply (proj1 (Forall_forall _ _) W1 r Hin).
    + apply (proj1 (Forall_forall _ _) W1 d Hd).
  - apply Forall_app. split; [apply (Sub_Forall _ _ _ S W)|].
    constructor; [|constructor].
    assert (P : writtenState (preSave now r)).
    { apply preSave_writtenState. split; left; assumption. }
    exact P.
Qed.

(** X16.  No reservation is ever stored with the states [cancelled] or
    [refunded], nor with the payment states [failed] or [refunded] (the
    save of [handlePaymentRefunded] is rejected by the schema): in every
    reachable store each reservation is [pending_payment], [registered] or
    [expired], and its payment is [pending], [paid] or [expired]. *)
Theorem reachable_written_states (rt : Runtime) (t : Z) (st : Store)
    (r : SpecialCourse.doc) :
  reachableAt rt t st ->
  In r (courses st) ->
  (SpecialCourse.status r = Status.pending_payment \/
   SpecialCourse.status r = Status.registered \/
   SpecialCourse.status r = Status.expired) /\
  (SpecialCourse.payment_status r = PaymentStatus.pending \/
   SpecialCourse.payment_status r = PaymentStatus.paid \/
   SpecialCourse.payment_status r = PaymentStatus.expired).
Proof.
  intros R Hin.
  assert (W : Forall writtenState (courses st)).
  { clear r Hin. induction R.
    - constructor.
    - apply (Outcome_writtenState now (courses st));
        [apply step_Outcome|exact IHR]. }
  apply (proj1 (Forall_forall _ _) W r Hin).
Qed.

Lemma reachable_written_states_witness :
  exists r,
    In r (courses paidStore) /\
    SpecialCourse.registrationId r = "LS-RD26-00001" /\
    (SpecialCourse.status r = Status.pending_payment \/
     SpecialCourse.status r = Status.registered \/
     SpecialCourse.status r = Status.expired).
Proof.
  assert (F : { r | find (hasRegistrationId "LS-RD26-00001")
                      (courses paidStore) = Some r }).
  { eexists. vm_compute. reflexivity. }
  destruct F as [r F]. destruct (find_some _ _ F) as [Hin Hid].
  exists r. split; [exact Hin|]. split.
  - unfold hasRegistrationId in Hid. apply String.eqb_eq in Hid. exact Hid.
  - apply (proj1 (reachable_written_states sampleRuntime (sampleNow + 3000)
                    paidStore r paidStore_reachable Hin)).
Defined.
